(** * openshift-qemu: the cluster provisioning orchestrator

    A shallow embedding of the Go packages [libvirt] (pkg/systemd/systemd.go),
    [cluster] (haproxy.go and the node-creation file) and the part of [dns]
    and [logging] they call, followed by the properties of the
    specification that were checked against them.

    The hypervisor, the service manager, the SSH tools and the file system
    are outside the program.  Every call the program makes to them is
    recorded, in order, in a trace of [Event]s, and its answer is taken from
    an environment that may look at the whole trace so far (so a lease may
    appear at the third query, an SSH attempt may succeed at the tenth).
    The contents of the files the program writes are kept in a finite map.

    Not traced: messages written by [logging.Info] and [fmt.Printf], and the
    deferred [Free]/[Close] of libvirt handles.  [logging.Fatal] is traced as
    the way a run ends: its own comment says that it logs an error and
    exits the program. *)

From Stdlib Require Import ZArith String Ascii List Lia.
From stdpp Require Import base strings gmap list pretty.

Open Scope string_scope.
Open Scope list_scope.

(** ** Go strings and [fmt] verbs *)

(** The double quote and the line feed, which the Go literals contain. *)
Definition dq : string := String "034"%char EmptyString.
Definition nl : string := String "010"%char EmptyString.

(** [s != ""] *)
Definition nonempty (s : string) : bool :=
  match s with
  | EmptyString => false
  | String _ _ => true
  end.

(** [strings.Contains(s, sub)] *)
Definition Contains (s sub : string) : bool :=
  match index 0 sub s with
  | Some _ => true
  | None => false
  end.

(** The verb [%d] of [fmt.Sprintf]. *)
Definition fmt_d (n : Z) : string := pretty n.

(** The conversion [uint(x)] of an [int] on a 64-bit platform. *)
Definition uint (x : Z) : Z := (x mod 2 ^ 64)%Z.

(** A Go [error] is modelled by its message; [None] is [nil]. *)
Definition error := string.

(** ** The libvirt binding: data *)

Record DomainIPAddress := mkAddr {
  AddrType : Z;
  Addr : string;
  AddrPrefix : Z
}.

Record DomainInterface := mkIface {
  IfaceName : string;
  Hwaddr : string;
  Addrs : list DomainIPAddress
}.

(** Constants of the libvirt binding, with the values of libvirt's headers. *)
Definition IP_ADDR_TYPE_IPV4 : Z := 0.
Definition IP_ADDR_TYPE_IPV6 : Z := 1.
Definition DOMAIN_INTERFACE_ADDRESSES_SRC_LEASE : Z := 0.
Definition NETWORK_UPDATE_COMMAND_ADD_LAST : Z := 3.
Definition NETWORK_SECTION_IP_DHCP_HOST : Z := 4.
Definition NETWORK_UPDATE_AFFECT_LIVE : Z := 1.
Definition NETWORK_UPDATE_AFFECT_CONFIG : Z := 2.

Module VMParams.
Record t := mk {
    Name : string;
    Memory : Z;
    CPUs : Z;
    DiskPath : string;
    OSVariant : string;
    Location : string;
    ExtraArgs : string;
    Network : string
}.
End VMParams.

Module NodeParams.
Record t := mk {
    ClusterName : string;
    BaseDomain : string;
    VMDir : string;
    LBIP : string;
    WSPort : Z;
    Image : string;
    VirNet : string;
    BtsMem : Z;
    BtsCPU : Z;
    MasMem : Z;
    MasCPU : Z;
    WorMem : Z;
    WorCPU : Z;
    NMaster : Z;
    NWorker : Z;
    RHCOSArg : string;
    LibguestfsBackend : string
}.
End NodeParams.

Module LBVMParams.
Record t := mk {
    ClusterName : string;
    CPU : Z;
    MEM : Z;
    VirNet : string;
    VMDiskPath : string;
    SSHPubKey : string;
    BaseDomain : string;
    LibguestfsBackend : string
}.
End LBVMParams.

(** ** Calls to the outside world *)

Inductive Event :=
| EConnect (uri : string)
| ELookupDomainByName (name : string)
| EListAllInterfaceAddresses (name : string) (src : Z)
| EDomainCreateXML (xml : string) (flags : Z)
| EDomainCreate (name : string)
| ELookupNetworkByName (name : string)
| ENetworkDefineXML (xml : string)
| ENetworkSetAutostart (name : string) (autostart : bool)
| ENetworkCreate (name : string)
| ENetworkGetBridgeName (name : string)
| ENetworkGetXMLDesc (name : string) (flags : Z)
| ENetworkUpdate (name : string) (cmd section parentIndex : Z)
                 (xml : string) (flags : Z)
| ESleep (seconds : Z)
| EExec (cmd : string) (args : list string)
| EWriteFile (path data : string) (perm : Z)
| EOpenFile (path : string) (append create : bool) (perm : Z)
| EWriteString (path data : string).

(** The answers of the outside world, by the shape of the answer.  The
    first argument is the trace of all earlier calls. *)
Record Env := mkEnv {
  ask_err : list Event -> Event -> option error;
  ask_str : list Event -> Event -> error + string;
  ask_ifaces : list Event -> Event -> error + list DomainInterface
}.

Record World := mkWorld {
  trace : list Event;
  files : gmap string string
}.

(** How a run of a function ends: it returns, the process is ended by
    [logging.Fatal], the Go runtime panics, or the iterations allowed to
    its loops are used up before it returns. *)
Inductive Res (A : Type) :=
| Ret (a : A)
| Fatal (msg : string) (err : error)
| Panic (msg : string)
| Spin.
Arguments Ret {A} a.
Arguments Fatal {A} msg err.
Arguments Panic {A} msg.
Arguments Spin {A}.

Definition M (A : Type) : Type := World -> Res A * World.

Definition ret {A} (a : A) : M A := fun w => (Ret a, w).

Definition bind {A B} (m : M A) (k : A -> M B) : M B :=
  fun w =>
    match m w with
    | (Ret a, w') => k a w'
    | (Fatal msg err, w') => (Fatal msg err, w')
    | (Panic msg, w') => (Panic msg, w')
    | (Spin, w') => (Spin, w')
    end.

Notation "'do' x <- m ; k" := (bind m (fun x => k))
  (at level 10, x pattern, m at level 100, k at level 200).

(** [logging.Fatal(msg, err)] *)
Definition logFatal {A} (msg : string) (err : error) : M A :=
  fun w => (Fatal msg err, w).

Definition panic {A} (msg : string) : M A := fun w => (Panic msg, w).

Definition record (ev : Event) (w : World) : World :=
  mkWorld (trace w ++ [ev]) (files w).

(** A [for { ... }] loop: the body either returns from the function
    ([Some a]) or falls through to the next iteration ([None]). *)
Fixpoint forever {A} (fuel : nat) (body : M (option A)) : M A :=
  match fuel with
  | O => fun w => (Spin, w)
  | S fuel' =>
      do r <- body;
      match r with
      | Some a => ret a
      | None => forever fuel' body
      end
  end.

(** A counted [for] loop whose body returns from the function on an
    error: [for i := ...; ...; i++ { if err := body(i); err != nil
    { return err } }; return nil]. *)
Fixpoint for_each {I} (l : list I) (body : I -> M (option error))
  : M (option error) :=
  match l with
  | [] => ret None
  | i :: l' =>
      do e <- body i;
      match e with
      | Some err => ret (Some err)
      | None => for_each l' body
      end
  end.

(** [for i := 1; i <= n; i++], for [n] below the largest [int]. *)
Definition upto (n : Z) : list Z := seqZ 1 n.

Section Program.

Variable env : Env.

(** The package constant [osVariant] of [cluster]; its declaration is not
    among the sources, and no function reads the field it is stored in. *)
Variable osVariant : string.

Definition call_err (ev : Event) : M (option error) :=
  fun w => (Ret (ask_err env (trace w) ev), record ev w).

Definition call_str (ev : Event) : M (error + string) :=
  fun w => (Ret (ask_str env (trace w) ev), record ev w).

Definition call_ifaces (ev : Event) : M (error + list DomainInterface) :=
  fun w => (Ret (ask_ifaces env (trace w) ev), record ev w).

(** [time.Sleep(n * time.Second)] *)
Definition sleep (seconds : Z) : M unit :=
  fun w => (Ret tt, record (ESleep seconds) w).

(** [exec.Command(cmd, args...).Run()].  [files] follows the files the
    program reads and writes through package [os]; what a command does to
    files of its own (ssh-keygen and ssh to known_hosts) is not part of
    it. *)
Definition exec (cmd : string) (args : list string) : M (option error) :=
  call_err (EExec cmd args).

(** [os.WriteFile(path, data, perm)]: the file is created or truncated and
    then holds [data]. *)
Definition WriteFile (path data : string) (perm : Z) : M (option error) :=
  fun w =>
    let ev := EWriteFile path data perm in
    match ask_err env (trace w) ev with
    | Some err => (Ret (Some err), record ev w)
    | None => (Ret None, mkWorld (trace w ++ [ev]) (<[path := data]> (files w)))
    end.

(** [os.OpenFile(path, os.O_APPEND|os.O_WRONLY, perm)]: without [O_CREATE]
    a file that does not exist is an error. *)
Definition OpenFileAppend (path : string) (perm : Z) : M (option error) :=
  fun w =>
    let ev := EOpenFile path true false perm in
    match ask_err env (trace w) ev with
    | Some err => (Ret (Some err), record ev w)
    | None =>
        match files w !! path with
        | Some _ => (Ret None, record ev w)
        | None =>
            (Ret (Some ("open " +:+ path +:+ ": no such file or directory")),
             record ev w)
        end
    end.

(** [f.WriteString(data)] on a file opened with [O_APPEND]. *)
Definition WriteStringAppend (path data : string) : M (option error) :=
  fun w =>
    let ev := EWriteString path data in
    match ask_err env (trace w) ev with
    | Some err => (Ret (Some err), record ev w)
    | None =>
        (Ret None,
         mkWorld (trace w ++ [ev])
                 (<[path := default "" (files w !! path) +:+ data]> (files w)))
    end.

(** ** Package [libvirt] *)

(** [NewLibvirtConnection(uri)]; [None] stands for an open connection. *)
Definition NewLibvirtConnection (uri : string) : M (option error) :=
  do e <- call_err (EConnect uri);
  match e with
  | Some err => ret (Some ("failed to connect to libvirt: " +:+ err))
  | None => ret None
  end.

(** The definition [CreateVM] hands to the hypervisor. *)
Definition domainXML (params : VMParams.t) : string :=
  "
<domain type='kvm'>
  <name>" +:+ VMParams.Name params +:+ "</name>
  <metadata>
    <libosinfo:libosinfo xmlns:libosinfo=" +:+ dq +:+ "http://libosinfo.org/xmlns/libvirt/domain/1.0" +:+ dq +:+ ">
      <libosinfo:os id=" +:+ dq +:+ "http://redhat.com/rhel/9.0" +:+ dq +:+ "/>
    </libosinfo:libosinfo>
  </metadata>
  <memory unit='MiB'>" +:+ fmt_d (VMParams.Memory params) +:+ "</memory>
  <vcpu placement='static'>" +:+ fmt_d (VMParams.CPUs params) +:+ "</vcpu>
  <cpu mode='host-passthrough'>
    <model fallback='allow'/>
  </cpu>
  <os>
    <type arch='x86_64' machine='pc-q35-rhel9.4.0'>hvm</type>
    <boot dev='hd'/>
  </os>
  <features>
    <acpi/>
    <apic/>
  </features>
  <devices>
    <disk type='file' device='disk'>
      <driver name='qemu' type='qcow2'/>
      <source file='" +:+ VMParams.DiskPath params +:+ "'/>
      <target dev='vda' bus='virtio'/>
    </disk>
    <interface type='network'>
      <source network='" +:+ VMParams.Network params +:+ "'/>
      <model type='virtio'/>
    </interface>
    <graphics type='vnc' autoport='yes'/>
  </devices>
</domain>".

Definition CreateVM (params : VMParams.t) : M (option error) :=
  do e <- call_err (EDomainCreateXML (domainXML params) 0);
  match e with
  | Some err => ret (Some ("failed to create domain: " +:+ err))
  | None => ret None
  end.

Definition StartVM (vmName : string) : M (option error) :=
  do e <- call_err (ELookupDomainByName vmName);
  match e with
  | Some err => ret (Some ("failed to find VM " +:+ vmName +:+ ": " +:+ err))
  | None =>
      do e' <- call_err (EDomainCreate vmName);
      match e' with
      | Some err =>
          ret (Some ("failed to start VM " +:+ vmName +:+ ": " +:+ err))
      | None => ret None
      end
  end.

(** The inner loop of [GetVMIP], over the addresses of one interface. *)
Fixpoint first_ipv4 (addrs : list DomainIPAddress) : option string :=
  match addrs with
  | [] => None
  | addr :: rest =>
      if (AddrType addr =? IP_ADDR_TYPE_IPV4)%Z && Contains (Addr addr) "."
      then Some (Addr addr)
      else first_ipv4 rest
  end.

(** The outer loop of [GetVMIP], over the interfaces. *)
Fixpoint find_lease (ifaces : list DomainInterface) : option (string * string) :=
  match ifaces with
  | [] => None
  | iface :: rest =>
      if nonempty (Hwaddr iface) then
        match first_ipv4 (Addrs iface) with
        | Some a => Some (a, Hwaddr iface)
        | None => find_lease rest
        end
      else find_lease rest
  end.

Definition GetVMIP (vmName : string) : M (string * string * option error) :=
  do e <- call_err (ELookupDomainByName vmName);
  match e with
  | Some err => ret ("", "", Some err)
  | None =>
      do r <- call_ifaces (EListAllInterfaceAddresses vmName
                             DOMAIN_INTERFACE_ADDRESSES_SRC_LEASE);
      match r with
      | inl err => ret ("", "", Some err)
      | inr ifaces =>
          match find_lease ifaces with
          | Some (ip, mac) => ret (ip, mac, None)
          | None => ret ("", "", None)
          end
      end
  end.

(** The host entry [AddDHCPReservation] adds. *)
Definition dhcpHostXML (macAddress ipAddress : string) : string :=
  "<host mac='" +:+ macAddress +:+ "' ip='" +:+ ipAddress +:+ "'/>".

Definition AddDHCPReservation (networkName macAddress ipAddress : string)
  : M (option error) :=
  do e <- call_err (ELookupNetworkByName networkName);
  match e with
  | Some err =>
      ret (Some ("failed to find network " +:+ networkName +:+ ": " +:+ err))
  | None =>
      do e' <- call_err
                 (ENetworkUpdate networkName
                    NETWORK_UPDATE_COMMAND_ADD_LAST
                    NETWORK_SECTION_IP_DHCP_HOST
                    (-1)
                    (dhcpHostXML macAddress ipAddress)
                    (Z.lor NETWORK_UPDATE_AFFECT_LIVE
                           NETWORK_UPDATE_AFFECT_CONFIG));
      match e' with
      | Some err =>
          ret (Some ("failed to add DHCP reservation for MAC " +:+ macAddress
                     +:+ " and IP " +:+ ipAddress +:+ ": " +:+ err))
      | None => ret None
      end
  end.

Definition removeOldHostKey (host : string) : M (option error) :=
  exec "ssh-keygen" ["-R"; host].

(** The command of one reachability probe. *)
Definition sshProbe (vmIP sshKeyPath sshUser : string) : Event :=
  EExec "ssh" ["-i"; sshKeyPath; "-o"; "StrictHostKeyChecking=no";
               sshUser +:+ "@" +:+ vmIP; "true"].

(** One pass of the loop of [WaitForSSHAccess]: it returns nil from the
    function when the probe succeeds and goes round again when it fails. *)
Definition sshAttempt (probe : Event) : M (option (option error)) :=
  do _ <- sleep 5;
  do r <- call_err probe;
  match r with
  | None => ret (Some None)
  | Some _ => ret None
  end.

Definition WaitForSSHAccess (fuel : nat) (vmIP host sshKeyPath sshUser : string)
  : M (option error) :=
  do e <- removeOldHostKey vmIP;
  match e with
  | Some err => ret (Some err)
  | None =>
      do e' <- removeOldHostKey host;
      match e' with
      | Some err => ret (Some err)
      | None => forever fuel (sshAttempt (sshProbe vmIP sshKeyPath sshUser))
      end
  end.

(** The definition [createNewLibvirtNetwork] hands to the hypervisor. *)
Definition networkXML (networkName virNetOct : string) : string :=
  "
<network>
  <name>" +:+ networkName +:+ "</name>
  <bridge name=" +:+ dq +:+ networkName +:+ dq +:+ "/>
  <forward/>
  <ip address=" +:+ dq +:+ "192.168." +:+ virNetOct +:+ ".1" +:+ dq +:+ " netmask=" +:+ dq +:+ "255.255.255.0" +:+ dq +:+ ">
    <dhcp>
      <range start=" +:+ dq +:+ "192.168." +:+ virNetOct +:+ ".2" +:+ dq +:+ " end=" +:+ dq +:+ "192.168." +:+ virNetOct +:+ ".254" +:+ dq +:+ "/>
    </dhcp>
  </ip>
</network>".

Definition createNewLibvirtNetwork (networkName virNetOct : string)
  : M (option error) :=
  do e <- call_err (ENetworkDefineXML (networkXML networkName virNetOct));
  match e with
  | Some err => ret (Some ("failed to define network: " +:+ err))
  | None =>
      do e1 <- call_err (ENetworkSetAutostart networkName true);
      match e1 with
      | Some err => ret (Some ("failed to set autostart: " +:+ err))
      | None =>
          do e2 <- call_err (ENetworkCreate networkName);
          match e2 with
          | Some err => ret (Some ("failed to start network: " +:+ err))
          | None => ret None
          end
      end
  end.

Definition getLibvirtBridge (networkName : string) : M (string * option error) :=
  do e <- call_err (ELookupNetworkByName networkName);
  match e with
  | Some err =>
      ret ("", Some ("failed to lookup network " +:+ networkName +:+ ": " +:+ err))
  | None =>
      do r <- call_str (ENetworkGetBridgeName networkName);
      match r with
      | inl err =>
          ret ("", Some ("failed to get bridge name for network "
                         +:+ networkName +:+ ": " +:+ err))
      | inr bridgeName => ret (bridgeName, None)
      end
  end.

(** The text search of [getLibvirtNetworkGatewayIP] on the descriptor;
    [inl None] is the slice [xmlDesc[ipAddrStart:]] out of range. *)
Definition parseGatewayIP (networkName xmlDesc : string)
  : option error + string :=
  match index 0 "<ip address=" xmlDesc with
  | None =>
      inl (Some ("IP address not found in network XML for " +:+ networkName))
  | Some i =>
      let ipAddrStart := (i + String.length ("<ip address=" +:+ dq))%nat in
      if (String.length xmlDesc <? ipAddrStart)%nat then inl None
      else
        let rest :=
          substring ipAddrStart (String.length xmlDesc - ipAddrStart)%nat xmlDesc in
        match index 0 dq rest with
        | None =>
            inl (Some ("malformed XML while parsing IP address for "
                       +:+ networkName))
        | Some ipAddrEnd => inr (substring ipAddrStart ipAddrEnd xmlDesc)
        end
  end.

Definition getLibvirtNetworkGatewayIP (networkName : string)
  : M (string * option error) :=
  do e <- call_err (ELookupNetworkByName networkName);
  match e with
  | Some err =>
      ret ("", Some ("failed to lookup network " +:+ networkName +:+ ": " +:+ err))
  | None =>
      do r <- call_str (ENetworkGetXMLDesc networkName 0);
      match r with
      | inl err =>
          ret ("", Some ("failed to get network XML description for "
                         +:+ networkName +:+ ": " +:+ err))
      | inr xmlDesc =>
          match parseGatewayIP networkName xmlDesc with
          | inl None => panic "slice bounds out of range"
          | inl (Some err) => ret ("", Some err)
          | inr ip => ret (ip, None)
          end
      end
  end.

(** The error of [EnsureLibvirtNetwork] when neither parameter is given. *)
Definition errNoNetworkGiven : error :=
  "unhandled situation: either virNetOct or virNet must be provided".

(** The [if / else if / else] of [EnsureLibvirtNetwork]: the network to use,
    or the error to return. *)
Definition resolveNetwork (virNetOct virNet : string) : M (error + string) :=
  if nonempty virNetOct then
    let networkName := "ocp-" +:+ virNetOct in
    do e <- call_err (ELookupNetworkByName networkName);
    match e with
    | None => ret (inr networkName)
    | Some _ =>
        do e' <- createNewLibvirtNetwork networkName virNetOct;
        match e' with
        | Some err => ret (inl err)
        | None => ret (inr networkName)
        end
    end
  else if nonempty virNet then
    do e <- call_err (ELookupNetworkByName virNet);
    match e with
    | Some err =>
        ret (inl ("libvirt network " +:+ virNet +:+ " doesn't exist: " +:+ err))
    | None => ret (inr virNet)
    end
  else ret (inl errNoNetworkGiven).

Definition EnsureLibvirtNetwork (virNetOct virNet libguestfsBackendDirect : string)
  : M (string * string * option error) :=
  do c <- NewLibvirtConnection libguestfsBackendDirect;
  match c with
  | Some err => ret ("", "", Some ("failed to connect to libvirt: " +:+ err))
  | None =>
      do r <- resolveNetwork virNetOct virNet;
      match r with
      | inl err => ret ("", "", Some err)
      | inr virNet' =>
          do (bridgeName, e) <- getLibvirtBridge virNet';
          match e with
          | Some err => ret ("", "", Some err)
          | None =>
              do (gatewayIP, e') <- getLibvirtNetworkGatewayIP virNet';
              match e' with
              | Some err => ret (bridgeName, "", Some err)
              | None => ret (bridgeName, gatewayIP, None)
              end
          end
      end
  end.

(** ** Package [dns]: [ReloadDNS] *)

(** [(&systemd.Systemd{Name: name}).Restart()] *)
Definition Restart (name : string) : M (option error) :=
  exec "systemctl" ["restart"; name].

Definition ReloadDNS (dnsSvc : string) : M (option error) :=
  do e <- Restart dnsSvc;
  match e with
  | Some err =>
      ret (Some ("failed to restart DNS service " +:+ dnsSvc +:+ ": " +:+ err))
  | None =>
      do _ <- sleep 5;
      do e' <- Restart "virtnetworkd";
      match e' with
      | Some err =>
          ret (Some ("failed to restart virtnetworkd service: " +:+ err))
      | None => ret None
      end
  end.

(** ** Package [cluster] *)

(** The kernel arguments of an install-time node; [ign] is the name of
    the role's ignition file. *)
Definition installArgs (params : NodeParams.t) (ign : string) : string :=
  "nomodeset rd.neednet=1 coreos.inst=yes coreos.inst.install_dev=vda "
  +:+ NodeParams.RHCOSArg params +:+ "=http://" +:+ NodeParams.LBIP params
  +:+ ":" +:+ fmt_d (NodeParams.WSPort params) +:+ "/"
  +:+ NodeParams.Image params
  +:+ " coreos.inst.ignition_url=http://" +:+ NodeParams.LBIP params
  +:+ ":" +:+ fmt_d (NodeParams.WSPort params) +:+ "/" +:+ ign.

Definition bootstrapParams (params : NodeParams.t) : VMParams.t :=
  VMParams.mk
    (NodeParams.ClusterName params +:+ "-bootstrap")
    (uint (NodeParams.BtsMem params))
    (uint (NodeParams.BtsCPU params))
    (NodeParams.VMDir params +:+ "/" +:+ NodeParams.ClusterName params
     +:+ "-bootstrap.qcow2")
    osVariant
    "rhcos-install/"
    (installArgs params "bootstrap.ign")
    (NodeParams.VirNet params).

Definition createBootstrapNode (params : NodeParams.t) : M (option error) :=
  CreateVM (bootstrapParams params).

Definition masterParams (params : NodeParams.t) (i : Z) : VMParams.t :=
  VMParams.mk
    (NodeParams.ClusterName params +:+ "-master-" +:+ fmt_d i)
    (uint (NodeParams.MasMem params))
    (uint (NodeParams.MasCPU params))
    (NodeParams.VMDir params +:+ "/" +:+ NodeParams.ClusterName params
     +:+ "-master-" +:+ fmt_d i +:+ ".qcow2")
    osVariant
    "rhcos-install/"
    (installArgs params "master.ign")
    (NodeParams.VirNet params).

Definition createMasterNodes (params : NodeParams.t) : M (option error) :=
  for_each (upto (NodeParams.NMaster params))
           (fun i => CreateVM (masterParams params i)).

Definition workerParams (params : NodeParams.t) (i : Z) : VMParams.t :=
  VMParams.mk
    (NodeParams.ClusterName params +:+ "-worker-" +:+ fmt_d i)
    (uint (NodeParams.WorMem params))
    (uint (NodeParams.WorCPU params))
    (NodeParams.VMDir params +:+ "/" +:+ NodeParams.ClusterName params
     +:+ "-worker-" +:+ fmt_d i +:+ ".qcow2")
    osVariant
    "rhcos-install/"
    (installArgs params "worker.ign")
    (NodeParams.VirNet params).

Definition createWorkerNodes (params : NodeParams.t) : M (option error) :=
  for_each (upto (NodeParams.NWorker params))
           (fun i => CreateVM (workerParams params i)).

Definition getRoleCount (params : NodeParams.t) (role : string) : Z :=
  if String.eqb role "bootstrap" then 1%Z
  else if String.eqb role "master" then NodeParams.NMaster params
  else if String.eqb role "worker" then NodeParams.NWorker params
  else 0%Z.

(** One pass of the loop of [waitForVMIP].  Both of its paths end in a
    [return]. *)
Definition waitForVMIP_body (vmName : string)
  : M (option (string * string * option error)) :=
  do _ <- sleep 5;
  do (ip, mac, err) <- GetVMIP vmName;
  match err with
  | None =>
      if nonempty ip && nonempty mac then ret (Some (ip, mac, None))
      else ret (Some ("", "", err))
  | Some _ => ret (Some ("", "", err))
  end.

Definition waitForVMIP (fuel : nat) (vmName : string)
  : M (string * string * option error) :=
  forever fuel (waitForVMIP_body vmName).

(** The line [updateHostDNS] writes. *)
Definition hostsEntry (params : NodeParams.t) (ip vmName : string) : string :=
  ip +:+ " " +:+ vmName +:+ "." +:+ NodeParams.ClusterName params
  +:+ "." +:+ NodeParams.BaseDomain params.

Definition hostsPath (clusterName : string) : string :=
  "/etc/hosts." +:+ clusterName.

Definition updateHostDNS (params : NodeParams.t) (ip vmName : string) : M unit :=
  do e <- WriteFile (hostsPath (NodeParams.ClusterName params))
                    (hostsEntry params ip vmName) 420;
  match e with
  | Some err => logFatal ("Failed to add hosts entry for " +:+ vmName) err
  | None => ret tt
  end.

(** The name under which [waitForVMIPs] waits for a node. *)
Definition leaseName (params : NodeParams.t) (role : string) (i : Z) : string :=
  NodeParams.ClusterName params +:+ "-" +:+ role +:+ "-" +:+ fmt_d i.

(** The body of the two nested loops of [waitForVMIPs]. *)
Definition addressNode (fuel : nat) (params : NodeParams.t) (role : string) (i : Z)
  : M (option error) :=
  let vmName := leaseName params role i in
  do (ip, mac, err) <- waitForVMIP fuel vmName;
  do _ <- match err with
          | Some e => logFatal ("Failed to get IP for " +:+ vmName) e
          | None => ret tt
          end;
  do e <- AddDHCPReservation ip mac (NodeParams.VirNet params);
  match e with
  | Some err' => ret (Some err')
  | None =>
      do _ <- updateHostDNS params ip vmName;
      ret None
  end.

Definition roles : list string := ["bootstrap"; "master"; "worker"].

Definition waitForVMIPs (fuel : nat) (params : NodeParams.t) : M (option error) :=
  for_each roles
    (fun role =>
       for_each (upto (getRoleCount params role))
                (fun i => addressNode fuel params role i)).

Definition CreateNodes (fuel : nat) (params : NodeParams.t) : M (option error) :=
  do c <- NewLibvirtConnection (NodeParams.LibguestfsBackend params);
  match c with
  | Some err => logFatal "Failed to connect to libvirt" err
  | None =>
  do e1 <- createBootstrapNode params;
  match e1 with
  | Some err => logFatal "Failed to create bootstrap node" err
  | None =>
  do e2 <- createMasterNodes params;
  match e2 with
  | Some err => logFatal "Failed to create master nodes" err
  | None =>
  do e3 <- createWorkerNodes params;
  match e3 with
  | Some err => logFatal "Failed to create worker nodes" err
  | None =>
  do e4 <- waitForVMIPs fuel params;
  match e4 with
  | Some err => ret (Some err)
  | None =>
  do (bootstrapIP, _, _) <-
     GetVMIP (NodeParams.ClusterName params +:+ "-bootstrap");
  WaitForSSHAccess fuel bootstrapIP
    ("bootstrap." +:+ NodeParams.ClusterName params +:+ "."
     +:+ NodeParams.BaseDomain params)
    "sshkey" "core"
  end end end end end.

(** *** The load balancer (haproxy.go) *)

Definition lbParams (params : LBVMParams.t) : VMParams.t :=
  VMParams.mk
    (LBVMParams.ClusterName params +:+ "-lb")
    (uint (LBVMParams.MEM params))
    (uint (LBVMParams.CPU params))
    (LBVMParams.VMDiskPath params)
    osVariant
    ""
    ""
    (LBVMParams.VirNet params).

Definition createAndStartLBVM (params : LBVMParams.t) : M (option error) :=
  let vmParams := lbParams params in
  do e <- CreateVM vmParams;
  match e with
  | Some err => ret (Some ("failed to create load balancer VM: " +:+ err))
  | None =>
      do e' <- StartVM (VMParams.Name vmParams);
      match e' with
      | Some err => ret (Some ("failed to start load balancer VM: " +:+ err))
      | None => ret None
      end
  end.

(** The line [updateClusterDNS] adds, without its line feed. *)
Definition lbEntry (ip clusterName baseDomain : string) : string :=
  ip +:+ " lb." +:+ clusterName +:+ "." +:+ baseDomain
  +:+ " api." +:+ clusterName +:+ "." +:+ baseDomain
  +:+ " api-int." +:+ clusterName +:+ "." +:+ baseDomain.

Definition updateClusterDNS (ip clusterName baseDomain : string)
  : M (option error) :=
  let filePath := hostsPath clusterName in
  let entry := lbEntry ip clusterName baseDomain in
  do e <- OpenFileAppend filePath 384;
  match e with
  | Some err => ret (Some ("failed to open hosts file: " +:+ err))
  | None =>
      do e' <- WriteStringAppend filePath (entry +:+ nl);
      match e' with
      | Some err => ret (Some ("failed to write to hosts file: " +:+ err))
      | None => ret None
      end
  end.

Definition CreateLBVM (fuel : nat) (params : LBVMParams.t)
    (dnsDir dnsSvc gatewayIP : string) : M (option error) :=
  do c <- NewLibvirtConnection (LBVMParams.LibguestfsBackend params);
  match c with
  | Some err => ret (Some ("failed to connect to libvirt: " +:+ err))
  | None =>
  do e1 <- createAndStartLBVM params;
  match e1 with
  | Some err => ret (Some err)
  | None =>
  do (lbIP, lbMAC, e2) <- waitForVMIP fuel (LBVMParams.ClusterName params);
  match e2 with
  | Some err => ret (Some err)
  | None =>
  do e3 <- AddDHCPReservation (LBVMParams.VirNet params) lbMAC lbIP;
  match e3 with
  | Some err => ret (Some ("failed to add DHCP reservation: " +:+ err))
  | None =>
  do e4 <- updateClusterDNS lbIP (LBVMParams.ClusterName params)
                            (LBVMParams.BaseDomain params);
  match e4 with
  | Some err => ret (Some err)
  | None =>
  do e5 <- ReloadDNS dnsSvc;
  match e5 with
  | Some err => ret (Some ("failed to restart DNS service: " +:+ err))
  | None =>
  WaitForSSHAccess fuel lbIP
    ("lb." +:+ LBVMParams.ClusterName params +:+ "."
     +:+ LBVMParams.BaseDomain params)
    "sshkey" "root"
  end end end end end end.

End Program.

(** ** Environments for runs on concrete inputs *)

Fixpoint count (p : Event -> bool) (h : list Event) : nat :=
  match h with
  | [] => 0
  | ev :: h' => (if p ev then 1 else 0) + count p h'
  end.

Definition is_lease_query (ev : Event) : bool :=
  match ev with
  | EListAllInterfaceAddresses _ _ => true
  | _ => false
  end.

Definition is_ssh_probe (ev : Event) : bool :=
  match ev with
  | EExec cmd _ => String.eqb cmd "ssh"
  | _ => false
  end.


(** One interface with a hardware address and an IPv4 lease. *)
Definition sampleLease : list DomainInterface :=
  [mkIface "vnet0" "52:54:00:aa:bb:cc"
           [mkAddr IP_ADDR_TYPE_IPV4 "192.168.100.10" 24]].

(** The same interface before DHCP has answered: a link-local IPv6
    address only. *)
Definition ipv6OnlyLease : list DomainInterface :=
  [mkIface "vnet0" "52:54:00:aa:bb:cc"
           [mkAddr IP_ADDR_TYPE_IPV6 "fe80::5054:ff:feaa:bbcc" 64]].

Definition sampleStrings (h : list Event) (ev : Event) : error + string :=
  match ev with
  | ENetworkGetBridgeName _ => inr "virbr100"
  | ENetworkGetXMLDesc name _ => inr (networkXML name "100")
  | _ => inl "unsupported call"
  end.

(** Every call succeeds; the lease source reports no address for the first
    [n] queries and [sampleLease] from then on. *)
Definition leaseAfter (n : nat) : Env :=
  mkEnv (fun _ _ => None)
        sampleStrings
        (fun h _ => if (count is_lease_query h <? n)%nat then inr []
                    else inr sampleLease).

(** Every call succeeds and every lease query finds [sampleLease]. *)
Definition okEnv : Env := leaseAfter 0.

(** As [okEnv], but the first [n] SSH probes fail. *)
Definition sshAfter (n : nat) : Env :=
  mkEnv (fun h ev =>
           if is_ssh_probe ev && (count is_ssh_probe h <? n)%nat
           then Some "exit status 255" else None)
        sampleStrings
        (fun _ _ => inr sampleLease).

(** As [okEnv], but no lease ever shows an IPv4 address. *)
Definition noLeaseEnv : Env :=
  mkEnv (fun _ _ => None) sampleStrings (fun _ _ => inr ipv6OnlyLease).

(** As [okEnv], but the hypervisor refuses the definition of the domain
    called [name]. *)
Definition refuseDomain (name : string) : Env :=
  mkEnv (fun _ ev =>
           match ev with
           | EDomainCreateXML xml _ =>
               if Contains xml ("<name>" +:+ name +:+ "</name>")
               then Some "operation failed: domain already exists"
               else None
           | _ => None
           end)
        sampleStrings
        (fun _ _ => inr sampleLease).


Definition emptyWorld : World := mkWorld [] ∅.

Definition sampleNodes : NodeParams.t :=
  NodeParams.mk "ocp" "example.com" "/var/lib/libvirt/images" "192.168.100.5"
    8080 "rhcos-live-rootfs.x86_64.img" "ocp-100"
    16384 4 16384 4 8192 2 3 2 "coreos.live.rootfs_url" "qemu:///system".

Definition sampleLB : LBVMParams.t :=
  LBVMParams.mk "ocp" 2 4096 "ocp-100" "/var/lib/libvirt/images/ocp-lb.qcow2"
    "/root/.ssh/id_rsa.pub" "example.com" "qemu:///system".

(** No interface of [ifaces] has both a hardware address and an address of
    the IPv4 family. *)
Definition ipv4_candidate (iface : DomainInterface) : bool :=
  nonempty (Hwaddr iface)
  && existsb (fun addr => (AddrType addr =? IP_ADDR_TYPE_IPV4)%Z) (Addrs iface).

Definition no_ipv4_candidate (ifaces : list DomainInterface) : bool :=
  negb (existsb ipv4_candidate ifaces).

(** * More of the program *)

(** ** Package [libvirt]: listing the domains of a cluster *)

(** [nameContainsCluster(name, clusterName)] *)
Definition nameContainsCluster (name clusterName : string) : bool :=
  String.eqb name clusterName
  || String.eqb name (clusterName +:+ "-bootstrap")
  || String.eqb name (clusterName +:+ "-master").

(** A domain handle as [ListAllDomains] returns it, with the answers its
    [GetName] and [Free] give. *)
Record Domain := mkDomain {
  GetName : error + string;
  Free : option error
}.

Record VM := mkVM {
  VMName : string;
  VMStatus : string
}.

(** The loop of [GetVMsByName]: the machines found so far, and the handles
    on which [Free] has been called so far.  The result is the machines, the
    error and the handles [Free] was called on. *)
Fixpoint listVMs (domains : list Domain) (clusterName : string)
    (vms : list VM) (freed : list Domain)
  : list VM * option error * list Domain :=
  match domains with
  | [] => (vms, None, freed)
  | domain :: rest =>
      match GetName domain with
      | inl err => ([], Some ("failed to get domain name: " +:+ err), freed)
      | inr name =>
          match Free domain with
          | Some err =>
              ([], Some ("failed to free domain: " +:+ err), freed ++ [domain])
          | None =>
              listVMs rest clusterName
                (if nameContainsCluster name clusterName
                 then vms ++ [mkVM name ""] else vms)
                (freed ++ [domain])
          end
      end
  end.

(** [GetVMsByName(conn, clusterName)], on the answer of [ListAllDomains]. *)
Definition GetVMsByName (listing : error + list Domain) (clusterName : string)
  : list VM * option error * list Domain :=
  match listing with
  | inl err => ([], Some ("failed to list domains: " +:+ err), [])
  | inr domains => listVMs domains clusterName [] []
  end.

(** The parameters of the machines [CreateNodes] creates, in the order of
    creation. *)
Definition cohort (osVariant : string) (params : NodeParams.t)
  : list VMParams.t :=
  bootstrapParams osVariant params
  :: map (masterParams osVariant params) (upto (NodeParams.NMaster params))
  ++ map (workerParams osVariant params) (upto (NodeParams.NWorker params)).

(** ** Kinds of calls *)

(** A computation run from [w] only makes calls that pass [P]. *)
Definition emits_at {A} (P : Event -> bool) (m : M A) (w : World) : Prop :=
  exists evs, trace (snd (m w)) = trace w ++ evs /\ forallb P evs = true.

Definition emits_only {A} (P : Event -> bool) (m : M A) : Prop :=
  forall w, emits_at P m w.

(** The calls that look a network up or read from it. *)
Definition network_query (ev : Event) : bool :=
  match ev with
  | ELookupNetworkByName _ => true
  | ENetworkGetBridgeName _ => true
  | ENetworkGetXMLDesc _ _ => true
  | _ => false
  end.

(** ** Searching in strings *)

(** [c] occurs in [s]. *)
Fixpoint has_char (c : ascii) (s : string) : bool :=
  match s with
  | EmptyString => false
  | String a s' => if ascii_dec c a then true else has_char c s'
  end.

(** [p] and [u] are equal as far as the shorter of the two goes. *)
Fixpoint agree (p u : string) : bool :=
  match p, u with
  | String a p', String b u' => if ascii_dec a b then agree p' u' else false
  | _, _ => true
  end.

(** No occurrence of [p] can start inside [s], whatever follows [s]. *)
Fixpoint clear_of (p s : string) : bool :=
  match s with
  | EmptyString => true
  | String _ s' => negb (agree p s) && clear_of p s'
  end.

(** The text [getLibvirtNetworkGatewayIP] looks for. *)
Definition ipMarker : string := "<ip address=".

(** ** Runs in which every call succeeds *)

(** Every call is answered without error, and every query of the
    interfaces of a domain by [ifaces]. *)
Definition cooperative (env : Env) (ifaces : list DomainInterface) : Prop :=
  (forall h ev, ask_err env h ev = None)
  /\ (forall h ev, ask_ifaces env h ev = inr ifaces).

(** The calls [waitForVMIPs] makes for one node whose lease is [ip], [mac],
    as the code passes them on. *)
Definition nodeCalls (params : NodeParams.t) (ip mac vmName : string)
  : list Event :=
  [ESleep 5;
   ELookupDomainByName vmName;
   EListAllInterfaceAddresses vmName DOMAIN_INTERFACE_ADDRESSES_SRC_LEASE;
   ELookupNetworkByName ip;
   ENetworkUpdate ip NETWORK_UPDATE_COMMAND_ADD_LAST
     NETWORK_SECTION_IP_DHCP_HOST (-1)
     (dhcpHostXML mac (NodeParams.VirNet params))
     (Z.lor NETWORK_UPDATE_AFFECT_LIVE NETWORK_UPDATE_AFFECT_CONFIG);
   EWriteFile (hostsPath (NodeParams.ClusterName params))
     (hostsEntry params ip vmName) 420].

(** The world after the addressing of one node. *)
Definition addressedWorld (params : NodeParams.t) (ip mac : string)
    (w : World) (vmName : string) : World :=
  mkWorld (trace w ++ nodeCalls params ip mac vmName)
          (<[hostsPath (NodeParams.ClusterName params) :=
               hostsEntry params ip vmName]> (files w)).

(** The names under which [waitForVMIPs] waits, in its order. *)
Definition addressed (params : NodeParams.t) : list string :=
  leaseName params "bootstrap" 1
  :: map (leaseName params "master") (upto (NodeParams.NMaster params))
  ++ map (leaseName params "worker") (upto (NodeParams.NWorker params)).

(** The calls of [CreateNodes] after the addressing stage: the lookup of
    the bootstrap node and the wait for SSH, with a first probe that
    succeeds. *)
Definition bootstrapGateCalls (params : NodeParams.t) (ip : string)
  : list Event :=
  [ELookupDomainByName (NodeParams.ClusterName params +:+ "-bootstrap");
   EListAllInterfaceAddresses (NodeParams.ClusterName params +:+ "-bootstrap")
     DOMAIN_INTERFACE_ADDRESSES_SRC_LEASE;
   EExec "ssh-keygen" ["-R"; ip];
   EExec "ssh-keygen"
     ["-R"; "bootstrap." +:+ NodeParams.ClusterName params +:+ "."
            +:+ NodeParams.BaseDomain params];
   ESleep 5;
   EExec "ssh" ["-i"; "sshkey"; "-o"; "StrictHostKeyChecking=no";
                "core@" +:+ ip; "true"]].

(** The name of the node [waitForVMIPs] addresses last. *)
Definition lastAddressed (params : NodeParams.t) : string :=
  if (0 <? NodeParams.NWorker params)%Z
  then leaseName params "worker" (NodeParams.NWorker params)
  else if (0 <? NodeParams.NMaster params)%Z
       then leaseName params "master" (NodeParams.NMaster params)
       else leaseName params "bootstrap" 1.

(** A computation only adds calls to the trace. *)
Definition extends {A} (m : M A) : Prop :=
  forall w, exists evs, trace (snd (m w)) = trace w ++ evs.

(** A computation first makes the calls [pre], whatever the answers. *)
Definition starts_with {A} (pre : list Event) (m : M A) : Prop :=
  forall w, exists rest, trace (snd (m w)) = trace w ++ pre ++ rest.


(** [n] rounds of the loop of [WaitForSSHAccess]: a pause, then a probe. *)
Fixpoint probes (n : nat) (probe : Event) : list Event :=
  match n with
  | O => []
  | S n' => ESleep 5 :: probe :: probes n' probe
  end.

(** The answer to probe number [k] (from 0) of a loop entered with
    history [h0], all earlier probes having failed. *)
Definition probe_answer (env : Env) (h0 : list Event) (probe : Event) (k : nat)
  : option error :=
  ask_err env (h0 ++ probes k probe ++ [ESleep 5]) probe.

(** The call that creates the domain of [p]. *)
Definition create (p : VMParams.t) : Event := EDomainCreateXML (domainXML p) 0.

(** ** What happens to the files *)

(** A computation relates the files before and after by [R]. *)
Definition keeps (R : gmap string string -> gmap string string -> Prop)
    {A} (m : M A) : Prop :=
  forall w, R (files w) (files (snd (m w))).

(** From [fs] to [fs'] the file [path] has not been created and has kept
    what it held, with more text after it. *)
Definition appended (path : string) (fs fs' : gmap string string) : Prop :=
  match fs !! path with
  | None => fs' !! path = None
  | Some old => exists suffix, fs' !! path = Some (old +:+ suffix)
  end.

(** The calls of package [os] on files, as against the commands run and
    the calls to the hypervisor. *)
Definition file_op (ev : Event) : bool :=
  match ev with
  | EWriteFile _ _ _ => true
  | EOpenFile _ _ _ _ => true
  | EWriteString _ _ => true
  | _ => false
  end.

(** [ev] is no file operation, or one that [ok] admits. *)
Definition file_op_within (ok : Event -> bool) (ev : Event) : bool :=
  if file_op ev then ok ev else true.

(** [path] is opened for appending, without [O_CREATE], or written to
    through such a handle. *)
Definition appends_to (path : string) (ev : Event) : bool :=
  match ev with
  | EOpenFile p true false _ => String.eqb p path
  | EWriteString p _ => String.eqb p path
  | _ => false
  end.

(** [os.WriteFile] on [path]. *)
Definition writes_whole (path : string) (ev : Event) : bool :=
  match ev with
  | EWriteFile p _ _ => String.eqb p path
  | _ => false
  end.

(** The calls of [CreateLBVM] up to the opening of the hosts file, for a
    load balancer whose lease is [ip], [mac]. *)
Definition lbCallsToOpen (osVariant : string) (params : LBVMParams.t)
    (ip mac : string) : list Event :=
  let c := LBVMParams.ClusterName params in
  [EConnect (LBVMParams.LibguestfsBackend params);
   create (lbParams osVariant params);
   ELookupDomainByName (c +:+ "-lb");
   EDomainCreate (c +:+ "-lb");
   ESleep 5;
   ELookupDomainByName c;
   EListAllInterfaceAddresses c DOMAIN_INTERFACE_ADDRESSES_SRC_LEASE;
   ELookupNetworkByName (LBVMParams.VirNet params);
   ENetworkUpdate (LBVMParams.VirNet params) NETWORK_UPDATE_COMMAND_ADD_LAST
     NETWORK_SECTION_IP_DHCP_HOST (-1) (dhcpHostXML mac ip)
     (Z.lor NETWORK_UPDATE_AFFECT_LIVE NETWORK_UPDATE_AFFECT_CONFIG);
   EOpenFile (hostsPath c) true false 384].

(** The calls of [CreateLBVM] after the hosts file has been opened. *)
Definition lbCallsAfterOpen (params : LBVMParams.t) (ip dnsSvc : string)
  : list Event :=
  let c := LBVMParams.ClusterName params in
  let d := LBVMParams.BaseDomain params in
  [EWriteString (hostsPath c) (lbEntry ip c d +:+ nl);
   EExec "systemctl" ["restart"; dnsSvc];
   ESleep 5;
   EExec "systemctl" ["restart"; "virtnetworkd"];
   EExec "ssh-keygen" ["-R"; ip];
   EExec "ssh-keygen" ["-R"; "lb." +:+ c +:+ "." +:+ d];
   ESleep 5;
   EExec "ssh" ["-i"; "sshkey"; "-o"; "StrictHostKeyChecking=no";
                "root@" +:+ ip; "true"]].

(** ** Package [systemd] *)

Definition StatusActive : string := "active".
Definition StatusInactive : string := "inactive".
Definition StatusFailed : string := "failed".

(** The methods of [Systemd] other than [CheckStatus]. *)
Inductive SystemdOp := OpStart | OpStop | OpRestart | OpReload | OpEnable
                     | OpDisable.

Module Systemd.

Record t := mk {
    Name : string;
    Status : string;
    IsEnabled : bool
}.

Section Methods.

Variable env : Env.

(** [strings.TrimSpace] of the Go library, of which nothing is assumed. *)
Variable TrimSpace : string -> string.

(** [runCommand(cmd, args...)]: the output of the command and its error.
    No caller reads the output when the error is not nil. *)
Definition runCommand (cmd : string) (args : list string)
  : M (string * option error) :=
  do r <- call_str env (EExec cmd args);
  match r with
  | inl err => ret ("", Some err)
  | inr out => ret (out, None)
  end.

(** The methods have a pointer receiver; here they return the receiver as
    they leave it, with the error. *)
Definition CheckStatus (s : t) : M (t * option error) :=
  do (active, err) <- runCommand "systemctl" ["is-active"; Name s];
  match err with
  | Some e => ret (s, Some e)
  | None =>
      let status :=
        if String.eqb (TrimSpace active) StatusActive then StatusActive
        else if String.eqb (TrimSpace active) StatusInactive
             then StatusInactive
             else StatusFailed in
      let s1 := mk (Name s) status (IsEnabled s) in
      do (enabled, err') <-
         runCommand "systemctl" ["is-enabled"; Name s];
      match err' with
      | Some e => ret (s1, Some e)
      | None =>
          ret (mk (Name s1) (Status s1)
                          (String.eqb (TrimSpace enabled) "enabled"),
               None)
      end
  end.

Definition Start (s : t) : M (t * option error) :=
  if String.eqb (Status s) StatusActive then ret (s, None)
  else
    do (_, err) <- runCommand "systemctl" ["start"; Name s];
    match err with
    | Some e => ret (s, Some e)
    | None =>
        ret (mk (Name s) StatusActive (IsEnabled s),
             None)
    end.

Definition Stop (s : t) : M (t * option error) :=
  if String.eqb (Status s) StatusInactive then ret (s, None)
  else
    do (_, err) <- runCommand "systemctl" ["stop"; Name s];
    match err with
    | Some e => ret (s, Some e)
    | None =>
        ret (mk (Name s) StatusInactive (IsEnabled s),
             None)
    end.

Definition Restart (s : t) : M (t * option error) :=
  do (_, err) <- runCommand "systemctl" ["restart"; Name s];
  match err with
  | Some e => ret (s, Some e)
  | None =>
      ret (mk (Name s) StatusActive (IsEnabled s),
           None)
  end.

Definition Reload (s : t) : M (t * option error) :=
  do (_, err) <- runCommand "systemctl" ["reload"; Name s];
  match err with
  | Some e => ret (s, Some e)
  | None =>
      ret (mk (Name s) StatusActive (IsEnabled s),
           None)
  end.

Definition Enable (s : t) : M (t * option error) :=
  if IsEnabled s then ret (s, None)
  else
    do (_, err) <- runCommand "systemctl" ["enable"; Name s];
    match err with
    | Some e => ret (s, Some e)
    | None =>
        ret (mk (Name s) (Status s) true, None)
    end.

Definition Disable (s : t) : M (t * option error) :=
  if negb (IsEnabled s) then ret (s, None)
  else
    do (_, err) <- runCommand "systemctl" ["disable"; Name s];
    match err with
    | Some e => ret (s, Some e)
    | None =>
        ret (mk (Name s) (Status s) false, None)
    end.

Definition runOp (op : SystemdOp) (s : t)
  : M (t * option error) :=
  match op with
  | OpStart => Start s
  | OpStop => Stop s
  | OpRestart => Restart s
  | OpReload => Reload s
  | OpEnable => Enable s
  | OpDisable => Disable s
  end.

End Methods.

End Systemd.

Section Utils.

Variable env : Env.

(** *** Package [utils]: the name service (sanity.go) *)

Definition determineDNSSvc (dnsDir : string) : string :=
  if String.eqb dnsDir "/etc/NetworkManager/dnsmasq.d" then "NetworkManager"
  else "dnsmasq".

Definition reloadDNSService (dnsSvc : string) : M (option error) :=
  let dnsCmd :=
    if String.eqb dnsSvc "NetworkManager" then "reload" else "restart" in
  let service := Systemd.mk "NetworkManager" "" false in
  if String.eqb dnsCmd "restart" then
    do (_, err) <- Systemd.Restart env service;
    match err with
    | Some e => ret (Some e)
    | None => ret None
    end
  else if String.eqb dnsCmd "reload" then
    do (_, err) <- Systemd.Reload env service;
    match err with
    | Some e => ret (Some e)
    | None => ret None
    end
  else ret None.

(** *** Package [utils]: the hosts file of a cluster (download.go) *)

(** [os.Create(path)]: the file is created or truncated. *)
Definition CreateFile (path : string) : M (option error) :=
  fun w =>
    let ev := EOpenFile path false true 438 in
    match ask_err env (trace w) ev with
    | Some err => (Ret (Some err), record ev w)
    | None => (Ret None, mkWorld (trace w ++ [ev]) (<[path := ""]> (files w)))
    end.

Definition touchFile (filePath : string) : M (option error) :=
  CreateFile filePath.

Definition writeFile (filePath content : string) : M (option error) :=
  WriteFile env filePath content 420.

Definition CreateHostsAndDNSConfig (clusterName dnsDir : string)
  : M (option error) :=
  let hostsFile := "/etc/hosts." +:+ clusterName in
  do e <- touchFile hostsFile;
  match e with
  | Some err => ret (Some ("failed to create hosts file: " +:+ err))
  | None =>
      let dnsConfigFile := dnsDir +:+ "/" +:+ clusterName +:+ ".conf" in
      do e' <- writeFile dnsConfigFile
                 ("addn-hosts=/etc/hosts." +:+ clusterName);
      match e' with
      | Some err =>
          ret (Some ("failed to create dnsmasq config file: " +:+ err))
      | None => ret None
      end
  end.

End Utils.

(** ** Package [dns]: the check of the resolver configuration *)

(** [strings.Split(s, "\n")] *)
Fixpoint splitLines (s : string) : list string :=
  match s with
  | EmptyString => [""]
  | String c s' =>
      match splitLines s' with
      | line :: lines =>
          if Ascii.eqb c "010" then "" :: line :: lines
          else String c line :: lines
      | [] => [String c ""]
      end
  end.

Definition errNotLocalhost : error :=
  "first nameserver is not pointing to localhost".

Section ResolvConf.

(** [strings.Fields] of the Go library, of which nothing is assumed. *)
Variable Fields : string -> list string.

(** [len(fields) > 1 && strings.HasPrefix(fields[1], "127.")] *)
Definition pointsToLocalhost (fields : list string) : bool :=
  match fields with
  | _ :: second :: _ => String.prefix "127." second
  | _ => false
  end.

(** The loop of [checkFirstNameserver] over the lines of the file, with
    its [break], and the error after the loop. *)
Fixpoint checkLines (lines : list string) : option error :=
  match lines with
  | [] => Some errNotLocalhost
  | line :: rest =>
      if String.prefix "nameserver" line then
        if pointsToLocalhost (Fields line) then None
        else Some errNotLocalhost
      else checkLines rest
  end.

(** [checkFirstNameserver], on the content read from /etc/resolv.conf. *)
Definition checkResolvConf (resolvConf : string) : option error :=
  checkLines (splitLines resolvConf).

End ResolvConf.

(** [strings.Fields] on text whose bytes are all below 128: the maximal
    runs of bytes other than tab, line feed, vertical tab, form feed,
    carriage return and space.  Used for runs on concrete inputs. *)
Definition isAsciiSpace (c : ascii) : bool :=
  let n := nat_of_ascii c in
  ((9 <=? n) && (n <=? 13))%nat || (n =? 32)%nat.

Fixpoint fieldsFrom (s : string) (cur : option string) : list string :=
  match s with
  | EmptyString =>
      match cur with
      | Some t => [t]
      | None => []
      end
  | String c s' =>
      if isAsciiSpace c then
        match cur with
        | Some t => t :: fieldsFrom s' None
        | None => fieldsFrom s' None
        end
      else
        fieldsFrom s' (Some (match cur with
                             | Some t => t +:+ String c ""
                             | None => String c ""
                             end))
  end.

Definition asciiFields (s : string) : list string := fieldsFrom s None.

(** ** Package [cmd]: the root command (root.go) *)




Section Root.

Variable env : Env.

(** [utils.CheckDependencies] and [dns.TestDNS], which take none of the
    two network flags; nothing is assumed of them.  [TestDNS] is given the
    address of the gateway. *)
Variable CheckDependencies : M unit.
Variable TestDNS : string -> M (option error).



End Root.

(** * Properties *)

(** ** Recording a call *)

Lemma record_trace ev w : trace (record ev w) = trace w ++ [ev].
Proof. reflexivity. Qed.

Lemma record_files ev w : files (record ev w) = files w.
Proof. reflexivity. Qed.

(** ** [GetVMIP] and the lease wait *)

Lemma first_ipv4_none addrs :
  existsb (fun addr => (AddrType addr =? IP_ADDR_TYPE_IPV4)%Z) addrs = false ->
  first_ipv4 addrs = None.
Proof.
  induction addrs as [|addr rest IH]; simpl; [reflexivity|].
  intros H. apply orb_false_iff in H as [Ha Hr].
  rewrite Ha. simpl. auto.
Qed.

Lemma find_lease_none ifaces :
  no_ipv4_candidate ifaces = true -> find_lease ifaces = None.
Proof.
  unfold no_ipv4_candidate. rewrite negb_true_iff.
  induction ifaces as [|iface rest IH]; simpl; [reflexivity|].
  intros H. apply orb_false_iff in H as [Hi Hr].
  unfold ipv4_candidate in Hi.
  destruct (nonempty (Hwaddr iface)); simpl in Hi; [|auto].
  rewrite (first_ipv4_none _ Hi). auto.
Qed.

(** The loop of [waitForVMIP] never reaches a second pass: more fuel
    changes nothing. *)
Lemma waitForVMIP_one_pass env fuel vmName w :
  waitForVMIP env (S fuel) vmName w = waitForVMIP env 1 vmName w.
Proof.
  unfold waitForVMIP. simpl. unfold bind.
  destruct (waitForVMIP_body env vmName w) as [[[r|]| | |] w'] eqn:E;
    try reflexivity.
  exfalso. revert E. unfold waitForVMIP_body, bind, sleep, GetVMIP, bind, call_err, call_ifaces, ret.
  repeat (case_match; simplify_eq; try discriminate).
Qed.

(** C1 (code defect).  The loop of [waitForVMIP] does not wait: with a
    lease source that has nothing for the first [n+1] queries (and
    [sampleLease] from query [n+2] on), and whatever the number of passes
    allowed, it sleeps once, queries once and returns empty strings and a
    nil error. *)
Theorem waitForVMIP_returns_after_first_query :
  forall (n fuel : nat) (vmName : string) (fs : gmap string string),
    waitForVMIP (leaseAfter (S n)) (S fuel) vmName (mkWorld [] fs)
    = (Ret ("", "", None),
       mkWorld [ESleep 5; ELookupDomainByName vmName;
                EListAllInterfaceAddresses vmName
                  DOMAIN_INTERFACE_ADDRESSES_SRC_LEASE] fs)
    /\ (forall h ev, count is_lease_query h = S n ->
          ask_ifaces (leaseAfter (S n)) h ev = inr sampleLease).
Proof.
  intros n fuel vmName fs. split.
  - rewrite waitForVMIP_one_pass. reflexivity.
  - intros h ev Hq. simpl. rewrite Hq.
    replace (S n <? S n)%nat with false; [reflexivity|].
    symmetry. apply Nat.ltb_irrefl.
Qed.

(** C10.  When the lookup of the domain and the query of its interfaces
    succeed and no interface has both a hardware address and an IPv4
    address, [GetVMIP] returns two empty strings and a nil error; and
    the addressing of a node whose lease wait got this answer goes on to
    [AddDHCPReservation] and [updateHostDNS] with the empty address. *)
Theorem GetVMIP_no_lease_is_success env vmName w ifaces :
  ask_err env (trace w) (ELookupDomainByName vmName) = None ->
  ask_ifaces env (trace w ++ [ELookupDomainByName vmName])
    (EListAllInterfaceAddresses vmName DOMAIN_INTERFACE_ADDRESSES_SRC_LEASE)
  = inr ifaces ->
  no_ipv4_candidate ifaces = true ->
  let w' := mkWorld (trace w ++ [ELookupDomainByName vmName;
                                 EListAllInterfaceAddresses vmName
                                   DOMAIN_INTERFACE_ADDRESSES_SRC_LEASE])
                    (files w) in
  GetVMIP env vmName w = (Ret ("", "", None), w')
  /\ (forall fuel params role i w0,
        vmName = leaseName params role i ->
        w = record (ESleep 5) w0 ->
        addressNode env (S fuel) params role i w0
        = (do e <- AddDHCPReservation env "" "" (NodeParams.VirNet params);
           match e with
           | Some err' => ret (Some err')
           | None => do _ <- updateHostDNS env params "" vmName; ret None
           end) w').
Proof.
  intros Hdom Hif Hno w'.
  assert (Hget : GetVMIP env vmName w = (Ret ("", "", None), w')).
  { unfold GetVMIP, bind, call_err at 1. rewrite Hdom.
    unfold call_ifaces, record; cbn [trace files]. rewrite Hif.
    rewrite (find_lease_none _ Hno). unfold ret, w'.
    rewrite <- app_assoc. reflexivity. }
  split; [exact Hget|].
  intros fuel params role i w0 -> ->.
  unfold addressNode. unfold bind at 1 2.
  rewrite waitForVMIP_one_pass.
  unfold waitForVMIP, forever, waitForVMIP_body. unfold bind at 1 2 3, sleep.
  rewrite Hget. reflexivity.
Qed.

Lemma GetVMIP_no_lease_is_success_witness :
  trace (snd (addressNode noLeaseEnv 1 sampleNodes "bootstrap" 1 emptyWorld))
  = [ESleep 5; ELookupDomainByName "ocp-bootstrap-1";
     EListAllInterfaceAddresses "ocp-bootstrap-1" 0;
     ELookupNetworkByName "";
     ENetworkUpdate "" 3 4 (-1) (dhcpHostXML "" "ocp-100") 3;
     EWriteFile "/etc/hosts.ocp" " ocp-bootstrap-1.ocp.example.com" 420].
Proof.
  destruct (GetVMIP_no_lease_is_success noLeaseEnv "ocp-bootstrap-1"
              (record (ESleep 5) emptyWorld) ipv6OnlyLease
              eq_refl eq_refl eq_refl) as [_ H].
  rewrite (H 0%nat sampleNodes "bootstrap" 1%Z emptyWorld eq_refl eq_refl).
  reflexivity.
Defined.

(** ** Traces only grow *)

Lemma bind_Ret {A B} (m : M A) (k : A -> M B) w a w' :
  m w = (Ret a, w') -> bind m k w = k a w'.
Proof. unfold bind. intros ->. reflexivity. Qed.

Lemma extends_ret {A} (a : A) : extends (ret a).
Proof. intros w. exists []. simpl. symmetry. apply app_nil_r. Qed.

Lemma extends_logFatal {A} msg err : extends (@logFatal A msg err).
Proof. intros w. exists []. simpl. symmetry. apply app_nil_r. Qed.

Lemma extends_panic {A} msg : extends (@panic A msg).
Proof. intros w. exists []. simpl. symmetry. apply app_nil_r. Qed.

Lemma extends_bind {A B} (m : M A) (k : A -> M B) :
  extends m -> (forall a, extends (k a)) -> extends (bind m k).
Proof.
  intros Hm Hk w. unfold bind.
  destruct (Hm w) as [e1 H1].
  destruct (m w) as [[a| | |] w1]; simpl in H1; try (exists e1; exact H1).
  destruct (Hk a w1) as [e2 H2].
  exists (e1 ++ e2). rewrite H2, H1. symmetry. apply app_assoc.
Qed.

Lemma extends_call_err env ev : extends (call_err env ev).
Proof. intros w. exists [ev]. reflexivity. Qed.

Lemma extends_call_str env ev : extends (call_str env ev).
Proof. intros w. exists [ev]. reflexivity. Qed.

Lemma extends_call_ifaces env ev : extends (call_ifaces env ev).
Proof. intros w. exists [ev]. reflexivity. Qed.

Lemma extends_sleep s : extends (sleep s).
Proof. intros w. exists [ESleep s]. reflexivity. Qed.

Lemma extends_WriteFile env path data perm :
  extends (WriteFile env path data perm).
Proof.
  intros w. exists [EWriteFile path data perm]. unfold WriteFile.
  destruct (ask_err _ _ _); reflexivity.
Qed.

Lemma extends_OpenFileAppend env path perm :
  extends (OpenFileAppend env path perm).
Proof.
  intros w. exists [EOpenFile path true false perm]. unfold OpenFileAppend.
  destruct (ask_err _ _ _); [reflexivity|].
  destruct (files w !! path); reflexivity.
Qed.

Lemma extends_WriteStringAppend env path data :
  extends (WriteStringAppend env path data).
Proof.
  intros w. exists [EWriteString path data]. unfold WriteStringAppend.
  destruct (ask_err _ _ _); reflexivity.
Qed.

Lemma extends_forever {A} fuel (body : M (option A)) :
  extends body -> extends (forever fuel body).
Proof.
  intros Hb. induction fuel as [|fuel IH]; simpl.
  - intros w. exists []. simpl. symmetry. apply app_nil_r.
  - apply extends_bind; [exact Hb|].
    intros [a|]; [apply extends_ret | exact IH].
Qed.

Lemma extends_for_each {I} (l : list I) (body : I -> M (option error)) :
  (forall i, extends (body i)) -> extends (for_each l body).
Proof.
  intros Hb. induction l as [|i l IH]; simpl.
  - apply extends_ret.
  - apply extends_bind; [apply Hb|].
    intros [err|]; [apply extends_ret | exact IH].
Qed.

Create HintDb extends.
#[export] Hint Resolve extends_ret extends_logFatal extends_panic
  extends_call_err extends_call_str extends_call_ifaces extends_sleep
  extends_WriteFile extends_OpenFileAppend extends_WriteStringAppend
  : extends.

(** Goes through a function body made of binds, matches and calls. *)
Ltac extends_body :=
  repeat first
    [ progress auto with extends
    | apply extends_bind; [|intros]
    | apply extends_forever
    | apply extends_for_each; intros
    | match goal with
      | |- extends (match ?x with _ => _ end) => destruct x
      | |- extends (if ?b then _ else _) => destruct b
      end ].

Lemma extends_NewLibvirtConnection env uri :
  extends (NewLibvirtConnection env uri).
Proof. unfold NewLibvirtConnection. extends_body. Qed.

Lemma extends_CreateVM env p : extends (CreateVM env p).
Proof. unfold CreateVM. extends_body. Qed.

Lemma extends_StartVM env n : extends (StartVM env n).
Proof. unfold StartVM. extends_body. Qed.

Lemma extends_GetVMIP env n : extends (GetVMIP env n).
Proof. unfold GetVMIP. extends_body. Qed.

Lemma extends_AddDHCPReservation env n m i :
  extends (AddDHCPReservation env n m i).
Proof. unfold AddDHCPReservation. extends_body. Qed.

Lemma extends_WaitForSSHAccess env fuel ip host key user :
  extends (WaitForSSHAccess env fuel ip host key user).
Proof.
  unfold WaitForSSHAccess, sshAttempt, removeOldHostKey, exec. extends_body.
Qed.

Lemma extends_getLibvirtBridge env n : extends (getLibvirtBridge env n).
Proof. unfold getLibvirtBridge. extends_body. Qed.

Lemma extends_getLibvirtNetworkGatewayIP env n :
  extends (getLibvirtNetworkGatewayIP env n).
Proof. unfold getLibvirtNetworkGatewayIP. extends_body. Qed.

Lemma extends_ReloadDNS env svc : extends (ReloadDNS env svc).
Proof. unfold ReloadDNS, Restart, exec. extends_body. Qed.

Lemma extends_waitForVMIP env fuel n : extends (waitForVMIP env fuel n).
Proof.
  unfold waitForVMIP, waitForVMIP_body. extends_body.
Qed.

Lemma extends_updateHostDNS env p ip n : extends (updateHostDNS env p ip n).
Proof. unfold updateHostDNS. extends_body. Qed.

Lemma extends_updateClusterDNS env ip c d : extends (updateClusterDNS env ip c d).
Proof. unfold updateClusterDNS. extends_body. Qed.

#[export] Hint Resolve extends_NewLibvirtConnection extends_CreateVM
  extends_StartVM extends_GetVMIP extends_AddDHCPReservation
  extends_WaitForSSHAccess extends_getLibvirtBridge
  extends_getLibvirtNetworkGatewayIP extends_ReloadDNS extends_waitForVMIP
  extends_updateHostDNS extends_updateClusterDNS : extends.

Lemma extends_addressNode env fuel p role i :
  extends (addressNode env fuel p role i).
Proof. unfold addressNode. extends_body. Qed.

(** ** Calls a computation starts with *)

Lemma starts_nil {A} (m : M A) : extends m -> starts_with [] m.
Proof. intros H w. destruct (H w) as [evs E]. exists evs. exact E. Qed.

Lemma starts_bind {A B} pre (m : M A) (k : A -> M B) :
  starts_with pre m -> (forall a, extends (k a)) -> starts_with pre (bind m k).
Proof.
  intros Hm Hk w. unfold bind.
  destruct (Hm w) as [r1 H1].
  destruct (m w) as [[a| | |] w1]; simpl in H1; try (exists r1; exact H1).
  destruct (Hk a w1) as [e2 H2].
  exists (r1 ++ e2). rewrite H2, H1. rewrite <- !app_assoc. reflexivity.
Qed.

Lemma starts_call_err {B} env ev pre (k : option error -> M B) :
  (forall a, starts_with pre (k a)) ->
  starts_with (ev :: pre) (bind (call_err env ev) k).
Proof.
  intros Hk w. unfold bind, call_err.
  destruct (Hk (ask_err env (trace w) ev) (record ev w)) as [rest H].
  exists rest. rewrite H. simpl. rewrite <- app_assoc. reflexivity.
Qed.

Lemma starts_sleep {B} s pre (k : unit -> M B) :
  (forall a, starts_with pre (k a)) ->
  starts_with (ESleep s :: pre) (bind (sleep s) k).
Proof.
  intros Hk w. unfold bind, sleep.
  destruct (Hk tt (record (ESleep s) w)) as [rest H].
  exists rest. rewrite H. simpl. rewrite <- app_assoc. reflexivity.
Qed.

(** ** The host-mapping file *)

(** The load balancer's [updateClusterDNS] adds its line after what the
    file holds, when the file exists. *)
Lemma updateClusterDNS_appends ip clusterName baseDomain w old :
  files w !! hostsPath clusterName = Some old ->
  updateClusterDNS okEnv ip clusterName baseDomain w
  = (Ret None,
     mkWorld (trace w ++ [EOpenFile (hostsPath clusterName) true false 384;
                          EWriteString (hostsPath clusterName)
                            (lbEntry ip clusterName baseDomain +:+ nl)])
             (<[hostsPath clusterName :=
                  old +:+ lbEntry ip clusterName baseDomain +:+ nl]> (files w))).
Proof.
  intros Hold.
  unfold updateClusterDNS, bind, OpenFileAppend, WriteStringAppend, ret.
  cbn [okEnv leaseAfter ask_err]. rewrite Hold.
  cbn [record trace files]. rewrite Hold. cbn [default].
  rewrite <- app_assoc. reflexivity.
Qed.

(** C2 (code defect).  The per-node [updateHostDNS] writes the file anew:
    after one call the file is the entry of that call, and after a second
    call it is the entry of the second call alone. *)
Theorem updateHostDNS_overwrites :
  forall params ip1 vm1 ip2 vm2 w,
    let path := hostsPath (NodeParams.ClusterName params) in
    let w1 := snd (updateHostDNS okEnv params ip1 vm1 w) in
    let w2 := snd (updateHostDNS okEnv params ip2 vm2 w1) in
    files w1 !! path = Some (hostsEntry params ip1 vm1)
    /\ files w2 !! path = Some (hostsEntry params ip2 vm2).
Proof.
  intros params ip1 vm1 ip2 vm2 w. cbv zeta.
  unfold updateHostDNS, bind, WriteFile. cbn [okEnv leaseAfter ask_err snd files].
  split; apply lookup_insert_eq.
Qed.

(** ** The addressing stage *)

(** C3 (code defect).  With a node whose lease is 192.168.100.10 at
    52:54:00:aa:bb:cc, the addressing of the node looks up a network named
    after the leased address and reserves, for that hardware address, the
    name of the cluster's network as the address. *)
Theorem addressNode_swaps_reservation_arguments :
  forall params role i fuel fs,
    let vmName := leaseName params role i in
    trace (snd (addressNode okEnv (S fuel) params role i (mkWorld [] fs)))
    = [ESleep 5; ELookupDomainByName vmName;
       EListAllInterfaceAddresses vmName DOMAIN_INTERFACE_ADDRESSES_SRC_LEASE;
       ELookupNetworkByName "192.168.100.10";
       ENetworkUpdate "192.168.100.10"
         NETWORK_UPDATE_COMMAND_ADD_LAST NETWORK_SECTION_IP_DHCP_HOST (-1)
         (dhcpHostXML "52:54:00:aa:bb:cc" (NodeParams.VirNet params))
         (Z.lor NETWORK_UPDATE_AFFECT_LIVE NETWORK_UPDATE_AFFECT_CONFIG);
       EWriteFile (hostsPath (NodeParams.ClusterName params))
         (hostsEntry params "192.168.100.10" vmName) 420].
Proof.
  intros params role i fuel fs. reflexivity.
Qed.

(** ** Creation of a node *)

(** C6 (code defect).  The definition [CreateVM] builds does not depend on
    the boot location and the kernel arguments of its parameter; for the
    bootstrap node of [sampleNodes], which carries both, the definition
    handed to the hypervisor contains neither and boots from the disk. *)
Theorem CreateVM_ignores_boot_arguments :
  (forall env name mem cpus disk osv loc args net loc' args' w,
     CreateVM env (VMParams.mk name mem cpus disk osv loc args net) w
     = CreateVM env (VMParams.mk name mem cpus disk osv loc' args' net) w)
  /\ (forall env osv w,
        trace (snd (createBootstrapNode env osv sampleNodes w))
        = trace w ++ [EDomainCreateXML
                        (domainXML (bootstrapParams osv sampleNodes)) 0])
  /\ (forall osv,
        let p := bootstrapParams osv sampleNodes in
        VMParams.Location p = "rhcos-install/"
        /\ VMParams.ExtraArgs p
           = "nomodeset rd.neednet=1 coreos.inst=yes coreos.inst.install_dev=vda coreos.live.rootfs_url=http://192.168.100.5:8080/rhcos-live-rootfs.x86_64.img coreos.inst.ignition_url=http://192.168.100.5:8080/bootstrap.ign"
        /\ Contains (domainXML p) (VMParams.Location p) = false
        /\ Contains (domainXML p) (VMParams.ExtraArgs p) = false
        /\ Contains (domainXML p) "coreos.inst" = false
        /\ Contains (domainXML p) "<boot dev='hd'/>" = true
        /\ Contains (domainXML p)
             "<source file='/var/lib/libvirt/images/ocp-bootstrap.qcow2'/>" = true
        /\ Contains (domainXML p) "<source network='ocp-100'/>" = true).
Proof.
  split; [reflexivity|]. split.
  - intros env osv w. unfold createBootstrapNode, CreateVM, bind, call_err.
    destruct (ask_err env _ _); reflexivity.
  - intros osv. cbv zeta. repeat split; vm_compute; reflexivity.
Qed.

(** ** Names of the nodes *)

Lemma append_nil_r (s : string) : s +:+ "" = s.
Proof.
  induction s as [|c s IH]; [reflexivity|].
  change (String c (s +:+ "") = String c s). f_equal. exact IH.
Qed.

Lemma append_assoc (a b c : string) : (a +:+ b) +:+ c = a +:+ b +:+ c.
Proof.
  induction a as [|x a IH]; [reflexivity|].
  change (String x ((a +:+ b) +:+ c) = String x (a +:+ b +:+ c)).
  f_equal. exact IH.
Qed.

Lemma append_suffix_neq (c a b : string) : a <> b -> c +:+ a <> c +:+ b.
Proof. intros Hab H. apply Hab. exact (String.app_inj c _ _ H). Qed.

Lemma waitForVMIPs_first_calls env fuel params :
  starts_with
    [ESleep 5;
     ELookupDomainByName (NodeParams.ClusterName params +:+ "-bootstrap-1")]
    (waitForVMIPs env (S fuel) params).
Proof.
  unfold waitForVMIPs, roles.
  change (for_each ("bootstrap" :: ["master"; "worker"]) ?f)
    with (do e <- f "bootstrap";
          match e with
          | Some err => ret (Some err)
          | None => for_each ["master"; "worker"] f
          end).
  apply starts_bind.
  2:{ intros [err|]; [apply extends_ret|].
      apply extends_for_each. intros role.
      apply extends_for_each. intros i. apply extends_addressNode. }
  change (upto (getRoleCount params "bootstrap")) with [1%Z].
  simpl for_each.
  apply starts_bind; [|intros [err|]; apply extends_ret].
  unfold addressNode.
  apply starts_bind; [|intros [[ip mac] err]; extends_body].
  unfold waitForVMIP. simpl forever.
  apply starts_bind;
    [|intros [r|]; [apply extends_ret | apply extends_waitForVMIP]].
  unfold waitForVMIP_body.
  apply starts_sleep. intros _.
  apply starts_bind; [|intros [[ip mac] err]; extends_body].
  unfold GetVMIP.
  change (leaseName params "bootstrap" 1)
    with (NodeParams.ClusterName params +:+ "-bootstrap-1").
  apply starts_call_err. intros a. apply starts_nil. extends_body.
Qed.

(** C4 (code defect).  The bootstrap node is created as [<cluster>-bootstrap]
    and its lease is waited for under [<cluster>-bootstrap-1]; the load
    balancer is created and started as [<cluster>-lb] and its lease is
    waited for under [<cluster>].  Neither pair of names is equal. *)
Theorem lease_wait_uses_other_names :
  (forall osv params,
     VMParams.Name (bootstrapParams osv params)
     = NodeParams.ClusterName params +:+ "-bootstrap")
  /\ (forall env fuel params,
        starts_with
          [ESleep 5;
           ELookupDomainByName
             (NodeParams.ClusterName params +:+ "-bootstrap-1")]
          (waitForVMIPs env (S fuel) params))
  /\ (forall c : string, c +:+ "-bootstrap-1" <> c +:+ "-bootstrap")
  /\ (forall osv fuel params dnsDir dnsSvc gatewayIP fs,
        let c := LBVMParams.ClusterName params in
        exists rest,
          trace (snd (CreateLBVM okEnv osv (S fuel) params dnsDir dnsSvc
                        gatewayIP (mkWorld [] fs)))
          = [EConnect (LBVMParams.LibguestfsBackend params);
             EDomainCreateXML (domainXML (lbParams osv params)) 0;
             ELookupDomainByName (c +:+ "-lb");
             EDomainCreate (c +:+ "-lb");
             ESleep 5;
             ELookupDomainByName c;
             EListAllInterfaceAddresses c DOMAIN_INTERFACE_ADDRESSES_SRC_LEASE]
            ++ rest)
  /\ (forall osv params,
        VMParams.Name (lbParams osv params)
        = LBVMParams.ClusterName params +:+ "-lb")
  /\ (forall c : string, c +:+ "-lb" <> c).
Proof.
  split; [reflexivity|].
  split; [exact waitForVMIPs_first_calls|].
  split; [intros c; apply append_suffix_neq; discriminate|].
  split.
  - intros osv fuel params dnsDir dnsSvc gatewayIP fs c.
    unfold CreateLBVM.
    erewrite bind_Ret by reflexivity. cbv iota.
    erewrite bind_Ret by reflexivity. cbv iota.
    erewrite bind_Ret by reflexivity. cbv iota.
    erewrite bind_Ret by reflexivity. cbv iota.
    match goal with
    | |- exists rest, trace (snd (?k ?w4)) = _ =>
        assert (Hk : extends k) by extends_body;
        destruct (Hk w4) as [evs Hevs]
    end.
    eexists. rewrite Hevs. reflexivity.
  - split; [reflexivity|].
    intros c H. rewrite <- (append_nil_r c) in H at 2.
    apply String.app_inj in H. discriminate.
Qed.

(** ** [EnsureLibvirtNetwork] *)

(** Runs one call whose answer is known. *)
Lemma call_err_eq env ev w r :
  ask_err env (trace w) ev = r -> call_err env ev w = (Ret r, record ev w).
Proof. intros <-. reflexivity. Qed.










(** ** The SSH readiness gate *)

Lemma probe_answer_shift env w probe k :
  probe_answer env (trace (record probe (record (ESleep 5) w))) probe k
  = probe_answer env (trace w) probe (S k).
Proof.
  unfold probe_answer. rewrite !record_trace. simpl.
  rewrite <- !app_assoc. reflexivity.
Qed.

Lemma sshAttempt_fails env probe w err :
  probe_answer env (trace w) probe 0 = Some err ->
  sshAttempt env probe w = (Ret None, record probe (record (ESleep 5) w)).
Proof.
  unfold probe_answer, sshAttempt, bind, sleep, call_err. simpl.
  intros ->. reflexivity.
Qed.

Lemma sshAttempt_succeeds env probe w :
  probe_answer env (trace w) probe 0 = None ->
  sshAttempt env probe w = (Ret (Some None), record probe (record (ESleep 5) w)).
Proof.
  unfold probe_answer, sshAttempt, bind, sleep, call_err. simpl.
  intros ->. reflexivity.
Qed.

Lemma probes_world probe n w :
  mkWorld (trace (record probe (record (ESleep 5) w)) ++ probes n probe)
          (files (record probe (record (ESleep 5) w)))
  = mkWorld (trace w ++ probes (S n) probe) (files w).
Proof. rewrite !record_trace, !record_files. simpl. rewrite <- !app_assoc. reflexivity. Qed.

(** The loop returns at the first probe that succeeds, if it may run that
    long. *)
Lemma ssh_loop_success env probe n :
  forall fuel w,
    (forall k, (k < n)%nat -> probe_answer env (trace w) probe k <> None) ->
    probe_answer env (trace w) probe n = None ->
    (n < fuel)%nat ->
    forever fuel (sshAttempt env probe) w
    = (Ret None, mkWorld (trace w ++ probes (S n) probe) (files w)).
Proof.
  induction n as [|n IH]; intros fuel w Hfail Hok Hlt;
    (destruct fuel as [|fuel]; [lia|]); simpl forever.
  - rewrite (bind_Ret _ _ _ _ _ (sshAttempt_succeeds env probe w Hok)).
    unfold ret. f_equal. simpl. unfold record. simpl.
    rewrite <- app_assoc. reflexivity.
  - destruct (probe_answer env (trace w) probe 0) as [err|] eqn:E0;
      [|exfalso; apply (Hfail 0%nat); [lia | exact E0]].
    rewrite (bind_Ret _ _ _ _ _ (sshAttempt_fails env probe w err E0)).
    rewrite IH.
    + apply f_equal. apply probes_world.
    + intros k Hk. rewrite probe_answer_shift. apply Hfail. lia.
    + rewrite probe_answer_shift. exact Hok.
    + lia.
Qed.

(** While the probes fail the loop goes on. *)
Lemma ssh_loop_spin env probe fuel :
  forall w,
    (forall k, (k < fuel)%nat -> probe_answer env (trace w) probe k <> None) ->
    forever fuel (sshAttempt env probe) w
    = (Spin, mkWorld (trace w ++ probes fuel probe) (files w)).
Proof.
  induction fuel as [|fuel IH]; intros w Hfail; simpl forever.
  - simpl. rewrite app_nil_r. destruct w; reflexivity.
  - destruct (probe_answer env (trace w) probe 0) as [err|] eqn:E0;
      [|exfalso; apply (Hfail 0%nat); [lia | exact E0]].
    rewrite (bind_Ret _ _ _ _ _ (sshAttempt_fails env probe w err E0)).
    rewrite IH.
    + apply f_equal. apply probes_world.
    + intros k Hk. rewrite probe_answer_shift. apply Hfail. lia.
Qed.

(** The loop returns only after a probe that succeeded. *)
Lemma ssh_loop_returns env probe fuel :
  forall w r,
    fst (forever fuel (sshAttempt env probe) w) = Ret r ->
    exists n, (n < fuel)%nat /\ probe_answer env (trace w) probe n = None.
Proof.
  induction fuel as [|fuel IH]; intros w r; simpl forever.
  - simpl. discriminate.
  - destruct (probe_answer env (trace w) probe 0) as [err|] eqn:E0.
    + rewrite (bind_Ret _ _ _ _ _ (sshAttempt_fails env probe w err E0)).
      intros H. destruct (IH _ _ H) as (n & Hn & Hp).
      exists (S n). split; [lia|]. rewrite <- probe_answer_shift. exact Hp.
    + intros _. exists 0%nat. split; [lia | exact E0].
Qed.

(** Among the probes that succeed there is a first one. *)
Lemma first_success (f : nat -> option error) n :
  f n = None ->
  exists m, f m = None /\ forall k, (k < m)%nat -> f k <> None.
Proof.
  revert f. induction n as [|n IH]; intros f Hn.
  - exists 0%nat. split; [exact Hn | intros k Hk; lia].
  - destruct (f 0%nat) as [err|] eqn:E0.
    + destruct (IH (fun k => f (S k)) Hn) as (m & Hm & Hlt).
      exists (S m). split; [exact Hm|].
      intros [|k] Hk; [rewrite E0; discriminate | apply Hlt; lia].
    + exists 0%nat. split; [exact E0 | intros k Hk; lia].
Qed.

(** C9.  [WaitForSSHAccess] purges the host key of the address and then of
    the host name before any probe, returning the error of a purge that
    fails; after that it pauses 5 seconds before each probe, returns nil at
    the first probe that succeeds, and never returns while the probes fail,
    however many passes it is allowed.  So it returns if and only if a
    purge fails or some probe succeeds.  A probe is the command [true] run
    on the machine without a prompt:
    [ssh -i <key> -o StrictHostKeyChecking=no <user>@<address> true]. *)
Theorem WaitForSSHAccess_waits_for_first_success :
  forall env vmIP host sshKeyPath sshUser w,
    let purgeIP := EExec "ssh-keygen" ["-R"; vmIP] in
    let purgeHost := EExec "ssh-keygen" ["-R"; host] in
    let probe :=
      EExec "ssh" ["-i"; sshKeyPath; "-o"; "StrictHostKeyChecking=no";
                   sshUser +:+ "@" +:+ vmIP; "true"] in
    let h0 := trace w ++ [purgeIP; purgeHost] in
    let wait fuel := WaitForSSHAccess env fuel vmIP host sshKeyPath sshUser w in
    let purged :=
      ask_err env (trace w) purgeIP = None
      /\ ask_err env (trace w ++ [purgeIP]) purgeHost = None in
    (forall err fuel,
       ask_err env (trace w) purgeIP = Some err ->
       wait fuel = (Ret (Some err), mkWorld (trace w ++ [purgeIP]) (files w)))
    /\ (forall err fuel,
          ask_err env (trace w) purgeIP = None ->
          ask_err env (trace w ++ [purgeIP]) purgeHost = Some err ->
          wait fuel = (Ret (Some err), mkWorld h0 (files w)))
    /\ (forall n fuel,
          purged ->
          (forall k, (k < n)%nat -> probe_answer env h0 probe k <> None) ->
          probe_answer env h0 probe n = None ->
          (n < fuel)%nat ->
          wait fuel
          = (Ret None, mkWorld (h0 ++ probes (S n) probe) (files w)))
    /\ (purged ->
        (forall k, probe_answer env h0 probe k <> None) ->
        forall fuel,
          wait fuel = (Spin, mkWorld (h0 ++ probes fuel probe) (files w)))
    /\ ((exists fuel r, fst (wait fuel) = Ret r)
        <-> ask_err env (trace w) purgeIP <> None
            \/ ask_err env (trace w ++ [purgeIP]) purgeHost <> None
            \/ exists n, probe_answer env h0 probe n = None).
Proof.
  intros env vmIP host sshKeyPath sshUser w purgeIP purgeHost probe h0 wait purged.
  set (w2 := record purgeHost (record purgeIP w)).
  assert (T2 : trace w2 = h0).
  { unfold w2, h0. rewrite !record_trace, <- app_assoc. reflexivity. }
  assert (F2 : files w2 = files w) by reflexivity.
  assert (Hloop : purged -> forall fuel,
            wait fuel = forever fuel (sshAttempt env probe) w2).
  { intros [H1 H2] fuel. unfold wait, WaitForSSHAccess, removeOldHostKey, exec.
    rewrite (bind_Ret _ _ _ _ _ (call_err_eq env purgeIP w None H1)).
    rewrite (bind_Ret _ _ (record purgeIP w) None w2); [reflexivity|].
    apply call_err_eq. exact H2. }
  assert (A : forall err fuel,
       ask_err env (trace w) purgeIP = Some err ->
       wait fuel = (Ret (Some err), mkWorld (trace w ++ [purgeIP]) (files w))).
  { intros err fuel H1. unfold wait, WaitForSSHAccess, removeOldHostKey, exec.
    rewrite (bind_Ret _ _ _ _ _ (call_err_eq env purgeIP w _ H1)).
    reflexivity. }
  assert (B : forall err fuel,
          ask_err env (trace w) purgeIP = None ->
          ask_err env (trace w ++ [purgeIP]) purgeHost = Some err ->
          wait fuel = (Ret (Some err), mkWorld h0 (files w))).
  { intros err fuel H1 H2. unfold wait, WaitForSSHAccess, removeOldHostKey, exec.
    rewrite (bind_Ret _ _ _ _ _ (call_err_eq env purgeIP w None H1)).
    rewrite (bind_Ret _ _ (record purgeIP w) (Some err) w2);
      [|apply call_err_eq; exact H2].
    unfold ret. rewrite <- T2. reflexivity. }
  assert (C : forall n fuel,
          purged ->
          (forall k, (k < n)%nat -> probe_answer env h0 probe k <> None) ->
          probe_answer env h0 probe n = None ->
          (n < fuel)%nat ->
          wait fuel
          = (Ret None, mkWorld (h0 ++ probes (S n) probe) (files w))).
  { intros n fuel Hp Hfail Hok Hlt. rewrite (Hloop Hp).
    rewrite <- T2, <- F2. apply ssh_loop_success; rewrite ?T2; assumption. }
  assert (D : purged ->
        (forall k, probe_answer env h0 probe k <> None) ->
        forall fuel,
          wait fuel = (Spin, mkWorld (h0 ++ probes fuel probe) (files w))).
  { intros Hp Hfail fuel. rewrite (Hloop Hp).
    rewrite <- T2, <- F2. apply ssh_loop_spin. intros k _. rewrite T2.
    apply Hfail. }
  repeat split; try assumption.
  - intros (fuel & r & Hr).
    destruct (ask_err env (trace w) purgeIP) as [e1|] eqn:E1;
      [left; discriminate|].
    destruct (ask_err env (trace w ++ [purgeIP]) purgeHost) as [e2|] eqn:E2;
      [right; left; discriminate|].
    right; right. rewrite (Hloop (conj eq_refl eq_refl)) in Hr.
    destruct (ssh_loop_returns _ _ _ _ _ Hr) as (n & _ & Hn).
    exists n. rewrite <- T2. exact Hn.
  - intros H.
    destruct (ask_err env (trace w) purgeIP) as [e1|] eqn:E1.
    { exists 0%nat, (Some e1). rewrite (A e1 0%nat eq_refl). reflexivity. }
    destruct (ask_err env (trace w ++ [purgeIP]) purgeHost) as [e2|] eqn:E2.
    { exists 0%nat, (Some e2). rewrite (B e2 0%nat eq_refl eq_refl).
      reflexivity. }
    destruct H as [H|[H|[n Hn]]]; try (exfalso; apply H; reflexivity).
    destruct (first_success _ n Hn) as (m & Hm & Hlt).
    exists (S m), None.
    rewrite (C m (S m) (conj eq_refl eq_refl) Hlt Hm (Nat.lt_succ_diag_r m)).
    reflexivity.
Qed.

Lemma WaitForSSHAccess_waits_for_first_success_witness :
  WaitForSSHAccess (sshAfter 2) 3 "192.168.100.10" "bootstrap.ocp.example.com"
    "sshkey" "core" emptyWorld
  = (Ret None,
     mkWorld
       ([EExec "ssh-keygen" ["-R"; "192.168.100.10"];
         EExec "ssh-keygen" ["-R"; "bootstrap.ocp.example.com"]]
        ++ probes 3 (EExec "ssh" ["-i"; "sshkey"; "-o";
                                  "StrictHostKeyChecking=no";
                                  "core@192.168.100.10"; "true"]))
       ∅).
Proof.
  refine (proj1 (proj2 (proj2
            (WaitForSSHAccess_waits_for_first_success (sshAfter 2)
               "192.168.100.10" "bootstrap.ocp.example.com" "sshkey" "core"
               emptyWorld)))
            2%nat 3%nat (conj eq_refl eq_refl) _ eq_refl (Nat.lt_succ_diag_r 2)).
  intros k Hk.
  destruct k as [|[|k]]; [discriminate | discriminate | lia].
Defined.

(** ** Creation of the cohort *)

Lemma CreateVM_ok env p w :
  ask_err env (trace w) (create p) = None ->
  CreateVM env p w = (Ret None, record (create p) w).
Proof.
  intros H. unfold CreateVM.
  rewrite (bind_Ret _ _ _ _ _ (call_err_eq env _ w _ H)). reflexivity.
Qed.

Lemma CreateVM_fails env p w e :
  ask_err env (trace w) (create p) = Some e ->
  CreateVM env p w
  = (Ret (Some ("failed to create domain: " +:+ e)), record (create p) w).
Proof.
  intros H. unfold CreateVM.
  rewrite (bind_Ret _ _ _ _ _ (call_err_eq env _ w _ H)). reflexivity.
Qed.

Lemma seqZ_S_front (m : Z) (n : nat) :
  seqZ m (Z.of_nat (S n)) = m :: seqZ (m + 1) (Z.of_nat n).
Proof.
  rewrite seqZ_cons by lia. f_equal. f_equal; lia.
Qed.

(** A creation loop stops at the first domain the hypervisor refuses: the
    domains before it have been created, none after it is asked for. *)
Lemma create_loop_fail env (f : Z -> VMParams.t) (n : nat) :
  forall (m : Z) w post e,
    (forall i, (i < n)%nat ->
       ask_err env (trace w ++ map (fun j => create (f j)) (seqZ m (Z.of_nat i)))
               (create (f (m + Z.of_nat i)%Z)) = None) ->
    ask_err env (trace w ++ map (fun j => create (f j)) (seqZ m (Z.of_nat n)))
            (create (f (m + Z.of_nat n)%Z)) = Some e ->
    for_each (seqZ m (Z.of_nat n) ++ (m + Z.of_nat n)%Z :: post)
             (fun i => CreateVM env (f i)) w
    = (Ret (Some ("failed to create domain: " +:+ e)),
       mkWorld (trace w ++ map (fun j => create (f j))
                               (seqZ m (Z.of_nat (S n))))
               (files w)).
Proof.
  induction n as [|n IH]; intros m w post e Hok Hfail.
  - change (Z.of_nat 0) with 0%Z in *. rewrite Z.add_0_r in *.
    rewrite seqZ_nil in * by lia. simpl in Hfail. rewrite app_nil_r in Hfail.
    simpl app. simpl for_each.
    rewrite (bind_Ret _ _ _ _ _ (CreateVM_fails env _ w e Hfail)).
    reflexivity.
  - rewrite seqZ_S_front. simpl app. simpl for_each.
    assert (H0 : ask_err env (trace w) (create (f m)) = None).
    { specialize (Hok 0%nat ltac:(lia)).
      change (Z.of_nat 0) with 0%Z in Hok. rewrite Z.add_0_r in Hok.
      rewrite seqZ_nil in Hok by lia. simpl in Hok.
      rewrite app_nil_r in Hok. exact Hok. }
    rewrite (bind_Ret _ _ _ _ _ (CreateVM_ok env _ w H0)).
    replace (m + Z.of_nat (S n))%Z with (m + 1 + Z.of_nat n)%Z by lia.
    rewrite (IH (m + 1)%Z (record (create (f m)) w) post e).
    + rewrite record_trace, record_files.
      rewrite (seqZ_S_front m (S n)). simpl map.
      rewrite <- app_assoc. reflexivity.
    + intros i Hi. specialize (Hok (S i) ltac:(lia)).
      rewrite seqZ_S_front in Hok. simpl map in Hok.
      rewrite record_trace, <- app_assoc. simpl app.
      replace (m + 1 + Z.of_nat i)%Z with (m + Z.of_nat (S i))%Z by lia.
      exact Hok.
    + rewrite seqZ_S_front in Hfail. simpl map in Hfail.
      rewrite record_trace, <- app_assoc. simpl app.
      replace (m + 1 + Z.of_nat n)%Z with (m + Z.of_nat (S n))%Z by lia.
      exact Hfail.
Qed.

(** The loop over [upto n], refused at [k]. *)
Lemma create_upto_fail env (f : Z -> VMParams.t) (n k : Z) w e :
  (1 <= k <= n)%Z ->
  (forall j, (1 <= j < k)%Z ->
     ask_err env (trace w ++ map (fun j => create (f j)) (upto (j - 1)))
             (create (f j)) = None) ->
  ask_err env (trace w ++ map (fun j => create (f j)) (upto (k - 1)))
          (create (f k)) = Some e ->
  for_each (upto n) (fun i => CreateVM env (f i)) w
  = (Ret (Some ("failed to create domain: " +:+ e)),
     mkWorld (trace w ++ map (fun j => create (f j)) (upto k)) (files w)).
Proof.
  intros Hk Hok Hfail. unfold upto in *.
  assert (Hp : exists p : nat, k = (1 + Z.of_nat p)%Z).
  { exists (Z.to_nat (k - 1)). lia. }
  destruct Hp as [p ->].
  replace (1 + Z.of_nat p - 1)%Z with (Z.of_nat p) in Hfail by lia.
  replace n with (Z.of_nat p + (n - Z.of_nat p))%Z by lia.
  rewrite seqZ_app by lia.
  rewrite (seqZ_cons (1 + Z.of_nat p)) by lia.
  rewrite (create_loop_fail env f p 1 w _ e).
  - replace (1 + Z.of_nat p)%Z with (Z.of_nat (S p)) by lia. reflexivity.
  - intros i Hi. specialize (Hok (1 + Z.of_nat i)%Z ltac:(lia)).
    replace (1 + Z.of_nat i - 1)%Z with (Z.of_nat i) in Hok by lia.
    exact Hok.
  - exact Hfail.
Qed.

(** The definitions of a worker, of a master and of the bootstrap node
    differ: the name of the domain comes first in them. *)
Lemma create_worker_not_master osv params i j :
  create (workerParams osv params i) <> create (masterParams osv params j).
Proof.
  unfold create. intros H. injection H as H. unfold domainXML in H.
  apply String.app_inj in H. simpl VMParams.Name in H.
  rewrite !append_assoc in H.
  apply String.app_inj in H. discriminate.
Qed.

Lemma create_worker_not_bootstrap osv params i :
  create (workerParams osv params i) <> create (bootstrapParams osv params).
Proof.
  unfold create. intros H. injection H as H. unfold domainXML in H.
  apply String.app_inj in H. simpl VMParams.Name in H.
  rewrite !append_assoc in H.
  apply String.app_inj in H. discriminate.
Qed.

Lemma no_worker_created osv params uri l i :
  ~ In (create (workerParams osv params i))
       (EConnect uri :: create (bootstrapParams osv params)
        :: map (fun j => create (masterParams osv params j)) l).
Proof.
  intros [H|[H|H]].
  - discriminate.
  - symmetry in H. exact (create_worker_not_bootstrap _ _ _ H).
  - apply in_map_iff in H as (j & Hj & _). symmetry in Hj.
    exact (create_worker_not_master _ _ _ _ Hj).
Qed.

(** C7 (amended).  When the creation of master [k] is refused, [CreateNodes]
    ends in [logging.Fatal] with the error of that creation: the process
    exits, nothing is returned to the caller.  The calls of the run are the
    connection, the creation of the bootstrap node and the creations of
    masters 1 to [k]; no worker is created.  In general a failed
    connection, a failed creation of the bootstrap node, of a master or of
    a worker ends the run in [logging.Fatal] in the world that stage left,
    and an addressing stage that returns an error or ends in
    [logging.Fatal] ends the run in the same way, in the world it left. *)
Theorem CreateNodes_fails_fast :
  forall env osv fuel params w,
    let uri := NodeParams.LibguestfsBackend params in
    let boot := create (bootstrapParams osv params) in
    let master := fun j => create (masterParams osv params j) in
    let run := CreateNodes env osv fuel params w in
    let connected w1 := NewLibvirtConnection env uri w = (Ret None, w1) in
    let booted w1 w2 :=
      connected w1
      /\ createBootstrapNode env osv params w1 = (Ret None, w2) in
    let mastered w2 w3 :=
      (exists w1, booted w1 w2)
      /\ createMasterNodes env osv params w2 = (Ret None, w3) in
    let created w3 w4 :=
      (exists w2, mastered w2 w3)
      /\ createWorkerNodes env osv params w3 = (Ret None, w4) in
    (forall k e,
       (1 <= k <= NodeParams.NMaster params)%Z ->
       ask_err env (trace w) (EConnect uri) = None ->
       ask_err env (trace w ++ [EConnect uri]) boot = None ->
       (forall j, (1 <= j < k)%Z ->
          ask_err env
            (trace w ++ EConnect uri :: boot :: map master (upto (j - 1)))
            (master j) = None) ->
       ask_err env
         (trace w ++ EConnect uri :: boot :: map master (upto (k - 1)))
         (master k) = Some e ->
       run = (Fatal "Failed to create master nodes"
                    ("failed to create domain: " +:+ e),
              mkWorld (trace w ++ EConnect uri :: boot :: map master (upto k))
                      (files w))
       /\ forall i,
            ~ In (create (workerParams osv params i))
                 (EConnect uri :: boot :: map master (upto k)))
    /\ (forall err w1,
          NewLibvirtConnection env uri w = (Ret (Some err), w1) ->
          run = (Fatal "Failed to connect to libvirt" err, w1))
    /\ (forall err w1 w2,
          connected w1 ->
          createBootstrapNode env osv params w1 = (Ret (Some err), w2) ->
          run = (Fatal "Failed to create bootstrap node" err, w2))
    /\ (forall err w2 w3,
          (exists w1, booted w1 w2) ->
          createMasterNodes env osv params w2 = (Ret (Some err), w3) ->
          run = (Fatal "Failed to create master nodes" err, w3))
    /\ (forall err w3 w4,
          (exists w2, mastered w2 w3) ->
          createWorkerNodes env osv params w3 = (Ret (Some err), w4) ->
          run = (Fatal "Failed to create worker nodes" err, w4))
    /\ (forall err w4 w5,
          (exists w3, created w3 w4) ->
          waitForVMIPs env fuel params w4 = (Ret (Some err), w5) ->
          run = (Ret (Some err), w5))
    /\ (forall msg err w4 w5,
          (exists w3, created w3 w4) ->
          waitForVMIPs env fuel params w4 = (Fatal msg err, w5) ->
          run = (Fatal msg err, w5)).
Proof.
  intros env osv fuel params w uri boot master run connected booted mastered
    created.
  assert (S2 : forall err w1 w2,
          connected w1 ->
          createBootstrapNode env osv params w1 = (Ret (Some err), w2) ->
          run = (Fatal "Failed to create bootstrap node" err, w2)).
  { intros err w1 w2 Hc Hb. unfold run, CreateNodes.
    rewrite (bind_Ret _ _ _ _ _ Hc). cbv iota.
    rewrite (bind_Ret _ _ _ _ _ Hb). reflexivity. }
  assert (S3 : forall err w2 w3,
          (exists w1, booted w1 w2) ->
          createMasterNodes env osv params w2 = (Ret (Some err), w3) ->
          run = (Fatal "Failed to create master nodes" err, w3)).
  { intros err w2 w3 (w1 & Hc & Hb) Hm. unfold run, CreateNodes.
    rewrite (bind_Ret _ _ _ _ _ Hc). cbv iota.
    rewrite (bind_Ret _ _ _ _ _ Hb). cbv iota.
    rewrite (bind_Ret _ _ _ _ _ Hm). reflexivity. }
  split; [|split; [|split; [exact S2|split; [exact S3|split; [|split]]]]].
  - intros k e Hk Hconn Hboot Hok Hfail.
    split; [|intros i; apply no_worker_created].
    set (w1 := record (EConnect uri) w).
    set (w2 := record boot w1).
    assert (T2 : forall l, trace w2 ++ l = trace w ++ EConnect uri :: boot :: l).
    { intros l. unfold w2, w1. rewrite !record_trace, <- !app_assoc.
      reflexivity. }
    rewrite (S3 ("failed to create domain: " +:+ e) w2
               (mkWorld (trace w2 ++ map master (upto k)) (files w2))).
    + rewrite T2. reflexivity.
    + exists w1. split.
      * unfold connected, NewLibvirtConnection.
        rewrite (bind_Ret _ _ _ _ _ (call_err_eq env _ w _ Hconn)).
        reflexivity.
      * apply CreateVM_ok. exact Hboot.
    + unfold createMasterNodes.
      apply (create_upto_fail env (masterParams osv params)
               (NodeParams.NMaster params) k w2 e Hk).
      * intros j Hj. rewrite T2. apply Hok. exact Hj.
      * rewrite T2. exact Hfail.
  - intros err w1 Hc. unfold run, CreateNodes.
    rewrite (bind_Ret _ _ _ _ _ Hc). reflexivity.
  - intros err w3 w4 (w2 & (w1 & Hc & Hb) & Hm) Hw. unfold run, CreateNodes.
    rewrite (bind_Ret _ _ _ _ _ Hc). cbv iota.
    rewrite (bind_Ret _ _ _ _ _ Hb). cbv iota.
    rewrite (bind_Ret _ _ _ _ _ Hm). cbv iota.
    rewrite (bind_Ret _ _ _ _ _ Hw). reflexivity.
  - intros err w4 w5 (w3 & (w2 & (w1 & Hc & Hb) & Hm) & Hw) Ha.
    unfold run, CreateNodes.
    rewrite (bind_Ret _ _ _ _ _ Hc). cbv iota.
    rewrite (bind_Ret _ _ _ _ _ Hb). cbv iota.
    rewrite (bind_Ret _ _ _ _ _ Hm). cbv iota.
    rewrite (bind_Ret _ _ _ _ _ Hw). cbv iota.
    rewrite (bind_Ret _ _ _ _ _ Ha). reflexivity.
  - intros msg err w4 w5 (w3 & (w2 & (w1 & Hc & Hb) & Hm) & Hw) Ha.
    unfold run, CreateNodes.
    rewrite (bind_Ret _ _ _ _ _ Hc). cbv iota.
    rewrite (bind_Ret _ _ _ _ _ Hb). cbv iota.
    rewrite (bind_Ret _ _ _ _ _ Hm). cbv iota.
    rewrite (bind_Ret _ _ _ _ _ Hw). cbv iota.
    unfold bind. rewrite Ha. reflexivity.
Qed.

(** C7, as stated, fails: when the creation of master 2 is refused,
    [CreateNodes] does not return the error; the run ends in
    [logging.Fatal]. *)
Lemma CreateNodes_exits_on_master_failure :
  CreateNodes (refuseDomain "ocp-master-2") "rhel9.0" 1 sampleNodes emptyWorld
  = (Fatal "Failed to create master nodes"
           "failed to create domain: operation failed: domain already exists",
     mkWorld [EConnect "qemu:///system";
              create (bootstrapParams "rhel9.0" sampleNodes);
              create (masterParams "rhel9.0" sampleNodes 1);
              create (masterParams "rhel9.0" sampleNodes 2)]
             ∅).
Proof. vm_compute. reflexivity. Qed.

Lemma CreateNodes_fails_fast_witness :
  CreateNodes (refuseDomain "ocp-master-1") "rhel9.0" 0 sampleNodes emptyWorld
  = (Fatal "Failed to create master nodes"
           ("failed to create domain: "
            +:+ "operation failed: domain already exists"),
     mkWorld (trace emptyWorld
              ++ EConnect "qemu:///system"
                 :: create (bootstrapParams "rhel9.0" sampleNodes)
                 :: map (fun j => create (masterParams "rhel9.0" sampleNodes j))
                        (upto 1))
             (files emptyWorld)).
Proof.
  refine (proj1 (proj1 (CreateNodes_fails_fast (refuseDomain "ocp-master-1")
                          "rhel9.0" 0%nat sampleNodes emptyWorld)
                   1%Z "operation failed: domain already exists" _ _ _ _ _)).
  - simpl. lia.
  - reflexivity.
  - vm_compute. reflexivity.
  - intros j Hj. lia.
  - vm_compute. reflexivity.
Defined.

(** * More properties *)

(** ** Names of the machines *)

Lemma append_length (a b : string) :
  String.length (a +:+ b) = (String.length a + String.length b)%nat.
Proof.
  induction a as [|x a IH]; [reflexivity|].
  change (S (String.length (a +:+ b)) = S (String.length a + String.length b)).
  f_equal. exact IH.
Qed.

Lemma append_neq_self (c s : string) : s <> "" -> c +:+ s <> c.
Proof.
  intros Hs H. rewrite <- (append_nil_r c) in H at 2.
  apply String.app_inj in H. exact (Hs H).
Qed.

Lemma masterName_inj osv params i j :
  VMParams.Name (masterParams osv params i)
  = VMParams.Name (masterParams osv params j) -> i = j.
Proof.
  simpl. intros H. apply String.app_inj in H.
  apply (String.app_inj "-master-") in H.
  exact (pretty_Z_inj _ _ H).
Qed.

Lemma workerName_inj osv params i j :
  VMParams.Name (workerParams osv params i)
  = VMParams.Name (workerParams osv params j) -> i = j.
Proof.
  simpl. intros H. apply String.app_inj in H.
  apply (String.app_inj "-worker-") in H.
  exact (pretty_Z_inj _ _ H).
Qed.

Lemma append_inj_same_length (a b s t : string) :
  String.length a = String.length b -> a +:+ s = b +:+ t -> a = b.
Proof.
  revert b. induction a as [|x a IH]; intros [|y b] L H; try discriminate.
  - reflexivity.
  - change (String x (a +:+ s) = String y (b +:+ t)) in H.
    injection H as -> H. f_equal. apply IH; [|exact H].
    simpl in L. lia.
Qed.

Lemma append_inj_r (a b s : string) : a +:+ s = b +:+ s -> a = b.
Proof.
  intros H. apply (append_inj_same_length a b s s); [|exact H].
  apply (f_equal String.length) in H. rewrite !append_length in H. lia.
Qed.

Lemma masterDisk_inj osv params i j :
  VMParams.DiskPath (masterParams osv params i)
  = VMParams.DiskPath (masterParams osv params j) -> i = j.
Proof.
  simpl. intros H. do 3 apply String.app_inj in H.
  apply (String.app_inj "-master-") in H.
  apply append_inj_r in H. exact (pretty_Z_inj _ _ H).
Qed.

Lemma workerDisk_inj osv params i j :
  VMParams.DiskPath (workerParams osv params i)
  = VMParams.DiskPath (workerParams osv params j) -> i = j.
Proof.
  simpl. intros H. do 3 apply String.app_inj in H.
  apply (String.app_inj "-worker-") in H.
  apply append_inj_r in H. exact (pretty_Z_inj _ _ H).
Qed.

Lemma NoDup_map_inj {A B} (f : A -> B) (l : list A) :
  (forall x y, f x = f y -> x = y) -> NoDup l -> NoDup (map f l).
Proof.
  intros Hf. induction l as [|a l IH]; simpl; intros Hl.
  - apply NoDup_nil_2.
  - apply NoDup_cons in Hl as [Ha Hl]. apply NoDup_cons. split; [|auto].
    intros Hin. apply list_elem_of_In, in_map_iff in Hin as (x & Hx & Hin).
    apply Hf in Hx. subst x. apply Ha, list_elem_of_In, Hin.
Qed.

Lemma NoDup_three {A} (a : A) (l1 l2 : list A) :
  ~ In a l1 -> ~ In a l2 -> (forall x, In x l1 -> ~ In x l2) ->
  NoDup l1 -> NoDup l2 -> NoDup (a :: l1 ++ l2).
Proof.
  intros Ha1 Ha2 H12 N1 N2. apply NoDup_cons. split.
  - intros Hin. apply list_elem_of_In, in_app_or in Hin as [H|H]; auto.
  - apply NoDup_app. split; [exact N1|]. split; [|exact N2].
    intros x Hx Hx'. apply list_elem_of_In in Hx, Hx'. exact (H12 x Hx Hx').
Qed.

(** Within one cluster the machines of the cohort have pairwise
    different names and pairwise different disk images, whatever the
    numbers of masters and workers. *)
Theorem cohort_names_distinct :
  forall osv params,
    NoDup (map VMParams.Name (cohort osv params))
    /\ NoDup (map VMParams.DiskPath (cohort osv params)).
Proof.
  intros osv params. unfold cohort. simpl map. rewrite !map_app, !map_map.
  split.
  - apply NoDup_three.
    + intros H. apply in_map_iff in H as (i & Hi & _). simpl in Hi.
      apply String.app_inj in Hi. discriminate.
    + intros H. apply in_map_iff in H as (i & Hi & _). simpl in Hi.
      apply String.app_inj in Hi. discriminate.
    + intros x H1 H2. apply in_map_iff in H1 as (i & Hi & _).
      apply in_map_iff in H2 as (j & Hj & _). subst x. simpl in Hj.
      apply String.app_inj in Hj. discriminate.
    + apply NoDup_map_inj; [apply masterName_inj | apply NoDup_seqZ].
    + apply NoDup_map_inj; [apply workerName_inj | apply NoDup_seqZ].
  - apply NoDup_three.
    + intros H. apply in_map_iff in H as (i & Hi & _). simpl in Hi.
      do 3 apply String.app_inj in Hi. discriminate.
    + intros H. apply in_map_iff in H as (i & Hi & _). simpl in Hi.
      do 3 apply String.app_inj in Hi. discriminate.
    + intros x H1 H2. apply in_map_iff in H1 as (i & Hi & _).
      apply in_map_iff in H2 as (j & Hj & _). subst x. simpl in Hj.
      do 3 apply String.app_inj in Hj. discriminate.
    + apply NoDup_map_inj; [apply masterDisk_inj | apply NoDup_seqZ].
    + apply NoDup_map_inj; [apply workerDisk_inj | apply NoDup_seqZ].
Qed.

(** ** Listing the machines of a cluster *)

Lemma listVMs_all_ok domains clusterName :
  forall names vms freed,
    map GetName domains = map inr names ->
    Forall (fun d => Free d = None) domains ->
    listVMs domains clusterName vms freed
    = (vms ++ map (fun n => mkVM n "")
                  (List.filter (fun n => nameContainsCluster n clusterName)
                               names),
       None, freed ++ domains).
Proof.
  induction domains as [|d rest IH]; intros names vms freed Hn Hf.
  - destruct names; [|discriminate]. simpl. rewrite !app_nil_r. reflexivity.
  - destruct names as [|n names]; [discriminate|].
    simpl in Hn. injection Hn as Hd Hn.
    apply Forall_cons in Hf as [Hfd Hf].
    simpl. rewrite Hd, Hfd. rewrite (IH names _ _ Hn Hf).
    destruct (nameContainsCluster n clusterName); simpl;
      rewrite <- !app_assoc; reflexivity.
Qed.

(** When every handle gives its name and is freed without error,
    [GetVMsByName] returns the machines whose name passes
    [nameContainsCluster], in the order of the listing and with an empty
    status, and has freed every handle. *)
Theorem GetVMsByName_filters domains names clusterName :
  map GetName domains = map inr names ->
  Forall (fun d => Free d = None) domains ->
  GetVMsByName (inr domains) clusterName
  = (map (fun n => mkVM n "")
         (List.filter (fun n => nameContainsCluster n clusterName) names),
     None, domains).
Proof.
  intros Hn Hf. unfold GetVMsByName.
  rewrite (listVMs_all_ok domains clusterName names [] [] Hn Hf).
  reflexivity.
Qed.

Lemma GetVMsByName_filters_witness :
  GetVMsByName
    (inr [mkDomain (inr "ocp-bootstrap") None; mkDomain (inr "other") None;
          mkDomain (inr "ocp") None])
    "ocp"
  = ([mkVM "ocp-bootstrap" ""; mkVM "ocp" ""], None,
     [mkDomain (inr "ocp-bootstrap") None; mkDomain (inr "other") None;
      mkDomain (inr "ocp") None]).
Proof.
  apply (GetVMsByName_filters _ ["ocp-bootstrap"; "other"; "ocp"] "ocp").
  - reflexivity.
  - repeat constructor.
Defined.

Lemma listVMs_prefix_ok pre clusterName :
  forall names rest vms freed,
    map GetName pre = map inr names ->
    Forall (fun d => Free d = None) pre ->
    listVMs (pre ++ rest) clusterName vms freed
    = listVMs rest clusterName
        (vms ++ map (fun n => mkVM n "")
                    (List.filter (fun n => nameContainsCluster n clusterName)
                                 names))
        (freed ++ pre).
Proof.
  induction pre as [|d pre IH]; intros names rest vms freed Hn Hf.
  - destruct names; [|discriminate]. simpl. rewrite !app_nil_r. reflexivity.
  - destruct names as [|n names]; [discriminate|].
    simpl in Hn. injection Hn as Hd Hn.
    apply Forall_cons in Hf as [Hfd Hf].
    simpl. rewrite Hd, Hfd. rewrite (IH names rest _ _ Hn Hf).
    destruct (nameContainsCluster n clusterName); simpl;
      rewrite <- !app_assoc; reflexivity.
Qed.

(** [GetVMsByName] gives up at the first handle that fails: the machines
    found before it are dropped from the result, and no handle after it is
    freed (nor the failing one, when it is its name that cannot be read). *)
Theorem GetVMsByName_stops_at_failure pre names d post clusterName :
  map GetName pre = map inr names ->
  Forall (fun d => Free d = None) pre ->
  (forall err, GetName d = inl err ->
     GetVMsByName (inr (pre ++ d :: post)) clusterName
     = ([], Some ("failed to get domain name: " +:+ err), pre))
  /\ (forall name err, GetName d = inr name -> Free d = Some err ->
        GetVMsByName (inr (pre ++ d :: post)) clusterName
        = ([], Some ("failed to free domain: " +:+ err), pre ++ [d])).
Proof.
  intros Hn Hf. unfold GetVMsByName.
  rewrite (listVMs_prefix_ok pre clusterName names (d :: post) [] [] Hn Hf).
  split.
  - intros err Hd. simpl. rewrite Hd. reflexivity.
  - intros name err Hd Hfd. simpl. rewrite Hd, Hfd. reflexivity.
Qed.

Lemma GetVMsByName_stops_at_failure_witness :
  GetVMsByName
    (inr ([mkDomain (inr "ocp-bootstrap") None]
          ++ mkDomain (inl "Domain not found") None
          :: [mkDomain (inr "ocp") None]))
    "ocp"
  = ([], Some ("failed to get domain name: " +:+ "Domain not found"),
     [mkDomain (inr "ocp-bootstrap") None]).
Proof.
  refine (proj1 (GetVMsByName_stops_at_failure
                   [mkDomain (inr "ocp-bootstrap") None] ["ocp-bootstrap"]
                   (mkDomain (inl "Domain not found") None)
                   [mkDomain (inr "ocp") None] "ocp" eq_refl _)
                "Domain not found" eq_refl).
  repeat constructor.
Defined.

Lemma nameContainsCluster_bootstrap c :
  nameContainsCluster (c +:+ "-bootstrap") c = true.
Proof.
  unfold nameContainsCluster. rewrite (String.eqb_refl (c +:+ "-bootstrap")).
  apply orb_true_iff. left. apply orb_true_r.
Qed.

Lemma nameContainsCluster_numbered c role d :
  role = "-master-" \/ role = "-worker-" ->
  nameContainsCluster (c +:+ role +:+ d) c = false.
Proof.
  intros Hr. unfold nameContainsCluster.
  repeat (apply orb_false_iff; split); apply String.eqb_neq; intros H.
  - apply (append_neq_self c (role +:+ d)); [|exact H].
    destruct Hr as [-> | ->]; discriminate.
  - apply String.app_inj in H. destruct Hr as [-> | ->]; discriminate.
  - apply String.app_inj in H. destruct Hr as [-> | ->]; discriminate.
Qed.

Lemma nameContainsCluster_lb c : nameContainsCluster (c +:+ "-lb") c = false.
Proof.
  unfold nameContainsCluster.
  repeat (apply orb_false_iff; split); apply String.eqb_neq; intros H.
  - apply (append_neq_self c "-lb"); [discriminate | exact H].
  - apply String.app_inj in H. discriminate.
  - apply String.app_inj in H. discriminate.
Qed.

Lemma filter_map_none {A B} (f : B -> bool) (g : A -> B) (l : list A) :
  (forall x, f (g x) = false) -> List.filter f (map g l) = [].
Proof.
  intros H. induction l as [|x l IH]; simpl; [reflexivity|].
  rewrite H. exact IH.
Qed.

(** Of the machines the program creates for a cluster (the cohort of
    [CreateNodes] and the load balancer of [CreateLBVM]), the listing of
    the cluster's machines finds the bootstrap node only: no master, no
    worker and not the load balancer. *)
Theorem GetVMsByName_finds_only_bootstrap osv params lbp domains :
  LBVMParams.ClusterName lbp = NodeParams.ClusterName params ->
  map GetName domains
  = map inr (map VMParams.Name (cohort osv params ++ [lbParams osv lbp])) ->
  Forall (fun d => Free d = None) domains ->
  GetVMsByName (inr domains) (NodeParams.ClusterName params)
  = ([mkVM (NodeParams.ClusterName params +:+ "-bootstrap") ""], None, domains).
Proof.
  intros Hc Hn Hf. unfold GetVMsByName.
  rewrite (listVMs_all_ok _ _ _ [] [] Hn Hf). cbn [app].
  f_equal. f_equal. unfold cohort.
  rewrite map_app. simpl map. rewrite map_app, !map_map.
  cbn [List.filter]. rewrite nameContainsCluster_bootstrap.
  rewrite !List.filter_app.
  rewrite (filter_map_none _ _ (upto (NodeParams.NMaster params)))
    by (intros i; apply nameContainsCluster_numbered; auto).
  rewrite (filter_map_none _ _ (upto (NodeParams.NWorker params)))
    by (intros i; apply nameContainsCluster_numbered; auto).
  cbn [List.filter app]. rewrite Hc, nameContainsCluster_lb. reflexivity.
Qed.

Lemma GetVMsByName_finds_only_bootstrap_witness :
  GetVMsByName
    (inr (map (fun p => mkDomain (inr (VMParams.Name p)) None)
              (cohort "rhel9.0" sampleNodes ++ [lbParams "rhel9.0" sampleLB])))
    "ocp"
  = ([mkVM "ocp-bootstrap" ""], None,
     map (fun p => mkDomain (inr (VMParams.Name p)) None)
         (cohort "rhel9.0" sampleNodes ++ [lbParams "rhel9.0" sampleLB])).
Proof.
  apply (GetVMsByName_finds_only_bootstrap "rhel9.0" sampleNodes sampleLB).
  - reflexivity.
  - vm_compute. reflexivity.
  - vm_compute. repeat constructor.
Defined.

(** ** What [GetVMIP] returns *)

Lemma first_ipv4_sound addrs a :
  first_ipv4 addrs = Some a ->
  exists addr, In addr addrs /\ Addr addr = a
               /\ AddrType addr = IP_ADDR_TYPE_IPV4
               /\ Contains a "." = true.
Proof.
  induction addrs as [|addr rest IH]; simpl; [discriminate|].
  destruct (AddrType addr =? IP_ADDR_TYPE_IPV4)%Z eqn:Et; simpl.
  - destruct (Contains (Addr addr) ".") eqn:Ec.
    + intros H. injection H as <-. exists addr.
      repeat split; auto. apply Z.eqb_eq. exact Et.
    + intros H. destruct (IH H) as (x & Hx & Hrest). exists x. auto.
  - intros H. destruct (IH H) as (x & Hx & Hrest). exists x. auto.
Qed.

Lemma find_lease_sound ifaces ip mac :
  find_lease ifaces = Some (ip, mac) ->
  exists iface addr,
    In iface ifaces /\ In addr (Addrs iface)
    /\ Hwaddr iface = mac /\ nonempty mac = true
    /\ Addr addr = ip /\ AddrType addr = IP_ADDR_TYPE_IPV4
    /\ Contains ip "." = true.
Proof.
  induction ifaces as [|iface rest IH]; simpl; [discriminate|].
  destruct (nonempty (Hwaddr iface)) eqn:Eh.
  - destruct (first_ipv4 (Addrs iface)) as [a|] eqn:Ea.
    + intros H. injection H as <- <-.
      destruct (first_ipv4_sound _ _ Ea) as (addr & Hin & Ha & Ht & Hc).
      exists iface, addr. repeat split; auto.
    + intros H. destruct (IH H) as (i & a & Hi & Hrest).
      exists i, a. split; [right; exact Hi | exact Hrest].
  - intros H. destruct (IH H) as (i & a & Hi & Hrest).
    exists i, a. split; [right; exact Hi | exact Hrest].
Qed.

Lemma Contains_nonempty s sub :
  nonempty sub = true -> Contains s sub = true -> nonempty s = true.
Proof.
  destruct s; [|reflexivity]. destruct sub; [discriminate|].
  intros _. unfold Contains. simpl. discriminate.
Qed.

(** What [GetVMIP] returns is either two empty strings, or a nil error
    with a non-empty address and a non-empty hardware address that the
    answer of the hypervisor holds together: an interface with that
    hardware address has an entry of the IPv4 family with that address,
    and the address has a dot in it. *)
Theorem GetVMIP_returns_a_lease env vmName w ip mac err :
  fst (GetVMIP env vmName w) = Ret (ip, mac, err) ->
  (ip = "" /\ mac = "")
  \/ (err = None /\ nonempty ip = true /\ nonempty mac = true
      /\ exists ifaces iface addr,
           ask_ifaces env (trace w ++ [ELookupDomainByName vmName])
             (EListAllInterfaceAddresses vmName
                DOMAIN_INTERFACE_ADDRESSES_SRC_LEASE) = inr ifaces
           /\ In iface ifaces /\ In addr (Addrs iface)
           /\ Hwaddr iface = mac /\ Addr addr = ip
           /\ AddrType addr = IP_ADDR_TYPE_IPV4
           /\ Contains ip "." = true).
Proof.
  unfold GetVMIP, bind, call_err, call_ifaces, ret. simpl.
  destruct (ask_err env (trace w) _) as [e|]; simpl.
  { intros H. injection H as <- <- <-. left. auto. }
  destruct (ask_ifaces env _ _) as [e|ifaces] eqn:Ei; simpl.
  { intros H. injection H as <- <- <-. left. auto. }
  destruct (find_lease ifaces) as [[ip' mac']|] eqn:Ef; simpl.
  - intros H. injection H as <- <- <-. right.
    destruct (find_lease_sound _ _ _ Ef)
      as (iface & addr & Hi & Ha & Hm & Hne & Hip & Ht & Hc).
    split; [reflexivity|]. split; [exact (Contains_nonempty _ "." eq_refl Hc)|].
    split; [exact Hne|].
    exists ifaces, iface, addr. repeat split; auto.
  - intros H. injection H as <- <- <-. left. auto.
Qed.

Lemma GetVMIP_returns_a_lease_witness :
  ("192.168.100.10" = "" /\ "52:54:00:aa:bb:cc" = "")
  \/ (@None error = None /\ nonempty "192.168.100.10" = true
      /\ nonempty "52:54:00:aa:bb:cc" = true
      /\ exists ifaces iface addr,
           ask_ifaces okEnv (trace emptyWorld ++ [ELookupDomainByName "ocp-lb"])
             (EListAllInterfaceAddresses "ocp-lb"
                DOMAIN_INTERFACE_ADDRESSES_SRC_LEASE) = inr ifaces
           /\ In iface ifaces /\ In addr (Addrs iface)
           /\ Hwaddr iface = "52:54:00:aa:bb:cc" /\ Addr addr = "192.168.100.10"
           /\ AddrType addr = IP_ADDR_TYPE_IPV4
           /\ Contains "192.168.100.10" "." = true).
Proof.
  exact (GetVMIP_returns_a_lease okEnv "ocp-lb" emptyWorld
           "192.168.100.10" "52:54:00:aa:bb:cc" None eq_refl).
Defined.

(** ** Calls of one kind *)

Lemma emits_ret {A} P (a : A) : emits_only P (ret a).
Proof. intros w. exists []. split; [simpl; symmetry; apply app_nil_r | reflexivity]. Qed.

Lemma emits_panic {A} P msg : emits_only P (@panic A msg).
Proof. intros w. exists []. split; [simpl; symmetry; apply app_nil_r | reflexivity]. Qed.

Lemma emits_logFatal {A} P msg err : emits_only P (@logFatal A msg err).
Proof. intros w. exists []. split; [simpl; symmetry; apply app_nil_r | reflexivity]. Qed.

Lemma emits_bind_at {A B} P (m : M A) (k : A -> M B) w :
  emits_at P m w -> (forall a, emits_only P (k a)) -> emits_at P (bind m k) w.
Proof.
  intros (e1 & H1 & P1) Hk. unfold emits_at, bind.
  destruct (m w) as [[a| | |] w1]; simpl in H1; try (exists e1; split; assumption).
  destruct (Hk a w1) as (e2 & H2 & P2).
  exists (e1 ++ e2). split.
  - rewrite H2, H1. symmetry. apply app_assoc.
  - rewrite forallb_app, P1, P2. reflexivity.
Qed.

Lemma emits_bind {A B} P (m : M A) (k : A -> M B) :
  emits_only P m -> (forall a, emits_only P (k a)) -> emits_only P (bind m k).
Proof. intros Hm Hk w. apply emits_bind_at; [apply Hm | exact Hk]. Qed.

Lemma emits_call_err env P ev : P ev = true -> emits_only P (call_err env ev).
Proof. intros H w. exists [ev]. split; [reflexivity | simpl; rewrite H; reflexivity]. Qed.

Lemma emits_call_str env P ev : P ev = true -> emits_only P (call_str env ev).
Proof. intros H w. exists [ev]. split; [reflexivity | simpl; rewrite H; reflexivity]. Qed.

Lemma emits_call_ifaces env P ev :
  P ev = true -> emits_only P (call_ifaces env ev).
Proof. intros H w. exists [ev]. split; [reflexivity | simpl; rewrite H; reflexivity]. Qed.

Lemma emits_sleep P s : P (ESleep s) = true -> emits_only P (sleep s).
Proof. intros H w. exists [ESleep s]. split; [reflexivity | simpl; rewrite H; reflexivity]. Qed.

Lemma emits_forever {A} P fuel (body : M (option A)) :
  emits_only P body -> emits_only P (forever fuel body).
Proof.
  intros Hb. induction fuel as [|fuel IH]; simpl.
  - intros w. exists []. split; [simpl; symmetry; apply app_nil_r | reflexivity].
  - apply emits_bind; [exact Hb|].
    intros [a|]; [apply emits_ret | exact IH].
Qed.

(** Goes through a function body, leaving the kind of each call to be
    checked by computation. *)
Ltac emits_body :=
  repeat first
    [ apply emits_ret | apply emits_panic | apply emits_logFatal
    | apply emits_call_err; reflexivity
    | apply emits_call_str; reflexivity
    | apply emits_call_ifaces; reflexivity
    | apply emits_sleep; reflexivity
    | apply emits_forever
    | apply emits_bind; [|intros]
    | match goal with
      | |- emits_only _ (match ?x with _ => _ end) => destruct x
      | |- emits_only _ (if ?b then _ else _) => destruct b
      end ].

Lemma emits_getLibvirtBridge env name :
  emits_only network_query (getLibvirtBridge env name).
Proof. unfold getLibvirtBridge. emits_body. Qed.

Lemma emits_getLibvirtNetworkGatewayIP env name :
  emits_only network_query (getLibvirtNetworkGatewayIP env name).
Proof. unfold getLibvirtNetworkGatewayIP. emits_body. Qed.

(** [EnsureLibvirtNetwork] defines a network only when it is given an octet
    and the lookup of [ocp-<octet>] fails.  Without an octet, or when that
    lookup succeeds, every call after the connection is a lookup of a
    network or a read of its bridge name or descriptor: the network found
    is used as it is. *)
Theorem EnsureLibvirtNetwork_reuses_network env virNetOct virNet uri w :
  virNetOct = ""
  \/ ask_err env (trace w ++ [EConnect uri])
       (ELookupNetworkByName ("ocp-" +:+ virNetOct)) = None ->
  exists evs,
    trace (snd (EnsureLibvirtNetwork env virNetOct virNet uri w))
    = trace w ++ EConnect uri :: evs
    /\ forallb network_query evs = true.
Proof.
  intros Hcase. unfold EnsureLibvirtNetwork, NewLibvirtConnection.
  unfold bind at 1 2. unfold call_err at 1.
  destruct (ask_err env (trace w) (EConnect uri)) as [e|].
  { exists []. split; reflexivity. }
  cbv iota beta. unfold ret at 1. cbv iota beta.
  set (w1 := record (EConnect uri) w).
  assert (H1 : emits_at network_query
                 (do r <- resolveNetwork env virNetOct virNet;
                  match r with
                  | inl err => ret ("", "", Some err)
                  | inr virNet' =>
                      do (bridgeName, e) <- getLibvirtBridge env virNet';
                      match e with
                      | Some err => ret ("", "", Some err)
                      | None =>
                          do (gatewayIP, e') <-
                             getLibvirtNetworkGatewayIP env virNet';
                          match e' with
                          | Some err => ret (bridgeName, "", Some err)
                          | None => ret (bridgeName, gatewayIP, None)
                          end
                      end
                  end) w1).
  { apply emits_bind_at.
    - unfold resolveNetwork.
      destruct (nonempty virNetOct) eqn:En.
      + destruct Hcase as [-> | Hl]; [discriminate|].
        exists [ELookupNetworkByName ("ocp-" +:+ virNetOct)].
        unfold bind, call_err. fold w1. change (trace w1) with (trace w ++ [EConnect uri]).
        rewrite Hl. split; reflexivity.
      + assert (Hall : emits_only network_query
                  (if nonempty virNet
                   then do e <- call_err env (ELookupNetworkByName virNet);
                        match e with
                        | Some err =>
                            ret (inl ("libvirt network " +:+ virNet
                                      +:+ " doesn't exist: " +:+ err))
                        | None => ret (inr virNet)
                        end
                   else ret (inl errNoNetworkGiven))) by emits_body.
        apply Hall.
    - intros [err|v]; [apply emits_ret|].
      apply emits_bind; [apply emits_getLibvirtBridge|].
      intros [b [err|]]; [apply emits_ret|].
      apply emits_bind; [apply emits_getLibvirtNetworkGatewayIP|].
      intros [g [err|]]; apply emits_ret. }
  destruct H1 as (evs & Ht & Hp). exists evs. split; [|exact Hp].
  rewrite Ht. unfold w1. rewrite record_trace, <- app_assoc. reflexivity.
Qed.

Lemma EnsureLibvirtNetwork_reuses_network_witness :
  exists evs,
    trace (snd (EnsureLibvirtNetwork okEnv "100" "" "qemu:///system"
                  emptyWorld))
    = trace emptyWorld ++ EConnect "qemu:///system" :: evs
    /\ forallb network_query evs = true.
Proof.
  exact (EnsureLibvirtNetwork_reuses_network okEnv "100" "" "qemu:///system"
           emptyWorld (or_intror eq_refl)).
Defined.

(** ** Reading the gateway address out of a descriptor *)

Lemma append_cons c s t : String c s +:+ t = String c (s +:+ t).
Proof. reflexivity. Qed.

Lemma agree_false_prefix p : forall u t,
  agree p u = false -> String.prefix p (u +:+ t) = false.
Proof.
  induction p as [|a p IH]; intros [|b u] t; simpl; try discriminate.
  rewrite ?append_cons; simpl. destruct (ascii_dec a b); [apply IH | reflexivity].
Qed.

Lemma agree_false_app p : forall u t,
  agree p u = false -> agree p (u +:+ t) = false.
Proof.
  induction p as [|a p IH]; intros [|b u] t; simpl; try discriminate.
  rewrite ?append_cons; simpl. destruct (ascii_dec a b); [apply IH | reflexivity].
Qed.

Lemma clear_of_app p s1 s2 :
  clear_of p s1 = true -> clear_of p s2 = true -> clear_of p (s1 +:+ s2) = true.
Proof.
  induction s1 as [|a s1 IH]; [intros _ H; exact H|].
  rewrite append_cons. cbn [clear_of]. intros H1 H2.
  apply andb_true_iff in H1 as [Ha H1].
  apply andb_true_iff. split; [|auto].
  apply negb_true_iff in Ha. apply negb_true_iff.
  exact (agree_false_app p (String a s1) s2 Ha).
Qed.

Lemma clear_of_no_char c p s :
  has_char c s = false -> clear_of (String c p) s = true.
Proof.
  induction s as [|a s IH]; [reflexivity|]. simpl.
  destruct (ascii_dec c a); [discriminate|]. exact IH.
Qed.

Lemma has_char_app c s t :
  has_char c (s +:+ t) = has_char c s || has_char c t.
Proof.
  induction s as [|a s IH]; [reflexivity|]. rewrite ?append_cons; simpl.
  destruct (ascii_dec c a); [reflexivity | exact IH].
Qed.

Lemma prefix_app p t : String.prefix p (p +:+ t) = true.
Proof.
  induction p as [|a p IH]; [destruct t; reflexivity|]. rewrite ?append_cons; simpl.
  destruct (ascii_dec a a); [exact IH | congruence].
Qed.

Lemma index_here p t : index 0 p (p +:+ t) = Some 0%nat.
Proof.
  destruct p as [|a p].
  - destruct t; reflexivity.
  - rewrite append_cons. cbn [index]. rewrite <- append_cons, prefix_app.
    reflexivity.
Qed.

Lemma index_skip p s t :
  clear_of p s = true ->
  index 0 p (s +:+ t)
  = option_map (fun n => (String.length s + n)%nat) (index 0 p t).
Proof.
  induction s as [|a s IH]; intros H.
  - change ("" +:+ t) with t. destruct (index 0 p t); reflexivity.
  - cbn [clear_of] in H. apply andb_true_iff in H as [Ha H].
    apply negb_true_iff in Ha.
    rewrite append_cons. cbn [index]. rewrite <- append_cons.
    rewrite (agree_false_prefix p (String a s) t Ha).
    rewrite (IH H). destruct (index 0 p t); reflexivity.
Qed.

Lemma index_char_none c s :
  has_char c s = false -> index 0 (String c "") s = None.
Proof.
  induction s as [|a s IH]; [reflexivity|]. simpl.
  destruct (ascii_dec c a); [discriminate|]. intros H. rewrite (IH H).
  reflexivity.
Qed.

Lemma substring_skip a : forall n m b,
  substring (String.length a + n) m (a +:+ b) = substring n m b.
Proof.
  induction a as [|x a IH]; intros n m b; [reflexivity|].
  rewrite ?append_cons; simpl. apply IH.
Qed.

Lemma substring_take a : forall b,
  substring 0 (String.length a) (a +:+ b) = a.
Proof.
  induction a as [|x a IH]; intros b.
  - destruct b; reflexivity.
  - rewrite ?append_cons; simpl. f_equal. apply IH.
Qed.

Lemma substring_all s : substring 0 (String.length s) s = s.
Proof. rewrite <- (append_nil_r s) at 2. apply substring_take. Qed.

(** The search of [parseGatewayIP] on a descriptor in which the marker
    first occurs after [pre], followed by one character [c] and the text
    [tail]. *)
Lemma parseGatewayIP_at name pre c tail :
  clear_of ipMarker pre = true ->
  parseGatewayIP name (pre +:+ ipMarker +:+ String c tail)
  = match index 0 dq tail with
    | None =>
        inl (Some ("malformed XML while parsing IP address for " +:+ name))
    | Some j => inr (substring 0 j tail)
    end.
Proof.
  intros Hpre. unfold parseGatewayIP. fold ipMarker.
  rewrite (index_skip ipMarker pre _ Hpre), index_here. cbn [option_map].
  set (xml := pre +:+ ipMarker +:+ String c tail).
  assert (Hlen : String.length xml
                 = (String.length pre + 13 + String.length tail)%nat).
  { unfold xml. rewrite !append_length. simpl. lia. }
  assert (Hstart : (String.length pre + 0
                    + String.length (ipMarker +:+ dq))%nat
                   = (String.length pre + 13)%nat) by (simpl; lia).
  rewrite Hstart, Hlen.
  replace (String.length pre + 13 + String.length tail <? String.length pre + 13)%nat
    with false by (symmetry; apply Nat.ltb_ge; lia).
  replace (String.length pre + 13 + String.length tail
           - (String.length pre + 13))%nat
    with (String.length tail) by lia.
  assert (Hsub : forall m,
            substring (String.length pre + 13) m xml = substring 0 m tail).
  { intros m. unfold xml. rewrite substring_skip.
    change 13%nat with (String.length ipMarker + 1)%nat.
    rewrite substring_skip. reflexivity. }
  rewrite !Hsub, substring_all.
  destruct (index 0 dq tail); [rewrite Hsub|]; reflexivity.
Qed.

(** The descriptor [createNewLibvirtNetwork] defines, cut at the marker. *)
Lemma networkXML_shape name oct :
  networkXML name oct
  = ("
<network>
  <name>" +:+ name +:+ "</name>
  <bridge name=" +:+ dq +:+ name +:+ dq +:+ "/>
  <forward/>
  ")
    +:+ ipMarker
    +:+ String "034"
          (("192.168." +:+ oct +:+ ".1")
           +:+ dq +:+ " netmask=" +:+ dq +:+ "255.255.255.0" +:+ dq +:+ ">
    <dhcp>
      <range start=" +:+ dq +:+ "192.168." +:+ oct +:+ ".2" +:+ dq
           +:+ " end=" +:+ dq +:+ "192.168." +:+ oct +:+ ".254" +:+ dq +:+ "/>
    </dhcp>
  </ip>
</network>").
Proof. unfold networkXML. rewrite !append_assoc. reflexivity. Qed.

(** Round trip: from the descriptor that [createNewLibvirtNetwork] defines
    for an octet, [getLibvirtNetworkGatewayIP]'s search reads the address
    192.168.<octet>.1 back, provided the name of the network has no [<] in
    it and the octet no double quote. *)
Theorem parseGatewayIP_reads_defined_gateway name name' oct :
  has_char "<" name = false ->
  has_char "034" oct = false ->
  parseGatewayIP name' (networkXML name oct)
  = inr ("192.168." +:+ oct +:+ ".1").
Proof.
  intros Hname Hoct. rewrite networkXML_shape, parseGatewayIP_at.
  - assert (Hq : clear_of dq ("192.168." +:+ oct +:+ ".1") = true).
    { apply clear_of_no_char. rewrite !has_char_app, Hoct. reflexivity. }
    rewrite (index_skip dq _ _ Hq), index_here. cbn [option_map].
    rewrite Nat.add_0_r. f_equal. apply substring_take.
  - assert (Hn : clear_of ipMarker name = true)
      by (apply clear_of_no_char; exact Hname).
    repeat (apply clear_of_app; [first [exact Hn | reflexivity]|]).
    reflexivity.
Qed.

Lemma parseGatewayIP_reads_defined_gateway_witness :
  parseGatewayIP "ocp-100" (networkXML "ocp-100" "100")
  = inr ("192.168." +:+ "100" +:+ ".1").
Proof.
  exact (parseGatewayIP_reads_defined_gateway "ocp-100" "ocp-100" "100"
           eq_refl eq_refl).
Defined.

(** On a descriptor whose attributes are in single quotes and that has no
    double quote after the marker, the search finds no address: it reports
    malformed XML (and the slice it takes is out of range when the
    descriptor ends with the marker). *)
Theorem parseGatewayIP_needs_double_quotes name pre tail :
  clear_of ipMarker pre = true ->
  has_char "034" tail = false ->
  parseGatewayIP name (pre +:+ ipMarker +:+ "'" +:+ tail)
  = inl (Some ("malformed XML while parsing IP address for " +:+ name))
  /\ parseGatewayIP name (pre +:+ ipMarker) = inl None.
Proof.
  intros Hpre Htail. split.
  - change ("'" +:+ tail) with (String "'" tail).
    rewrite (parseGatewayIP_at name pre "'" tail Hpre).
    unfold dq. rewrite (index_char_none _ _ Htail). reflexivity.
  - unfold parseGatewayIP. fold ipMarker.
    rewrite <- (append_nil_r ipMarker) at 2.
    rewrite (index_skip ipMarker pre _ Hpre), index_here. cbn [option_map].
    rewrite append_length.
    replace (String.length pre + String.length ipMarker
             <? String.length pre + 0 + String.length (ipMarker +:+ dq))%nat
      with true; [reflexivity|].
    symmetry. apply Nat.ltb_lt. simpl. lia.
Qed.

Lemma parseGatewayIP_needs_double_quotes_witness :
  parseGatewayIP "default"
    ("<network><name>default</name>" +:+ ipMarker +:+ "'"
     +:+ "192.168.122.1' netmask='255.255.255.0'/></network>")
  = inl (Some ("malformed XML while parsing IP address for " +:+ "default")).
Proof.
  exact (proj1 (parseGatewayIP_needs_double_quotes "default"
                  "<network><name>default</name>"
                  "192.168.122.1' netmask='255.255.255.0'/></network>"
                  eq_refl eq_refl)).
Defined.

(** ** Runs in which every call succeeds *)

Lemma for_each_all_ok {I} (body : I -> M (option error))
    (step : World -> I -> World) (l : list I) :
  (forall i w, body i w = (Ret None, step w i)) ->
  forall w, for_each l body w = (Ret None, fold_left step l w).
Proof.
  intros Hb. induction l as [|i l IH]; intros w; [reflexivity|].
  simpl for_each. rewrite (bind_Ret _ _ _ _ _ (Hb i w)). apply IH.
Qed.

Lemma fold_record (f : Z -> Event) (l : list Z) :
  forall w,
    fold_left (fun w i => record (f i) w) l w
    = mkWorld (trace w ++ map f l) (files w).
Proof.
  induction l as [|i l IH]; intros w; simpl.
  - rewrite app_nil_r. destruct w; reflexivity.
  - rewrite IH, record_trace, record_files, <- app_assoc. reflexivity.
Qed.

Lemma fold_addressed params ip mac (names : list string) :
  forall w,
    fold_left (addressedWorld params ip mac) names w
    = mkWorld (trace w ++ concat (map (nodeCalls params ip mac) names))
              (match names with
               | [] => files w
               | _ => <[hostsPath (NodeParams.ClusterName params) :=
                          hostsEntry params ip (List.last names "")]> (files w)
               end).
Proof.
  induction names as [|n names IH]; intros w.
  - simpl. rewrite app_nil_r. destruct w; reflexivity.
  - cbn [fold_left]. rewrite IH.
    unfold addressedWorld. cbn [trace files map concat].
    rewrite <- app_assoc. f_equal.
    destruct names as [|n' names]; [reflexivity|].
    rewrite insert_insert_eq. reflexivity.
Qed.

Section Cooperative.

Variable env : Env.
Variable ifaces : list DomainInterface.
Variables ip mac : string.
Hypothesis Hcoop : cooperative env ifaces.
Hypothesis Hlease : find_lease ifaces = Some (ip, mac).

Lemma coop_call_err ev w : call_err env ev w = (Ret None, record ev w).
Proof. apply call_err_eq, Hcoop. Qed.

Lemma coop_lease_nonempty : nonempty ip = true /\ nonempty mac = true.
Proof.
  destruct (find_lease_sound _ _ _ Hlease)
    as (i & a & _ & _ & _ & Hm & _ & _ & Hc).
  split; [exact (Contains_nonempty _ "." eq_refl Hc) | exact Hm].
Qed.

Lemma coop_GetVMIP vmName w :
  GetVMIP env vmName w
  = (Ret (ip, mac, None),
     record (EListAllInterfaceAddresses vmName
               DOMAIN_INTERFACE_ADDRESSES_SRC_LEASE)
            (record (ELookupDomainByName vmName) w)).
Proof.
  unfold GetVMIP. rewrite (bind_Ret _ _ _ _ _ (coop_call_err _ w)).
  unfold bind, call_ifaces. rewrite (proj2 Hcoop), Hlease. reflexivity.
Qed.

Lemma coop_waitForVMIP fuel vmName w :
  waitForVMIP env (S fuel) vmName w
  = (Ret (ip, mac, None),
     record (EListAllInterfaceAddresses vmName
               DOMAIN_INTERFACE_ADDRESSES_SRC_LEASE)
            (record (ELookupDomainByName vmName) (record (ESleep 5) w))).
Proof.
  rewrite waitForVMIP_one_pass. unfold waitForVMIP, forever, waitForVMIP_body.
  unfold bind at 1 2 3, sleep. rewrite coop_GetVMIP.
  destruct coop_lease_nonempty as [-> ->]. reflexivity.
Qed.

Lemma coop_AddDHCPReservation networkName macAddress ipAddress w :
  AddDHCPReservation env networkName macAddress ipAddress w
  = (Ret None,
     record (ENetworkUpdate networkName NETWORK_UPDATE_COMMAND_ADD_LAST
               NETWORK_SECTION_IP_DHCP_HOST (-1)
               (dhcpHostXML macAddress ipAddress)
               (Z.lor NETWORK_UPDATE_AFFECT_LIVE NETWORK_UPDATE_AFFECT_CONFIG))
            (record (ELookupNetworkByName networkName) w)).
Proof.
  unfold AddDHCPReservation.
  rewrite (bind_Ret _ _ _ _ _ (coop_call_err _ w)).
  rewrite (bind_Ret _ _ _ _ _ (coop_call_err _ _)). reflexivity.
Qed.

Lemma coop_addressNode fuel params role i w :
  addressNode env (S fuel) params role i w
  = (Ret None, addressedWorld params ip mac w (leaseName params role i)).
Proof.
  unfold addressNode.
  rewrite (bind_Ret _ _ _ _ _ (coop_waitForVMIP fuel _ w)).
  cbv iota beta. unfold bind at 1, ret at 1. cbv iota beta.
  rewrite (bind_Ret _ _ _ _ _ (coop_AddDHCPReservation _ _ _ _)).
  unfold updateHostDNS, bind, WriteFile, ret. rewrite (proj1 Hcoop).
  unfold addressedWorld, nodeCalls, record. cbn [trace files].
  rewrite <- !app_assoc. reflexivity.
Qed.

Lemma coop_role fuel params role n w :
  for_each (upto n) (fun i => addressNode env (S fuel) params role i) w
  = (Ret None,
     fold_left (addressedWorld params ip mac)
               (map (leaseName params role) (upto n)) w).
Proof.
  rewrite (for_each_all_ok _
             (fun w i => addressedWorld params ip mac w (leaseName params role i))
             _ (fun i w => coop_addressNode fuel params role i w)).
  f_equal. generalize (upto n). intros l. revert w.
  induction l as [|i l IH]; intros w; [reflexivity | apply IH].
Qed.

Lemma coop_waitForVMIPs fuel params w :
  waitForVMIPs env (S fuel) params w
  = (Ret None, fold_left (addressedWorld params ip mac) (addressed params) w).
Proof.
  unfold waitForVMIPs, roles, addressed. cbn [for_each].
  rewrite (bind_Ret _ _ _ _ _ (coop_role fuel params "bootstrap" _ w)).
  rewrite (bind_Ret _ _ _ _ _ (coop_role fuel params "master" _ _)).
  rewrite (bind_Ret _ _ _ _ _ (coop_role fuel params "worker" _ _)).
  unfold ret.
  change (getRoleCount params "bootstrap") with 1%Z.
  change (getRoleCount params "master") with (NodeParams.NMaster params).
  change (getRoleCount params "worker") with (NodeParams.NWorker params).
  change (map (leaseName params "bootstrap") (upto 1))
    with [leaseName params "bootstrap" 1].
  rewrite <- !fold_left_app. reflexivity.
Qed.

Lemma coop_create_loop (f : Z -> VMParams.t) n w :
  for_each (upto n) (fun i => CreateVM env (f i)) w
  = (Ret None, mkWorld (trace w ++ map (fun i => create (f i)) (upto n))
                       (files w)).
Proof.
  rewrite (for_each_all_ok _ (fun w i => record (create (f i)) w) _
             (fun i w => CreateVM_ok env (f i) w (proj1 Hcoop _ _))).
  rewrite fold_record. reflexivity.
Qed.

Lemma coop_WaitForSSHAccess fuel vmIP host key user w :
  WaitForSSHAccess env (S fuel) vmIP host key user w
  = (Ret None,
     mkWorld (trace w ++ [EExec "ssh-keygen" ["-R"; vmIP];
                          EExec "ssh-keygen" ["-R"; host];
                          ESleep 5; sshProbe vmIP key user])
             (files w)).
Proof.
  unfold WaitForSSHAccess, removeOldHostKey, exec.
  rewrite (bind_Ret _ _ _ _ _ (coop_call_err _ w)).
  rewrite (bind_Ret _ _ _ _ _ (coop_call_err _ _)).
  simpl forever. unfold sshAttempt, bind, sleep, call_err.
  rewrite (proj1 Hcoop). unfold ret, record. cbn [trace files].
  rewrite <- !app_assoc. reflexivity.
Qed.

End Cooperative.

Lemma okEnv_cooperative : cooperative okEnv sampleLease.
Proof. split; intros h ev; reflexivity. Qed.

(** When every call succeeds and the lease source shows a valid lease,
    [waitForVMIPs] addresses the bootstrap node, then the masters from 1
    up, then the workers from 1 up, each with a pause, a lookup and a query
    of the domain, the reservation and the write of the hosts file, and
    nothing else. *)
Theorem waitForVMIPs_addresses_role_major env ifaces ip mac fuel params w :
  cooperative env ifaces ->
  find_lease ifaces = Some (ip, mac) ->
  fst (waitForVMIPs env (S fuel) params w) = Ret None
  /\ trace (snd (waitForVMIPs env (S fuel) params w))
     = trace w ++ concat (map (nodeCalls params ip mac) (addressed params)).
Proof.
  intros Hc Hl. rewrite (coop_waitForVMIPs env ifaces ip mac Hc Hl).
  rewrite fold_addressed. split; reflexivity.
Qed.

Lemma waitForVMIPs_addresses_role_major_witness :
  map (fun ev => match ev with ELookupDomainByName n => n | _ => "" end)
      (List.filter (fun ev => match ev with
                              | ELookupDomainByName _ => true
                              | _ => false
                              end)
                   (trace (snd (waitForVMIPs okEnv 1 sampleNodes emptyWorld))))
  = ["ocp-bootstrap-1"; "ocp-master-1"; "ocp-master-2"; "ocp-master-3";
     "ocp-worker-1"; "ocp-worker-2"].
Proof.
  rewrite (proj2 (waitForVMIPs_addresses_role_major okEnv sampleLease
                    "192.168.100.10" "52:54:00:aa:bb:cc" 0 sampleNodes
                    emptyWorld okEnv_cooperative eq_refl)).
  reflexivity.
Defined.

Lemma last_upto n d : (0 < n)%Z -> List.last (upto n) d = n.
Proof.
  intros Hn. unfold upto.
  replace n with (Z.of_nat (S (Z.to_nat (n - 1)))) at 1 by lia.
  rewrite seqZ_S, last_last. lia.
Qed.

Lemma last_map {A B} (f : A -> B) (l : list A) d d' :
  l <> [] -> List.last (map f l) d' = f (List.last l d).
Proof.
  induction l as [|a l IH]; [congruence|]. intros _.
  destruct l as [|b l]; [reflexivity|].
  change (List.last (map f (b :: l)) d' = f (List.last (b :: l) d)).
  apply IH. discriminate.
Qed.

Lemma last_app_nonempty {A} (l1 l2 : list A) d :
  l2 <> [] -> List.last (l1 ++ l2) d = List.last l2 d.
Proof.
  intros H. destruct (exists_last H) as (l & a & ->).
  rewrite app_assoc, !last_last. reflexivity.
Qed.

Lemma upto_nonempty n : (0 < n)%Z -> upto n <> [].
Proof. intros Hn H. apply (f_equal (@length Z)) in H. unfold upto in H. rewrite length_seqZ in H. simpl in H. lia. Qed.

Lemma upto_empty n : (n <= 0)%Z -> upto n = [].
Proof. intros Hn. apply seqZ_nil. exact Hn. Qed.

Lemma last_addressed params :
  List.last (addressed params) "" = lastAddressed params.
Proof.
  unfold addressed, lastAddressed.
  destruct (Z.ltb_spec 0 (NodeParams.NWorker params)) as [Hw|Hw].
  - change (?a :: ?l1 ++ ?l2) with ((a :: l1) ++ l2).
    rewrite last_app_nonempty.
    + rewrite (last_map _ _ 0%Z) by (apply upto_nonempty; exact Hw).
      rewrite last_upto by exact Hw. reflexivity.
    + intros H. apply map_eq_nil in H. exact (upto_nonempty _ Hw H).
  - rewrite (upto_empty _ Hw). cbn [map]. rewrite app_nil_r.
    destruct (Z.ltb_spec 0 (NodeParams.NMaster params)) as [Hm|Hm].
    + change (?a :: ?l1) with ([a] ++ l1).
      rewrite last_app_nonempty.
      * rewrite (last_map _ _ 0%Z) by (apply upto_nonempty; exact Hm).
        rewrite last_upto by exact Hm. reflexivity.
      * intros H. apply map_eq_nil in H. exact (upto_nonempty _ Hm H).
    + rewrite (upto_empty _ Hm). reflexivity.
Qed.

(** When every call succeeds and the lease source shows a valid lease,
    [CreateNodes] returns nil after these calls and no others: the
    connection; the creation of the bootstrap node, of the masters from 1
    up and of the workers from 1 up; the addressing of every node in the
    same order; the lookup of the bootstrap node, the two host-key purges
    and one pause and probe. *)
Theorem CreateNodes_runs_stages_in_order env osv ifaces ip mac fuel params w :
  cooperative env ifaces ->
  find_lease ifaces = Some (ip, mac) ->
  fst (CreateNodes env osv (S fuel) params w) = Ret None
  /\ trace (snd (CreateNodes env osv (S fuel) params w))
     = trace w
       ++ EConnect (NodeParams.LibguestfsBackend params)
          :: map create (cohort osv params)
       ++ concat (map (nodeCalls params ip mac) (addressed params))
       ++ bootstrapGateCalls params ip.
Proof.
  intros Hc Hl. unfold CreateNodes, NewLibvirtConnection.
  rewrite (bind_Ret _ _ w None
             (record (EConnect (NodeParams.LibguestfsBackend params)) w));
    [|rewrite (bind_Ret _ _ _ _ _ (coop_call_err env ifaces Hc _ w));
      reflexivity].
  cbv iota. unfold createBootstrapNode.
  rewrite (bind_Ret _ _ _ _ _ (CreateVM_ok env _ _ (proj1 Hc _ _))). cbv iota.
  unfold createMasterNodes.
  rewrite (bind_Ret _ _ _ _ _ (coop_create_loop env ifaces Hc _ _ _)). cbv iota.
  unfold createWorkerNodes.
  rewrite (bind_Ret _ _ _ _ _ (coop_create_loop env ifaces Hc _ _ _)). cbv iota.
  rewrite (bind_Ret _ _ _ _ _ (coop_waitForVMIPs env ifaces ip mac Hc Hl _ _ _)).
  cbv iota.
  rewrite (bind_Ret _ _ _ _ _ (coop_GetVMIP env ifaces ip mac Hc Hl _ _)).
  cbv iota beta.
  rewrite (coop_WaitForSSHAccess env ifaces Hc).
  split; [reflexivity|]. cbn [snd trace].
  rewrite !record_trace, fold_addressed. cbn [trace].
  unfold cohort, bootstrapGateCalls. cbn [map].
  rewrite map_app, !map_map, <- !app_assoc. cbn [app].
  rewrite <- ?app_assoc. reflexivity.
Qed.

Lemma CreateNodes_runs_stages_in_order_witness :
  fst (CreateNodes okEnv "rhel9.0" 1 sampleNodes emptyWorld) = Ret None
  /\ trace (snd (CreateNodes okEnv "rhel9.0" 1 sampleNodes emptyWorld))
     = trace emptyWorld
       ++ EConnect (NodeParams.LibguestfsBackend sampleNodes)
          :: map create (cohort "rhel9.0" sampleNodes)
       ++ concat (map (nodeCalls sampleNodes "192.168.100.10"
                         "52:54:00:aa:bb:cc")
                      (addressed sampleNodes))
       ++ bootstrapGateCalls sampleNodes "192.168.100.10".
Proof.
  exact (CreateNodes_runs_stages_in_order okEnv "rhel9.0" sampleLease
           "192.168.100.10" "52:54:00:aa:bb:cc" 0 sampleNodes emptyWorld
           okEnv_cooperative eq_refl).
Defined.

(** After a run of [CreateNodes] in which every call succeeds, the hosts
    file of the cluster holds one entry and no line feed: the entry of the
    node addressed last (the last worker; without workers the last master;
    without either the bootstrap node).  The entries of all other nodes
    have been overwritten. *)
Theorem CreateNodes_leaves_last_entry env osv ifaces ip mac fuel params w :
  cooperative env ifaces ->
  find_lease ifaces = Some (ip, mac) ->
  files (snd (CreateNodes env osv (S fuel) params w))
    !! hostsPath (NodeParams.ClusterName params)
  = Some (hostsEntry params ip (lastAddressed params)).
Proof.
  intros Hc Hl. unfold CreateNodes, NewLibvirtConnection.
  rewrite (bind_Ret _ _ w None
             (record (EConnect (NodeParams.LibguestfsBackend params)) w));
    [|rewrite (bind_Ret _ _ _ _ _ (coop_call_err env ifaces Hc _ w));
      reflexivity].
  cbv iota. unfold createBootstrapNode.
  rewrite (bind_Ret _ _ _ _ _ (CreateVM_ok env _ _ (proj1 Hc _ _))). cbv iota.
  unfold createMasterNodes.
  rewrite (bind_Ret _ _ _ _ _ (coop_create_loop env ifaces Hc _ _ _)). cbv iota.
  unfold createWorkerNodes.
  rewrite (bind_Ret _ _ _ _ _ (coop_create_loop env ifaces Hc _ _ _)). cbv iota.
  rewrite (bind_Ret _ _ _ _ _ (coop_waitForVMIPs env ifaces ip mac Hc Hl _ _ _)).
  cbv iota.
  rewrite (bind_Ret _ _ _ _ _ (coop_GetVMIP env ifaces ip mac Hc Hl _ _)).
  cbv iota beta.
  rewrite (coop_WaitForSSHAccess env ifaces Hc).
  cbn [snd files]. rewrite !record_files, fold_addressed. cbn [files].
  unfold addressed at 1. rewrite last_addressed. apply lookup_insert_eq.
Qed.

Lemma CreateNodes_leaves_last_entry_witness :
  files (snd (CreateNodes okEnv "rhel9.0" 1 sampleNodes emptyWorld))
    !! hostsPath (NodeParams.ClusterName sampleNodes)
  = Some (hostsEntry sampleNodes "192.168.100.10" (lastAddressed sampleNodes)).
Proof.
  exact (CreateNodes_leaves_last_entry okEnv "rhel9.0" sampleLease
           "192.168.100.10" "52:54:00:aa:bb:cc" 0 sampleNodes emptyWorld
           okEnv_cooperative eq_refl).
Defined.

(** ** The load balancer and the hosts file *)

Lemma appended_refl path fs : appended path fs fs.
Proof.
  unfold appended. destruct (fs !! path) as [old|] eqn:E; [|reflexivity].
  exists "". rewrite append_nil_r. reflexivity.
Qed.

Lemma appended_trans path fs1 fs2 fs3 :
  appended path fs1 fs2 -> appended path fs2 fs3 -> appended path fs1 fs3.
Proof.
  unfold appended. intros H1 H2.
  destruct (fs1 !! path) as [old|].
  - destruct H1 as [s1 E1]. rewrite E1 in H2. destruct H2 as [s2 E2].
    exists (s1 +:+ s2). rewrite E2, append_assoc. reflexivity.
  - rewrite H1 in H2. exact H2.
Qed.

Lemma keeps_bind R {A B} (m : M A) (k : A -> M B) :
  (forall a b c, R a b -> R b c -> R a c) ->
  keeps R m -> (forall a, keeps R (k a)) -> keeps R (bind m k).
Proof.
  intros Ht Hm Hk w. unfold bind. specialize (Hm w).
  destruct (m w) as [[a| | |] w1]; simpl in Hm; try exact Hm.
  exact (Ht _ _ _ Hm (Hk a w1)).
Qed.

Lemma keeps_same R {A} (m : M A) :
  (forall a, R a a) -> (forall w, files (snd (m w)) = files w) -> keeps R m.
Proof. intros Hr Hs w. rewrite Hs. apply Hr. Qed.

Lemma keeps_forever R {A} fuel (body : M (option A)) :
  (forall a, R a a) -> (forall a b c, R a b -> R b c -> R a c) ->
  keeps R body -> keeps R (forever fuel body).
Proof.
  intros Hr Ht Hb. induction fuel as [|fuel IH]; simpl.
  - intros w. apply Hr.
  - apply keeps_bind; [exact Ht | exact Hb|].
    intros [a|]; [apply keeps_same; [exact Hr | reflexivity] | exact IH].
Qed.

Lemma keeps_for_each R {I} (l : list I) (body : I -> M (option error)) :
  (forall a, R a a) -> (forall a b c, R a b -> R b c -> R a c) ->
  (forall i, keeps R (body i)) -> keeps R (for_each l body).
Proof.
  intros Hr Ht Hb. induction l as [|i l IH]; simpl.
  - intros w. apply Hr.
  - apply keeps_bind; [exact Ht | apply Hb|].
    intros [e|]; [apply keeps_same; [exact Hr | reflexivity] | exact IH].
Qed.

(** Goes through a function body for a reflexive and transitive relation;
    [known] closes the calls that write. *)
Ltac keeps_body Hr Ht known :=
  repeat first
    [ known
    | apply keeps_same; [exact Hr | reflexivity]
    | apply keeps_forever; [exact Hr | exact Ht |]
    | apply keeps_for_each; [exact Hr | exact Ht | intros]
    | apply keeps_bind; [exact Ht | | intros]
    | match goal with
      | |- keeps _ (match ?x with _ => _ end) => destruct x
      | |- keeps _ (if ?b then _ else _) => destruct b
      end ].

Lemma keeps_updateClusterDNS env ip c d :
  keeps (appended (hostsPath c)) (updateClusterDNS env ip c d).
Proof.
  intros w. unfold updateClusterDNS, bind, OpenFileAppend, WriteStringAppend, ret.
  destruct (ask_err env (trace w) _); [apply appended_refl|].
  destruct (files w !! hostsPath c) as [old|] eqn:E;
    [|apply appended_refl].
  cbn [record trace files].
  destruct (ask_err env _ _); [apply appended_refl|].
  cbn [snd files]. unfold appended. rewrite E. cbn [default].
  eexists. apply lookup_insert_eq.
Qed.

Lemma emits_WriteFile env P path data perm :
  P (EWriteFile path data perm) = true ->
  emits_only P (WriteFile env path data perm).
Proof.
  intros H w. exists [EWriteFile path data perm]. unfold WriteFile.
  destruct (ask_err env (trace w) _);
    (split; [reflexivity | simpl; rewrite H; reflexivity]).
Qed.

Lemma emits_OpenFileAppend env P path perm :
  P (EOpenFile path true false perm) = true ->
  emits_only P (OpenFileAppend env path perm).
Proof.
  intros H w. exists [EOpenFile path true false perm]. unfold OpenFileAppend.
  destruct (ask_err env (trace w) _); [|destruct (files w !! path)];
    (split; [reflexivity | simpl; rewrite H; reflexivity]).
Qed.

Lemma emits_WriteStringAppend env P path data :
  P (EWriteString path data) = true ->
  emits_only P (WriteStringAppend env path data).
Proof.
  intros H w. exists [EWriteString path data]. unfold WriteStringAppend.
  destruct (ask_err env (trace w) _);
    (split; [reflexivity | simpl; rewrite H; reflexivity]).
Qed.

Lemma emits_for_each {I} P (l : list I) (body : I -> M (option error)) :
  (forall i, emits_only P (body i)) -> emits_only P (for_each l body).
Proof.
  intros Hb. induction l as [|i l IH]; simpl.
  - apply emits_ret.
  - apply emits_bind; [apply Hb|].
    intros [e|]; [apply emits_ret | exact IH].
Qed.

(** As [emits_body], for bodies with loops over lists and with file
    operations, all of them on one path. *)
Ltac emits_files_body :=
  repeat first
    [ apply emits_ret | apply emits_panic | apply emits_logFatal
    | apply emits_call_err; reflexivity
    | apply emits_call_str; reflexivity
    | apply emits_call_ifaces; reflexivity
    | apply emits_sleep; reflexivity
    | apply emits_WriteFile; apply String.eqb_refl
    | apply emits_OpenFileAppend; apply String.eqb_refl
    | apply emits_WriteStringAppend; apply String.eqb_refl
    | apply emits_forever
    | apply emits_for_each; intros
    | apply emits_bind; [|intros]
    | match goal with
      | |- emits_only _ (match ?x with _ => _ end) => destruct x
      | |- emits_only _ (if ?b then _ else _) => destruct b
      end ].

(** Whatever the answers of the outside world and however the run ends,
    [CreateLBVM] never creates the hosts file of the cluster and leaves
    what it held in place: anything it writes comes after.  The only file
    operations among its calls are on that file: opening it for appending,
    without [O_CREATE], and writing to it. *)
Theorem CreateLBVM_only_appends :
  forall env osv fuel params dnsDir dnsSvc gatewayIP w,
    let hosts := hostsPath (LBVMParams.ClusterName params) in
    let w' := snd (CreateLBVM env osv fuel params dnsDir dnsSvc gatewayIP w) in
    appended hosts (files w) (files w')
    /\ exists evs,
         trace w' = trace w ++ evs
         /\ forallb (file_op_within (appends_to hosts)) evs = true.
Proof.
  intros env osv fuel params dnsDir dnsSvc gatewayIP w hosts w'. split.
  - subst hosts w'. revert w.
    set (R := appended (hostsPath (LBVMParams.ClusterName params))).
    assert (Hr : forall a, R a a) by (intros a; apply appended_refl).
    assert (Ht : forall a b c, R a b -> R b c -> R a c)
      by (intros a b c; apply appended_trans).
    change (keeps R (CreateLBVM env osv fuel params dnsDir dnsSvc gatewayIP)).
    unfold CreateLBVM, NewLibvirtConnection, createAndStartLBVM, CreateVM,
      StartVM, waitForVMIP, waitForVMIP_body, GetVMIP, AddDHCPReservation,
      ReloadDNS, Restart, WaitForSSHAccess, sshAttempt, removeOldHostKey, exec.
    keeps_body Hr Ht ltac:(apply keeps_updateClusterDNS).
  - subst hosts w'. revert w.
    change (emits_only
              (file_op_within
                 (appends_to (hostsPath (LBVMParams.ClusterName params))))
              (CreateLBVM env osv fuel params dnsDir dnsSvc gatewayIP)).
    unfold CreateLBVM, NewLibvirtConnection, createAndStartLBVM, CreateVM,
      StartVM, waitForVMIP, waitForVMIP_body, GetVMIP, AddDHCPReservation,
      updateClusterDNS, ReloadDNS, Restart, WaitForSSHAccess, sshAttempt,
      removeOldHostKey, exec.
    emits_files_body.
Qed.

Section CooperativeLB.

Variable env : Env.
Variable ifaces : list DomainInterface.
Variables ip mac : string.
Hypothesis Hcoop : cooperative env ifaces.
Hypothesis Hlease : find_lease ifaces = Some (ip, mac).

Lemma coop_StartVM vmName w :
  StartVM env vmName w
  = (Ret None,
     record (EDomainCreate vmName) (record (ELookupDomainByName vmName) w)).
Proof.
  unfold StartVM.
  rewrite (bind_Ret _ _ _ _ _ (coop_call_err env ifaces Hcoop _ _)).
  rewrite (bind_Ret _ _ _ _ _ (coop_call_err env ifaces Hcoop _ _)).
  reflexivity.
Qed.

Lemma coop_createAndStartLBVM osv params w :
  createAndStartLBVM env osv params w
  = (Ret None,
     record (EDomainCreate (LBVMParams.ClusterName params +:+ "-lb"))
       (record (ELookupDomainByName (LBVMParams.ClusterName params +:+ "-lb"))
          (record (create (lbParams osv params)) w))).
Proof.
  unfold createAndStartLBVM.
  rewrite (bind_Ret _ _ _ _ _ (CreateVM_ok env _ _ (proj1 Hcoop _ _))).
  cbv iota.
  rewrite (bind_Ret _ _ _ _ _ (coop_StartVM _ _)). reflexivity.
Qed.

Lemma coop_ReloadDNS dnsSvc w :
  ReloadDNS env dnsSvc w
  = (Ret None,
     record (EExec "systemctl" ["restart"; "virtnetworkd"])
       (record (ESleep 5)
          (record (EExec "systemctl" ["restart"; dnsSvc]) w))).
Proof.
  unfold ReloadDNS, Restart, exec.
  rewrite (bind_Ret _ _ _ _ _ (coop_call_err env ifaces Hcoop _ _)).
  unfold bind, sleep, call_err. rewrite (proj1 Hcoop). reflexivity.
Qed.

(** The run of [CreateLBVM] up to the update of the hosts file. *)
Lemma coop_CreateLBVM_to_DNS osv fuel params dnsDir dnsSvc gatewayIP w :
  exists w4,
    trace w4 = trace w ++ removelast (lbCallsToOpen osv params ip mac)
    /\ files w4 = files w
    /\ CreateLBVM env osv (S fuel) params dnsDir dnsSvc gatewayIP w
       = (do e4 <- updateClusterDNS env ip (LBVMParams.ClusterName params)
                     (LBVMParams.BaseDomain params);
          match e4 with
          | Some err => ret (Some err)
          | None =>
              do e5 <- ReloadDNS env dnsSvc;
              match e5 with
              | Some err =>
                  ret (Some ("failed to restart DNS service: " +:+ err))
              | None =>
                  WaitForSSHAccess env (S fuel) ip
                    ("lb." +:+ LBVMParams.ClusterName params +:+ "."
                     +:+ LBVMParams.BaseDomain params)
                    "sshkey" "root"
              end
          end) w4.
Proof.
  eexists. split; [|split]; cycle 2.
  - unfold CreateLBVM, NewLibvirtConnection.
    rewrite (bind_Ret _ _ w None
               (record (EConnect (LBVMParams.LibguestfsBackend params)) w));
      [|rewrite (bind_Ret _ _ _ _ _ (coop_call_err env ifaces Hcoop _ w));
        reflexivity].
    cbv iota.
    rewrite (bind_Ret _ _ _ _ _ (coop_createAndStartLBVM osv params _)).
    cbv iota.
    rewrite (bind_Ret _ _ _ _ _
               (coop_waitForVMIP env ifaces ip mac Hcoop Hlease fuel _ _)).
    cbv iota beta.
    rewrite (bind_Ret _ _ _ _ _
               (coop_AddDHCPReservation env ifaces Hcoop _ _ _ _)).
    cbv iota. reflexivity.
  - rewrite !record_trace, <- !app_assoc. reflexivity.
  - reflexivity.
Qed.

End CooperativeLB.

(** When every call succeeds but the hosts file of the cluster does not
    exist, [CreateLBVM] fails at the update of the hosts file: by then the
    load balancer is created and started and its lease reserved; the name
    service is not reloaded, nothing waits for SSH, and no file is
    written. *)
Theorem CreateLBVM_needs_hosts_file
    env osv ifaces ip mac fuel params dnsDir dnsSvc gatewayIP w :
  cooperative env ifaces ->
  find_lease ifaces = Some (ip, mac) ->
  files w !! hostsPath (LBVMParams.ClusterName params) = None ->
  CreateLBVM env osv (S fuel) params dnsDir dnsSvc gatewayIP w
  = (Ret (Some ("failed to open hosts file: open "
                +:+ hostsPath (LBVMParams.ClusterName params)
                +:+ ": no such file or directory")),
     mkWorld (trace w ++ lbCallsToOpen osv params ip mac) (files w)).
Proof.
  intros Hc Hl Hnone.
  destruct (coop_CreateLBVM_to_DNS env ifaces ip mac Hc Hl osv fuel params
              dnsDir dnsSvc gatewayIP w) as (w4 & T4 & F4 & ->).
  unfold updateClusterDNS. unfold bind at 1 2. unfold OpenFileAppend.
  rewrite (proj1 Hc), F4, Hnone. unfold ret, record.
  rewrite T4, F4, <- app_assoc. reflexivity.
Qed.

Lemma CreateLBVM_needs_hosts_file_witness :
  CreateLBVM okEnv "rhel9.0" 1 sampleLB "/etc/dnsmasq.d" "dnsmasq"
    "192.168.100.1" emptyWorld
  = (Ret (Some ("failed to open hosts file: open "
                +:+ hostsPath (LBVMParams.ClusterName sampleLB)
                +:+ ": no such file or directory")),
     mkWorld (trace emptyWorld
              ++ lbCallsToOpen "rhel9.0" sampleLB "192.168.100.10"
                   "52:54:00:aa:bb:cc")
             (files emptyWorld)).
Proof.
  exact (CreateLBVM_needs_hosts_file okEnv "rhel9.0" sampleLease
           "192.168.100.10" "52:54:00:aa:bb:cc" 0 sampleLB "/etc/dnsmasq.d"
           "dnsmasq" "192.168.100.1" emptyWorld okEnv_cooperative
           eq_refl eq_refl).
Defined.

(** When every call succeeds and the hosts file of the cluster exists,
    [CreateLBVM] returns nil; it has reserved the leased address for the
    leased hardware address on the cluster's network, added one line for
    the load balancer (its address with the names lb, api and api-int)
    after what the file held, restarted the name service and then
    virtnetworkd, and waited for SSH as root. *)
Theorem CreateLBVM_publishes_load_balancer
    env osv ifaces ip mac fuel params dnsDir dnsSvc gatewayIP w old :
  cooperative env ifaces ->
  find_lease ifaces = Some (ip, mac) ->
  files w !! hostsPath (LBVMParams.ClusterName params) = Some old ->
  CreateLBVM env osv (S fuel) params dnsDir dnsSvc gatewayIP w
  = (Ret None,
     mkWorld (trace w ++ lbCallsToOpen osv params ip mac
                      ++ lbCallsAfterOpen params ip dnsSvc)
             (<[hostsPath (LBVMParams.ClusterName params) :=
                  old +:+ lbEntry ip (LBVMParams.ClusterName params)
                            (LBVMParams.BaseDomain params) +:+ nl]>
                (files w))).
Proof.
  intros Hc Hl Hold.
  destruct (coop_CreateLBVM_to_DNS env ifaces ip mac Hc Hl osv fuel params
              dnsDir dnsSvc gatewayIP w) as (w4 & T4 & F4 & ->).
  assert (Hupd : updateClusterDNS env ip (LBVMParams.ClusterName params)
                   (LBVMParams.BaseDomain params) w4
                 = (Ret None,
                    mkWorld (trace w4
                             ++ [EOpenFile (hostsPath (LBVMParams.ClusterName params))
                                   true false 384;
                                 EWriteString (hostsPath (LBVMParams.ClusterName params))
                                   (lbEntry ip (LBVMParams.ClusterName params)
                                      (LBVMParams.BaseDomain params) +:+ nl)])
                            (<[hostsPath (LBVMParams.ClusterName params) :=
                                 old +:+ lbEntry ip (LBVMParams.ClusterName params)
                                           (LBVMParams.BaseDomain params) +:+ nl]>
                               (files w4)))).
  { unfold updateClusterDNS, bind, OpenFileAppend, WriteStringAppend, ret.
    rewrite (proj1 Hc), F4, Hold. cbn [record trace files].
    rewrite (proj1 Hc), F4, Hold. cbn [default].
    rewrite <- app_assoc. reflexivity. }
  rewrite (bind_Ret _ _ _ _ _ Hupd). cbv iota.
  rewrite (bind_Ret _ _ _ _ _ (coop_ReloadDNS env ifaces Hc _ _)). cbv iota.
  rewrite (coop_WaitForSSHAccess env ifaces Hc).
  rewrite !record_trace, !record_files. cbn [trace files].
  rewrite T4, F4. unfold lbCallsToOpen, lbCallsAfterOpen.
  cbn [removelast]. rewrite <- !app_assoc. reflexivity.
Qed.

Lemma CreateLBVM_publishes_load_balancer_witness :
  CreateLBVM okEnv "rhel9.0" 1 sampleLB "/etc/dnsmasq.d" "dnsmasq"
    "192.168.100.1" (mkWorld [] {[ "/etc/hosts.ocp" := "" ]})
  = (Ret None,
     mkWorld (lbCallsToOpen "rhel9.0" sampleLB "192.168.100.10"
                "52:54:00:aa:bb:cc"
              ++ lbCallsAfterOpen sampleLB "192.168.100.10" "dnsmasq")
             (<[hostsPath (LBVMParams.ClusterName sampleLB) :=
                  "" +:+ lbEntry "192.168.100.10"
                           (LBVMParams.ClusterName sampleLB)
                           (LBVMParams.BaseDomain sampleLB) +:+ nl]>
                {[ "/etc/hosts.ocp" := "" ]})).
Proof.
  exact (CreateLBVM_publishes_load_balancer okEnv "rhel9.0" sampleLease
           "192.168.100.10" "52:54:00:aa:bb:cc" 0 sampleLB "/etc/dnsmasq.d"
           "dnsmasq" "192.168.100.1"
           (mkWorld [] {[ "/etc/hosts.ocp" := "" ]}) ""
           okEnv_cooperative eq_refl eq_refl).
Defined.

(** ** Package [systemd] *)

(** A method of [Systemd] that returns an error has left the receiver as
    it was: the cached status and the enabled flag only change when the
    systemctl command succeeded. *)
Theorem Systemd_error_keeps_receiver env op s w s' err :
  fst (Systemd.runOp env op s w) = Ret (s', Some err) -> s' = s.
Proof.
  destruct op; unfold Systemd.runOp, Systemd.Start, Systemd.Stop,
    Systemd.Restart, Systemd.Reload, Systemd.Enable, Systemd.Disable,
    Systemd.runCommand, bind, call_str, ret;
    repeat (case_match; simpl); intros Hr; simplify_eq; reflexivity.
Qed.

Lemma Systemd_error_keeps_receiver_witness :
  Systemd.mk "dnsmasq" "inactive" false = Systemd.mk "dnsmasq" "inactive" false.
Proof.
  exact (Systemd_error_keeps_receiver
           (mkEnv (fun _ _ => None) (fun _ _ => inl "exit status 5")
                  (fun _ _ => inr []))
           OpStart (Systemd.mk "dnsmasq" "inactive" false) emptyWorld
           (Systemd.mk "dnsmasq" "inactive" false) "exit status 5" eq_refl).
Defined.

(** [Start], [Stop], [Enable] and [Disable] act on the cached state: once
    one of them has returned nil, calling it again on the receiver runs no
    command and returns nil, whatever the service is doing by then. *)
Theorem Systemd_second_call_is_silent env op s w s1 w1 :
  op <> OpRestart -> op <> OpReload ->
  Systemd.runOp env op s w = (Ret (s1, None), w1) ->
  Systemd.runOp env op s1 w1 = (Ret (s1, None), w1).
Proof.
  intros Hr1 Hr2.
  destruct op; try congruence;
    unfold Systemd.runOp, Systemd.Start, Systemd.Stop, Systemd.Enable,
      Systemd.Disable, Systemd.runCommand, bind, call_str, ret;
    repeat (case_match; simpl); intros Hrun; simplify_eq; simpl in *;
    try reflexivity; try congruence.
Qed.

Lemma Systemd_second_call_is_silent_witness :
  Systemd.runOp
    (mkEnv (fun _ _ => None) (fun _ _ => inr "") (fun _ _ => inr []))
    OpStop (Systemd.mk "dnsmasq" "inactive" true)
    (record (EExec "systemctl" ["stop"; "dnsmasq"]) emptyWorld)
  = (Ret (Systemd.mk "dnsmasq" "inactive" true, None),
     record (EExec "systemctl" ["stop"; "dnsmasq"]) emptyWorld).
Proof.
  refine (Systemd_second_call_is_silent
            (mkEnv (fun _ _ => None) (fun _ _ => inr "") (fun _ _ => inr []))
            OpStop (Systemd.mk "dnsmasq" "active" true) emptyWorld _ _
            _ _ eq_refl); discriminate.
Defined.


(** [CheckStatus] is not all-or-nothing: when `systemctl is-active`
    answers and `systemctl is-enabled` fails, the error is returned with
    the status already replaced by one of the three constants, and the
    enabled flag as it was. *)
Theorem CheckStatus_keeps_status_on_late_error env TrimSpace s w out e :
  ask_str env (trace w) (EExec "systemctl" ["is-active"; Systemd.Name s])
  = inr out ->
  ask_str env (trace w ++ [EExec "systemctl" ["is-active"; Systemd.Name s]])
    (EExec "systemctl" ["is-enabled"; Systemd.Name s]) = inl e ->
  exists status,
    Systemd.CheckStatus env TrimSpace s w
    = (Ret (Systemd.mk (Systemd.Name s) status (Systemd.IsEnabled s), Some e),
       record (EExec "systemctl" ["is-enabled"; Systemd.Name s])
         (record (EExec "systemctl" ["is-active"; Systemd.Name s]) w))
    /\ (status = StatusActive \/ status = StatusInactive
        \/ status = StatusFailed)
    /\ (TrimSpace out = "active" -> status = StatusActive)
    /\ (TrimSpace out = "inactive" -> status = StatusInactive)
    /\ (TrimSpace out <> "active" -> TrimSpace out <> "inactive" ->
        status = StatusFailed).
Proof.
  intros H1 H2. eexists. split.
  - unfold Systemd.CheckStatus, Systemd.runCommand, bind, call_str, ret.
    rewrite H1. cbn [fst snd record trace files Systemd.Name]. rewrite H2.
    reflexivity.
  - unfold StatusActive, StatusInactive, StatusFailed.
    destruct (String.eqb_spec (TrimSpace out) "active") as [Ea|Ea];
      [rewrite Ea; repeat split; auto; try discriminate; congruence|].
    destruct (String.eqb_spec (TrimSpace out) "inactive") as [Ei|Ei];
      repeat split; auto; congruence.
Qed.

Lemma CheckStatus_keeps_status_on_late_error_witness :
  exists status,
    Systemd.CheckStatus
      (mkEnv (fun _ _ => None)
             (fun h _ => match h with
                         | [] => inr "inactive"
                         | _ => inl "exit status 1"
                         end)
             (fun _ _ => inr []))
      (fun out => out) (Systemd.mk "dnsmasq" "active" true) emptyWorld
    = (Ret (Systemd.mk "dnsmasq" status true, Some "exit status 1"),
       record (EExec "systemctl" ["is-enabled"; "dnsmasq"])
         (record (EExec "systemctl" ["is-active"; "dnsmasq"]) emptyWorld))
    /\ (status = StatusActive \/ status = StatusInactive
        \/ status = StatusFailed)
    /\ ("inactive" = "active" -> status = StatusActive)
    /\ ("inactive" = "inactive" -> status = StatusInactive)
    /\ ("inactive" <> "active" -> "inactive" <> "inactive" ->
        status = StatusFailed).
Proof.
  exact (CheckStatus_keeps_status_on_late_error
           (mkEnv (fun _ _ => None)
                  (fun h _ => match h with
                              | [] => inr "inactive"
                              | _ => inl "exit status 1"
                              end)
                  (fun _ _ => inr []))
           (fun out => out) (Systemd.mk "dnsmasq" "active" true) emptyWorld
           "inactive" "exit status 1" eq_refl eq_refl).
Defined.

(** ** Package [utils]: the name service and the hosts file *)

(** Whatever service [reloadDNSService] is given, the one command it runs
    is systemctl on the unit NetworkManager: `reload` when the service is
    NetworkManager and `restart` otherwise, so the unit dnsmasq is never
    restarted; the error of that command is the error returned.  With the
    service [determineDNSSvc] derives from a directory, every directory
    but /etc/NetworkManager/dnsmasq.d gives `restart NetworkManager`. *)
Theorem reloadDNSService_acts_on_NetworkManager :
  (forall env dnsSvc w,
     exists verb,
       verb = (if String.eqb dnsSvc "NetworkManager" then "reload"
               else "restart")
       /\ reloadDNSService env dnsSvc w
          = (Ret (match ask_str env (trace w)
                          (EExec "systemctl" [verb; "NetworkManager"]) with
                  | inl err => Some err
                  | inr _ => None
                  end),
             record (EExec "systemctl" [verb; "NetworkManager"]) w))
  /\ (forall env dnsDir w,
        trace (snd (reloadDNSService env (determineDNSSvc dnsDir) w))
        = trace w
          ++ [EExec "systemctl"
                [if String.eqb dnsDir "/etc/NetworkManager/dnsmasq.d"
                 then "reload" else "restart";
                 "NetworkManager"]]).
Proof.
  assert (H : forall env dnsSvc w,
     exists verb,
       verb = (if String.eqb dnsSvc "NetworkManager" then "reload"
               else "restart")
       /\ reloadDNSService env dnsSvc w
          = (Ret (match ask_str env (trace w)
                          (EExec "systemctl" [verb; "NetworkManager"]) with
                  | inl err => Some err
                  | inr _ => None
                  end),
             record (EExec "systemctl" [verb; "NetworkManager"]) w)).
  { intros env dnsSvc w. eexists. split; [reflexivity|].
    unfold reloadDNSService.
    destruct (String.eqb dnsSvc "NetworkManager");
      [change (String.eqb "reload" "restart") with false;
       change (String.eqb "reload" "reload") with true
      |change (String.eqb "restart" "restart") with true];
      cbv iota;
      unfold Systemd.Restart, Systemd.Reload, Systemd.runCommand, bind,
        call_str, ret; cbn [fst snd Systemd.Name];
      destruct (ask_str env (trace w) _); reflexivity. }
  split; [exact H|].
  intros env dnsDir w.
  destruct (H env (determineDNSSvc dnsDir) w) as (verb & -> & ->).
  unfold determineDNSSvc.
  destruct (String.eqb dnsDir "/etc/NetworkManager/dnsmasq.d"); reflexivity.
Qed.

Lemma conf_path_not_hosts dnsDir clusterName :
  dnsDir +:+ "/" +:+ clusterName +:+ ".conf" <> hostsPath clusterName.
Proof.
  unfold hostsPath. intros H.
  assert (L := f_equal String.length H).
  rewrite !append_length in L. cbn [String.length] in L.
  destruct dnsDir as [|a1 [|a2 [|a3 [|a4 [|a5 [|a6 d]]]]]];
    cbn [String.length] in L; try lia.
  cbv [String.append] in H. fold String.append in H.
  injection H as _ _ _ _ _ H. discriminate H.
Qed.

(** When [CreateHostsAndDNSConfig] returns nil, the hosts file of the
    cluster exists and is empty, whatever it held before, the dnsmasq
    configuration of the cluster names that hosts file, and no other file
    has changed. *)
Theorem CreateHostsAndDNSConfig_resets_hosts env clusterName dnsDir w :
  fst (CreateHostsAndDNSConfig env clusterName dnsDir w) = Ret None ->
  let fs := files (snd (CreateHostsAndDNSConfig env clusterName dnsDir w)) in
  fs !! hostsPath clusterName = Some ""
  /\ fs !! (dnsDir +:+ "/" +:+ clusterName +:+ ".conf")
     = Some ("addn-hosts=" +:+ hostsPath clusterName)
  /\ forall p, p <> hostsPath clusterName ->
               p <> dnsDir +:+ "/" +:+ clusterName +:+ ".conf" ->
               fs !! p = files w !! p.
Proof.
  assert (Hne := conf_path_not_hosts dnsDir clusterName).
  unfold CreateHostsAndDNSConfig, touchFile, CreateFile, writeFile, WriteFile,
    bind, ret.
  fold (hostsPath clusterName).
  destruct (ask_err env (trace w) _); [discriminate|].
  cbn [trace files].
  destruct (ask_err env _ _); [discriminate|].
  intros _. cbn [snd files]. split; [|split].
  - rewrite lookup_insert_ne by exact Hne. apply lookup_insert_eq.
  - apply lookup_insert_eq.
  - intros p H1 H2. rewrite !lookup_insert_ne by congruence. reflexivity.
Qed.

Lemma CreateHostsAndDNSConfig_resets_hosts_witness :
  let fs := files (snd (CreateHostsAndDNSConfig okEnv "ocp" "/etc/dnsmasq.d"
                          (mkWorld [] {[ "/etc/hosts.ocp" := "10.0.0.1 old" ]})))
  in
  fs !! hostsPath "ocp" = Some ""
  /\ fs !! ("/etc/dnsmasq.d" +:+ "/" +:+ "ocp" +:+ ".conf")
     = Some ("addn-hosts=" +:+ hostsPath "ocp")
  /\ forall p, p <> hostsPath "ocp" ->
               p <> "/etc/dnsmasq.d" +:+ "/" +:+ "ocp" +:+ ".conf" ->
               fs !! p
               = files (mkWorld [] {[ "/etc/hosts.ocp" := "10.0.0.1 old" ]})
                 !! p.
Proof.
  exact (CreateHostsAndDNSConfig_resets_hosts okEnv "ocp" "/etc/dnsmasq.d"
           (mkWorld [] {[ "/etc/hosts.ocp" := "10.0.0.1 old" ]}) eq_refl).
Defined.

Lemma CreateHostsAndDNSConfig_ok env clusterName dnsDir w :
  (forall h ev, ask_err env h ev = None) ->
  CreateHostsAndDNSConfig env clusterName dnsDir w
  = (Ret None,
     mkWorld (trace w
              ++ [EOpenFile (hostsPath clusterName) false true 438;
                  EWriteFile (dnsDir +:+ "/" +:+ clusterName +:+ ".conf")
                    ("addn-hosts=" +:+ hostsPath clusterName) 420])
             (<[dnsDir +:+ "/" +:+ clusterName +:+ ".conf" :=
                  "addn-hosts=" +:+ hostsPath clusterName]>
                (<[hostsPath clusterName := ""]> (files w)))).
Proof.
  intros Hok.
  unfold CreateHostsAndDNSConfig, touchFile, CreateFile, writeFile, WriteFile,
    bind, ret.
  fold (hostsPath clusterName).
  rewrite Hok. cbn [trace files]. rewrite Hok.
  rewrite <- app_assoc. reflexivity.
Qed.

Lemma updateClusterDNS_ok env ip clusterName baseDomain w old :
  (forall h ev, ask_err env h ev = None) ->
  files w !! hostsPath clusterName = Some old ->
  updateClusterDNS env ip clusterName baseDomain w
  = (Ret None,
     mkWorld (trace w ++ [EOpenFile (hostsPath clusterName) true false 384;
                          EWriteString (hostsPath clusterName)
                            (lbEntry ip clusterName baseDomain +:+ nl)])
             (<[hostsPath clusterName :=
                  old +:+ lbEntry ip clusterName baseDomain +:+ nl]> (files w))).
Proof.
  intros Hok Hold.
  unfold updateClusterDNS, bind, OpenFileAppend, WriteStringAppend, ret.
  rewrite Hok, Hold. cbn [record trace files]. rewrite Hok, Hold.
  cbn [default]. rewrite <- app_assoc. reflexivity.
Qed.

(** After [CreateHostsAndDNSConfig], when the file calls succeed,
    [updateClusterDNS] returns nil and the hosts file of the cluster holds
    the line of the load balancer and nothing else, whatever it held
    before the two calls. *)
Theorem updateClusterDNS_after_CreateHostsAndDNSConfig
    env clusterName dnsDir ip baseDomain w :
  (forall h ev, ask_err env h ev = None) ->
  let w1 := snd (CreateHostsAndDNSConfig env clusterName dnsDir w) in
  let r := updateClusterDNS env ip clusterName baseDomain w1 in
  fst (CreateHostsAndDNSConfig env clusterName dnsDir w) = Ret None
  /\ fst r = Ret None
  /\ files (snd r) !! hostsPath clusterName
     = Some (lbEntry ip clusterName baseDomain +:+ nl).
Proof.
  intros Hok.
  assert (Hne := conf_path_not_hosts dnsDir clusterName).
  rewrite (CreateHostsAndDNSConfig_ok env clusterName dnsDir w Hok).
  cbn [fst snd].
  rewrite (updateClusterDNS_ok env ip clusterName baseDomain _ "" Hok)
    by (cbn [files]; rewrite lookup_insert_ne by exact Hne;
        apply lookup_insert_eq).
  cbn [fst snd files].
  split; [reflexivity|]. split; [reflexivity|]. apply lookup_insert_eq.
Qed.

Lemma updateClusterDNS_after_CreateHostsAndDNSConfig_witness :
  let w1 := snd (CreateHostsAndDNSConfig okEnv "ocp" "/etc/dnsmasq.d"
                   (mkWorld [] {[ "/etc/hosts.ocp" := "10.0.0.1 old" ]})) in
  let r := updateClusterDNS okEnv "192.168.100.10" "ocp" "example.com" w1 in
  fst (CreateHostsAndDNSConfig okEnv "ocp" "/etc/dnsmasq.d"
         (mkWorld [] {[ "/etc/hosts.ocp" := "10.0.0.1 old" ]})) = Ret None
  /\ fst r = Ret None
  /\ files (snd r) !! hostsPath "ocp"
     = Some (lbEntry "192.168.100.10" "ocp" "example.com" +:+ nl).
Proof.
  exact (updateClusterDNS_after_CreateHostsAndDNSConfig okEnv "ocp"
           "/etc/dnsmasq.d" "192.168.100.10" "example.com"
           (mkWorld [] {[ "/etc/hosts.ocp" := "10.0.0.1 old" ]})
           (fun _ _ => eq_refl)).
Defined.


(** ** [CreateNodes] and the files *)

(** Whatever the answers of the outside world and however the run ends,
    the only file operations among the calls of [CreateNodes] are
    [os.WriteFile] on the hosts file of the cluster: it opens no file and
    appends to none. *)
Theorem CreateNodes_only_writes_hosts :
  forall env osv fuel params w,
    exists evs,
      trace (snd (CreateNodes env osv fuel params w)) = trace w ++ evs
      /\ forallb (file_op_within
                    (writes_whole (hostsPath (NodeParams.ClusterName params))))
                 evs = true.
Proof.
  intros env osv fuel params.
  change (emits_only
            (file_op_within
               (writes_whole (hostsPath (NodeParams.ClusterName params))))
            (CreateNodes env osv fuel params)).
  unfold CreateNodes, NewLibvirtConnection, createBootstrapNode,
    createMasterNodes, createWorkerNodes, CreateVM, waitForVMIPs, addressNode,
    updateHostDNS, waitForVMIP, waitForVMIP_body, GetVMIP, AddDHCPReservation,
    WaitForSSHAccess, sshAttempt, removeOldHostKey, exec.
  emits_files_body.
Qed.

(** ** The check of the resolver configuration *)

Lemma splitLines_cons s : exists line lines, splitLines s = line :: lines.
Proof.
  induction s as [|c s (line & lines & IH)]; simpl; [eauto|].
  rewrite IH. destruct (Ascii.eqb c "010"); eauto.
Qed.

Lemma splitLines_app a b :
  splitLines (a +:+ nl +:+ b) = splitLines a ++ splitLines b.
Proof.
  induction a as [|c a IH].
  - change ("" +:+ nl +:+ b) with (String "010" b).
    destruct (splitLines_cons b) as (line & lines & E).
    simpl. rewrite E. reflexivity.
  - rewrite append_cons. simpl. rewrite IH.
    destruct (splitLines_cons a) as (line & lines & E). rewrite E. simpl.
    destruct (Ascii.eqb c "010"); reflexivity.
Qed.

Lemma splitLines_line line :
  has_char "010" line = false -> splitLines line = [line].
Proof.
  induction line as [|c line IH]; cbn [has_char splitLines]; [reflexivity|].
  destruct (ascii_dec "010" c) as [|Hc]; [discriminate|].
  intros H. rewrite (IH H).
  destruct (Ascii.eqb_spec c "010") as [->|_]; [contradiction|reflexivity].
Qed.

Lemma checkLines_skips Fields pre rest :
  Forall (fun l => String.prefix "nameserver" l = false) pre ->
  checkLines Fields (pre ++ rest) = checkLines Fields rest.
Proof.
  induction 1 as [|l pre Hl _ IH]; [reflexivity|].
  cbn [app checkLines]. rewrite Hl. exact IH.
Qed.

(** [checkFirstNameserver] accepts a resolver configuration exactly when
    the first of its lines that begins with `nameserver` has a second
    field that begins with `127.`; a configuration with no such line, the
    empty one included, is refused. *)
Theorem checkResolvConf_accepts_iff Fields resolvConf :
  checkResolvConf Fields resolvConf = None
  <-> exists pre line rest,
        splitLines resolvConf = pre ++ line :: rest
        /\ Forall (fun l => String.prefix "nameserver" l = false) pre
        /\ String.prefix "nameserver" line = true
        /\ exists first second others,
             Fields line = first :: second :: others
             /\ String.prefix "127." second = true.
Proof.
  unfold checkResolvConf. generalize (splitLines resolvConf) as lines.
  intros lines. split.
  - induction lines as [|l lines IH]; [discriminate|].
    cbn [checkLines].
    destruct (String.prefix "nameserver" l) eqn:Hl.
    + destruct (pointsToLocalhost (Fields l)) eqn:Hp; [|discriminate].
      intros _. exists [], l, lines. repeat split; auto.
      unfold pointsToLocalhost in Hp.
      destruct (Fields l) as [|f [|s o]]; try discriminate. eauto.
    + intros H. destruct (IH H) as (pre & line & rest & -> & Hpre & Hrest).
      exists (l :: pre), line, rest. repeat split; auto; apply Hrest.
  - intros (pre & line & rest & -> & Hpre & Hline & f & s & o & Hf & Hs).
    rewrite (checkLines_skips Fields pre _ Hpre).
    cbn [checkLines]. rewrite Hline, Hf. cbn [pointsToLocalhost].
    rewrite Hs. reflexivity.
Qed.

(** The verdict of [checkFirstNameserver] is settled by the first line
    that begins with `nameserver`: the text after that line plays no
    part, so a later `nameserver 127.0.0.1` does not make up for a first
    name server elsewhere. *)
Theorem checkResolvConf_first_nameserver_decides Fields pre line rest :
  Forall (fun l => String.prefix "nameserver" l = false) (splitLines pre) ->
  String.prefix "nameserver" line = true ->
  has_char "010" line = false ->
  checkResolvConf Fields (pre +:+ nl +:+ line +:+ nl +:+ rest)
  = (if pointsToLocalhost (Fields line) then None else Some errNotLocalhost)
  /\ checkResolvConf Fields (line +:+ nl +:+ rest)
     = (if pointsToLocalhost (Fields line) then None
        else Some errNotLocalhost).
Proof.
  intros Hpre Hline Hnl. unfold checkResolvConf.
  rewrite !splitLines_app, (splitLines_line line Hnl).
  rewrite (checkLines_skips Fields _ _ Hpre).
  cbn [app checkLines]. rewrite Hline.
  split; destruct (pointsToLocalhost (Fields line)); reflexivity.
Qed.

Lemma checkResolvConf_first_nameserver_decides_witness :
  checkResolvConf asciiFields
    (("# Generated by NetworkManager" +:+ nl +:+ "search example.com")
     +:+ nl +:+ "nameserver 192.168.1.1" +:+ nl
     +:+ ("nameserver 127.0.0.1" +:+ nl))
  = Some errNotLocalhost
  /\ checkResolvConf asciiFields
       ("nameserver 192.168.1.1" +:+ nl +:+ ("nameserver 127.0.0.1" +:+ nl))
     = Some errNotLocalhost.
Proof.
  refine (checkResolvConf_first_nameserver_decides asciiFields
            ("# Generated by NetworkManager" +:+ nl +:+ "search example.com")
            "nameserver 192.168.1.1" ("nameserver 127.0.0.1" +:+ nl)
            _ eq_refl eq_refl).
  repeat constructor.
Defined.
